(** * GDG-Link: the registration analysis of [analyze_full.py]

    A shallow embedding of the script that classifies Skills Boost
    registrations: the duplicate grouping by phone number, the profile
    check with its retries, the qualification rules and the summary.

    Conventions of the embedding.
    - A cell of a text column is [option string]; [None] is pandas' NaN.
      The phone column is numeric ([option Z]).
    - A profile column is an object column initialised with Python's
      [None]; its cells are [option Z] or [option string].
    - pandas is read as version 1.5 or later: a row whose grouping key is
      NaN is left out of every group, and [ngroup] and [cumcount] give NaN
      there, which also turns the whole column into floats.
    - Python's floats of the percentages are read as exact rationals.
    - A [string] is the sequence of the characters of a Python [str], one
      [ascii] for each character, whose number is the code point of the
      character; the texts of the embedding are those whose characters are
      below U+0100.  On these [str.isspace], [\d] and the [.] of a
      regular expression are as given here.
    - Python is read as CPython 3.11 or later: [int] refuses a string of
      more than 4300 digits.
    - The two email columns hold text where they are not NaN. *)

From Stdlib Require Import ZArith List String Ascii Bool Lia.
From Stdlib Require Import Permutation Sorted QArith DecimalString DecimalPos.
Import ListNotations.

Open Scope string_scope.
Open Scope Z_scope.

(** ** Python values *)

Module Py.

(** [pd.isna] on a cell. *)
Definition isna {A : Type} (c : option A) : bool :=
  match c with None => true | Some _ => false end.

Definition notna {A : Type} (c : option A) : bool := negb (isna c).

(** Truth value of an integer cell: [None] and [0] are false. *)
Definition truthy (c : option Z) : bool :=
  match c with None => false | Some z => negb (z =? 0) end.

(** [c == k] for an integer cell and a literal. *)
Definition eq_int (c : option Z) (k : Z) : bool :=
  match c with None => false | Some z => z =? k end.

(** [c < k], evaluated only where [c] is truthy. *)
Definition lt_int (c : option Z) (k : Z) : bool :=
  match c with None => false | Some z => z <? k end.

Definition gt_int (c : option Z) (k : Z) : bool :=
  match c with None => false | Some z => k <? z end.

(** [c == s] for a text cell and a literal. *)
Definition eq_str (c : option string) (s : string) : bool :=
  match c with None => false | Some t => String.eqb t s end.

(** [c != s]: NaN differs from every string. *)
Definition ne_str (c : option string) (s : string) : bool :=
  negb (eq_str c s).

(** [str(z)] *)
Definition str_int (z : Z) : string :=
  NilZero.string_of_int (Z.to_int z).

Definition str_nat (n : nat) : string :=
  NilZero.string_of_uint (Nat.to_uint n).

(** [c or 0] inside an f-string. *)
Definition or_zero (c : option Z) : Z :=
  match c with
  | None => 0
  | Some z => if z =? 0 then 0 else z
  end.

(** [str.isspace] on a character below U+0100: tab to carriage return,
    the four separators 28..31, the space, U+0085 and U+00A0. *)
Definition isspace (c : ascii) : bool :=
  let n := nat_of_ascii c in
  ((9 <=? n)%nat && (n <=? 13)%nat)
  || ((28 <=? n)%nat && (n <=? 31)%nat)
  || (n =? 32)%nat
  || (n =? 133)%nat
  || (n =? 160)%nat.

Fixpoint lstrip (s : string) : string :=
  match s with
  | EmptyString => EmptyString
  | String c s' => if isspace c then lstrip s' else s
  end.

Fixpoint rev_onto (s acc : string) : string :=
  match s with
  | EmptyString => acc
  | String c s' => rev_onto s' (String c acc)
  end.

Definition rev (s : string) : string := rev_onto s EmptyString.

Definition rstrip (s : string) : string := rev (lstrip (rev s)).

(** [s.strip()] *)
Definition strip (s : string) : string := rstrip (lstrip s).

End Py.

(** ** Regular expressions of [str.contains]

    [Series.str.contains(pat, na=False)] has [regex=True] by default: the
    pattern is searched with [re.search].  The one pattern of the script,
    ['.gdgocbcet@gmail.com'], has [.] as its only metacharacter. *)

Module Re.

Inductive atom : Type :=
| Dot
| Lit (c : ascii).

Definition newline : ascii := ascii_of_nat 10.

(** An unescaped [.] is any character but the newline. *)
Fixpoint compile (p : string) : list atom :=
  match p with
  | EmptyString => []
  | String c p' =>
      (if Ascii.eqb c "."%char then Dot else Lit c) :: compile p'
  end.

Definition atom_matches (a : atom) (c : ascii) : bool :=
  match a with
  | Dot => negb (Ascii.eqb c newline)
  | Lit d => Ascii.eqb c d
  end.

(** [re.match]: the pattern matches a prefix of [s]. *)
Fixpoint match_here (p : list atom) (s : string) : bool :=
  match p, s with
  | [], _ => true
  | _ :: _, EmptyString => false
  | a :: p', String c s' => atom_matches a c && match_here p' s'
  end.

(** [re.search]: the pattern matches at some position of [s]. *)
Fixpoint search (p : list atom) (s : string) : bool :=
  match_here p s
  || match s with
     | EmptyString => false
     | String _ s' => search p s'
     end.

(** [Series.str.contains(pat, na=na)] on one cell. *)
Definition contains (pat : string) (na : bool) (c : option string) : bool :=
  match c with
  | None => na
  | Some s => search (compile pat) s
  end.

End Re.

(** ** The data frame *)

(** The verdicts; [status_name] gives the string the script stores. *)
Inductive status : Type :=
| INCOMPLETE_REGISTRATION
| TERMS_DECLINED
| NO_PROFILE_URL
| DUPLICATE_ENTRY
| HARD_QUALIFIED
| QUALIFIED_TIER2
| FLAGGED_DIFF_ACCOUNT
| DISQUALIFIED
| CAUTION_PRE2025
| REVIEW_NEEDED
| REVIEW_PRE2025
| UNKNOWN.

Definition status_name (s : status) : string :=
  match s with
  | INCOMPLETE_REGISTRATION => "INCOMPLETE_REGISTRATION"
  | TERMS_DECLINED => "TERMS_DECLINED"
  | NO_PROFILE_URL => "NO_PROFILE_URL"
  | DUPLICATE_ENTRY => "DUPLICATE_ENTRY"
  | HARD_QUALIFIED => "HARD_QUALIFIED"
  | QUALIFIED_TIER2 => "QUALIFIED_TIER2"
  | FLAGGED_DIFF_ACCOUNT => "FLAGGED_DIFF_ACCOUNT"
  | DISQUALIFIED => "DISQUALIFIED"
  | CAUTION_PRE2025 => "CAUTION_PRE2025"
  | REVIEW_NEEDED => "REVIEW_NEEDED"
  | REVIEW_PRE2025 => "REVIEW_PRE2025"
  | UNKNOWN => "UNKNOWN"
  end.

Definition status_eq_dec (a b : status) : {a = b} + {a <> b}.
Proof. decide equality. Defined.

Definition status_eqb (a b : status) : bool :=
  if status_eq_dec a b then true else false.

(** A cell of [duplicate_group] or [duplicate_position]: an integer when
    no phone number of the file is NaN, else a float or NaN. *)
Inductive count_cell : Type :=
| CInt (n : nat)
| CFloat (n : nat)
| CNaN.

Definition cell_value (c : count_cell) : option nat :=
  match c with
  | CInt n | CFloat n => Some n
  | CNaN => None
  end.

(** [c > 1]; a comparison with NaN is false. *)
Definition cell_gt1 (c : count_cell) : bool :=
  match c with
  | CInt n | CFloat n => (1 <? n)%nat
  | CNaN => false
  end.

(** The cell inside an f-string. *)
Definition cell_str (c : count_cell) : string :=
  match c with
  | CInt n => Py.str_nat n
  | CFloat n => Py.str_nat n ++ ".0"
  | CNaN => "nan"
  end.

(** One line of [data.csv], with the columns the script reads.  [Terms] is
    [None] when the file has no such column. *)
Record registration : Type := {
  Name : option string;
  Email_Address : option string;
  Skills_Boost_Email : option string;
  Phone_Number : option Z;
  Terms : option (option string);
  Skills_Boost_Public_Profile_URL : option string
}.

(** One row of [df] after the columns of [main] were added. *)
Record row : Type := {
  reg : registration;
  is_duplicate : bool;
  duplicate_group : count_cell;
  duplicate_position : count_cell;
  email_matches : bool;
  email_has_gdg_domain : bool;
  skillsboost_has_gdg_domain : bool;
  profile_creation_year : option Z;
  profile_badge_count : option Z;
  profile_league : option string;
  profile_points : option Z;
  profile_status : option string;
  qualification_status : option status;
  qualification_reason : option string
}.

(** ** [determine_qualification] *)

Module Rules.

Definition accepted_terms : string := "Yes, I accept the terms".

(** Lines 102-103. *)
Definition incomplete (r : row) : bool :=
  Py.isna (Name (reg r)) || Py.isna (Email_Address (reg r))
  || Py.isna (Skills_Boost_Email (reg r)) || Py.isna (Phone_Number (reg r)).

(** Line 107: ['Terms' in row and row['Terms'] != "Yes, I accept the terms"]. *)
Definition terms_declined (r : row) : bool :=
  match Terms (reg r) with
  | None => false
  | Some v => Py.ne_str v accepted_terms
  end.

(** Line 111. *)
Definition no_profile_url (r : row) : bool :=
  match Skills_Boost_Public_Profile_URL (reg r) with
  | None => true
  | Some u => String.eqb (Py.strip u) ""
  end.

(** Line 125. *)
Definition duplicate (r : row) : bool :=
  is_duplicate r && cell_gt1 (duplicate_position r).

Definition no_badges (r : row) : bool :=
  Py.eq_int (profile_badge_count r) 0 || Py.isna (profile_badge_count r).

Definition no_points (r : row) : bool :=
  Py.eq_int (profile_points r) 0 || Py.isna (profile_points r).

Definition no_league (r : row) : bool :=
  Py.isna (profile_league r) || Py.eq_str (profile_league r) "".

(** Lines 129-133. *)
Definition hard_qualified (r : row) : bool :=
  email_has_gdg_domain r
  && Py.eq_int (profile_creation_year r) 2025
  && no_badges r && no_points r && no_league r.

(** Lines 137-141. *)
Definition tier2 (r : row) : bool :=
  email_matches r
  && Py.eq_int (profile_creation_year r) 2025
  && no_badges r && no_league r && no_points r.

(** Line 145. *)
Definition flagged (r : row) : bool :=
  negb (email_matches r) && skillsboost_has_gdg_domain r.

(** Line 149: [badge_count and badge_count > 0]. *)
Definition has_badges (r : row) : bool :=
  Py.truthy (profile_badge_count r) && Py.gt_int (profile_badge_count r) 0.

(** [creation_year and creation_year < 2025] of lines 153 and 162. *)
Definition pre2025 (r : row) : bool :=
  Py.truthy (profile_creation_year r)
  && Py.lt_int (profile_creation_year r) 2025.

(** Lines 153-156. *)
Definition caution (r : row) : bool :=
  pre2025 r && no_badges r && no_league r && no_points r.

(** Line 160. *)
Definition is2025 (r : row) : bool :=
  Py.eq_int (profile_creation_year r) 2025.

(** The year inside an f-string; it is read only where it is an int. *)
Definition year_str (r : row) : string :=
  match profile_creation_year r with
  | Some y => Py.str_int y
  | None => "None"
  end.

Definition badges_str (r : row) : string :=
  match profile_badge_count r with
  | Some b => Py.str_int b
  | None => "None"
  end.

Definition review_reason (r : row) : string :=
  "2025 account with " ++ Py.str_int (Py.or_zero (profile_badge_count r))
  ++ " badges, " ++ Py.str_int (Py.or_zero (profile_points r)) ++ " points".

End Rules.

Import Rules.

Definition determine_qualification (r : row) : status * string :=
  if incomplete r then
    (INCOMPLETE_REGISTRATION, "Missing required fields (Name, Email, or Phone)")
  else if terms_declined r then
    (TERMS_DECLINED, "Terms and conditions not accepted")
  else if no_profile_url r then
    (NO_PROFILE_URL, "Skills Boost profile URL missing")
  else if duplicate r then
    (DUPLICATE_ENTRY,
     "Duplicate entry #" ++ cell_str (duplicate_position r)
       ++ " for same phone number")
  else if hard_qualified r then
    (HARD_QUALIFIED, "GDG domain + 2025 creation + empty profile")
  else if tier2 r then
    (QUALIFIED_TIER2, "Matching emails + 2025 creation + empty profile")
  else if flagged r then
    (FLAGGED_DIFF_ACCOUNT, "Different email but Skills Boost has GDG domain")
  else if has_badges r then
    (DISQUALIFIED, "Has " ++ badges_str r ++ " badges")
  else if caution r then
    (CAUTION_PRE2025, "Created in " ++ year_str r ++ " but empty profile")
  else if is2025 r then
    (REVIEW_NEEDED, review_reason r)
  else if pre2025 r then
    (REVIEW_PRE2025, "Pre-2025 account (" ++ year_str r ++ ") needs review")
  else
    (UNKNOWN, "Could not determine profile details").

(** ** Grouping by phone number (lines 174-179) *)

Module Grouper.

Definition key : Type := option Z.

Definition key_eq_dec (a b : key) : {a = b} + {a <> b}.
Proof. decide equality. apply Z.eq_dec. Defined.

(** The keys that are not NaN, in file order. *)
Fixpoint present (keys : list key) : list Z :=
  match keys with
  | [] => []
  | None :: ks => present ks
  | Some p :: ks => p :: present ks
  end.

(** [groupby] leaves the NaN keys out ([dropna=True]); when it did so,
    [ngroup] and [cumcount] return float columns. *)
Definition has_dropped_na (keys : list key) : bool :=
  existsb Py.isna keys.

Definition number (floats : bool) (n : nat) : count_cell :=
  if floats then CFloat n else CInt n.

(** [df.duplicated(subset=['Phone Number'], keep=False)]: a row is marked
    when its key occurs more than once; [duplicated] takes two NaN for
    equal. *)
Definition duplicated (keys : list key) : list bool :=
  map (fun k => (1 <? count_occ key_eq_dec keys k)%nat) keys.

(** The group number of phone [p]: its index among the distinct phone
    numbers of the file in increasing order ([groupby] sorts its keys),
    that is, how many distinct phone numbers are smaller. *)
Definition group_number (keys : list key) (p : Z) : nat :=
  List.length (nodup Z.eq_dec (filter (fun q => q <? p) (present keys))).

(** [df.groupby('Phone Number').ngroup()] *)
Definition ngroup (keys : list key) : list count_cell :=
  map (fun k =>
         match k with
         | None => CNaN
         | Some p => number (has_dropped_na keys) (group_number keys p)
         end) keys.

(** [df.groupby('Phone Number').cumcount() + 1]: one more than the number
    of earlier rows with the same phone number.  [floats] is
    [has_dropped_na] of the whole column, [seen] the keys above. *)
Fixpoint cumcount_plus_1 (floats : bool) (seen : list Z) (keys : list key)
  : list count_cell :=
  match keys with
  | [] => []
  | None :: ks => CNaN :: cumcount_plus_1 floats seen ks
  | Some p :: ks =>
      number floats (count_occ Z.eq_dec seen p + 1)
        :: cumcount_plus_1 floats (p :: seen) ks
  end.

(** Order of [sort_values] on one column: increasing, NaN last. *)
Definition cell_ltb (a b : count_cell) : bool :=
  match cell_value a, cell_value b with
  | Some x, Some y => (x <? y)%nat
  | Some _, None => true
  | None, _ => false
  end.

Definition cell_leb (a b : count_cell) : bool := negb (cell_ltb b a).

(** Order on the pair [(duplicate_group, duplicate_position)]. *)
Definition row_leb (a b : row) : bool :=
  if cell_ltb (duplicate_group a) (duplicate_group b) then true
  else if cell_ltb (duplicate_group b) (duplicate_group a) then false
  else cell_leb (duplicate_position a) (duplicate_position b).

Fixpoint insert (r : row) (l : list row) : list row :=
  match l with
  | [] => [r]
  | x :: l' => if row_leb r x then r :: l else x :: insert r l'
  end.

(** [df.sort_values(['duplicate_group', 'duplicate_position'])], a stable
    sort: rows with equal keys keep their file order. *)
Fixpoint sort_values (l : list row) : list row :=
  match l with
  | [] => []
  | r :: l' => insert r (sort_values l')
  end.

End Grouper.

(** ** The columns added by [main] (lines 174-198) *)

Definition gdg_domain : string := ".gdgocbcet@gmail.com".

(** [df['Email Address'] == df['Skills Boost Email']]; NaN equals nothing. *)
Definition cells_equal (a b : option string) : bool :=
  match a, b with
  | Some s, Some t => String.eqb s t
  | _, _ => false
  end.

(** [.str.contains('.gdgocbcet@gmail.com', na=False)] *)
Definition has_gdg_domain (email : option string) : bool :=
  Re.contains gdg_domain false email.

(** The row of a registration with its three duplicate cells: the email
    columns are computed from the row itself, the profile columns and the
    verdict start as [None]. *)
Definition new_row (x : registration * bool * count_cell * count_cell) : row :=
  let '(g, dup, grp, pos) := x in
  {| reg := g;
     is_duplicate := dup;
     duplicate_group := grp;
     duplicate_position := pos;
     email_matches := cells_equal (Email_Address g) (Skills_Boost_Email g);
     email_has_gdg_domain := has_gdg_domain (Email_Address g);
     skillsboost_has_gdg_domain := has_gdg_domain (Skills_Boost_Email g);
     profile_creation_year := None;
     profile_badge_count := None;
     profile_league := None;
     profile_points := None;
     profile_status := None;
     qualification_status := None;
     qualification_reason := None |}.

(** The frame in file order, with the duplicate columns. *)
Definition marked (data : list registration) : list row :=
  let keys := map Phone_Number data in
  map new_row
    (combine
       (combine (combine data (Grouper.duplicated keys)) (Grouper.ngroup keys))
       (Grouper.cumcount_plus_1 (Grouper.has_dropped_na keys) [] keys)).

(** The frame the loop of [main] runs over. *)
Definition frame (data : list registration) : list row :=
  Grouper.sort_values (marked data).

(** ** [check_profile] *)

(** A Python call returns or raises. *)
Inductive outcome (A : Type) : Type :=
| Returned (a : A)
| Raised (msg : string).

Arguments Returned {A} a.
Arguments Raised {A} msg.

Definition bind {A B : Type} (m : outcome A) (k : A -> outcome B) : outcome B :=
  match m with
  | Returned a => k a
  | Raised e => Raised e
  end.

Notation "x <- m ;; k" := (bind m (fun x => k))
  (at level 61, m at next level, right associativity).

(** What the script does to the outside, in order. *)
Inductive event : Type :=
| Get (url : string)
| Sleep (seconds : nat).

Definition is_get (e : event) : bool :=
  match e with Get _ => true | Sleep _ => false end.

Module Profile.

(** The variables of the [try] block at line 73. *)
Record page : Type := {
  creation_text : option string;
  page_creation_year : option Z;
  badge_elements : nat;
  league_name : option string;
  page_points : option Z
}.

(** The dictionary [check_profile] returns. *)
Record t : Type := {
  creation_date : option string;
  creation_year : option Z;
  badge_count : option Z;
  league : option string;
  points : option Z;
  status : string
}.

(** The outside world: what the [try] block does for a URL after the
    events so far; it computes the variables of a page or raises. *)
Definition network : Type := list event -> string -> outcome page.

Definition success (p : page) : t :=
  {| creation_date := creation_text p;
     creation_year := page_creation_year p;
     badge_count := Some (Z.of_nat (badge_elements p));
     league := league_name p;
     points := page_points p;
     status := "success" |}.

Definition failure (e : string) : t :=
  {| creation_date := None;
     creation_year := None;
     badge_count := None;
     league := None;
     points := None;
     status := "error: " ++ e |}.

(** The loop [for attempt in range(max_retries)]; a loop that ends
    without a [return] gives Python's [None]. *)
Fixpoint attempts (net : network) (url : string) (max_retries : nat)
  (range : list nat) (log : list event) : option t * list event :=
  match range with
  | [] => (None, log)
  | attempt :: rest =>
      let log1 := (log ++ [Get url])%list in
      match net log url with
      | Returned p => (Some (success p), log1)
      | Raised e =>
          if (attempt <? max_retries - 1)%nat
          then attempts net url max_retries rest (log1 ++ [Sleep 2])%list
          else (Some (failure e), log1)
      end
  end.

Definition check_profile (net : network) (url : string) (max_retries : nat)
  (log : list event) : option t * list event :=
  attempts net url max_retries (seq 0 max_retries) log.

End Profile.

(** ** The loop of [main] (lines 201-238) *)

(** [df.at[index, 'qualification_status'] = status] and the reason. *)
Definition set_verdict (r : row) (v : status * string) : row :=
  {| reg := reg r;
     is_duplicate := is_duplicate r;
     duplicate_group := duplicate_group r;
     duplicate_position := duplicate_position r;
     email_matches := email_matches r;
     email_has_gdg_domain := email_has_gdg_domain r;
     skillsboost_has_gdg_domain := skillsboost_has_gdg_domain r;
     profile_creation_year := profile_creation_year r;
     profile_badge_count := profile_badge_count r;
     profile_league := profile_league r;
     profile_points := profile_points r;
     profile_status := profile_status r;
     qualification_status := Some (fst v);
     qualification_reason := Some (snd v) |}.

(** [df.at[index, 'profile_status'] = s] *)
Definition set_profile_status (r : row) (s : string) : row :=
  {| reg := reg r;
     is_duplicate := is_duplicate r;
     duplicate_group := duplicate_group r;
     duplicate_position := duplicate_position r;
     email_matches := email_matches r;
     email_has_gdg_domain := email_has_gdg_domain r;
     skillsboost_has_gdg_domain := skillsboost_has_gdg_domain r;
     profile_creation_year := profile_creation_year r;
     profile_badge_count := profile_badge_count r;
     profile_league := profile_league r;
     profile_points := profile_points r;
     profile_status := Some s;
     qualification_status := qualification_status r;
     qualification_reason := qualification_reason r |}.

(** Lines 225-229: the five profile cells of the row. *)
Definition set_profile (r : row) (d : Profile.t) : row :=
  {| reg := reg r;
     is_duplicate := is_duplicate r;
     duplicate_group := duplicate_group r;
     duplicate_position := duplicate_position r;
     email_matches := email_matches r;
     email_has_gdg_domain := email_has_gdg_domain r;
     skillsboost_has_gdg_domain := skillsboost_has_gdg_domain r;
     profile_creation_year := Profile.creation_year d;
     profile_badge_count := Profile.badge_count d;
     profile_league := Profile.league d;
     profile_points := Profile.points d;
     profile_status := Some (Profile.status d);
     qualification_status := qualification_status r;
     qualification_reason := qualification_reason r |}.

Definition skipped_statuses : list status :=
  [INCOMPLETE_REGISTRATION; TERMS_DECLINED; NO_PROFILE_URL].

Definition isin (s : status) (l : list status) : bool :=
  existsb (status_eqb s) l.

(** Line 221: the URL is there and not blank. *)
Definition url_available (r : row) : option string :=
  match Skills_Boost_Public_Profile_URL (reg r) with
  | Some u => if negb (String.eqb (Py.strip u) "") then Some u else None
  | None => None
  end.

(** One turn of the loop on row [r], after the events [log].  The
    subscript of line 225 on a [None] of [check_profile] is a
    [TypeError]. *)
Definition process_row (net : Profile.network) (r : row) (log : list event)
  : outcome row * list event :=
  let first := determine_qualification r in
  if isin (fst first) skipped_statuses then
    (Returned (set_profile_status (set_verdict r first) "skipped"), log)
  else
    let r1 := if status_eqb (fst first) DUPLICATE_ENTRY
              then set_verdict r first else r in
    match url_available r with
    | Some url =>
        match Profile.check_profile net url 3 log with
        | (Some d, log1) =>
            let r2 := set_profile r1 d in
            let r3 := if negb (status_eqb (fst first) DUPLICATE_ENTRY)
                      then set_verdict r2 (determine_qualification r2)
                      else r2 in
            (Returned r3, (log1 ++ [Sleep 1])%list)
        | (None, log1) =>
            (Raised "'NoneType' object is not subscriptable", log1)
        end
    | None => (Returned r1, (log ++ [Sleep 1])%list)
    end.

(** [for index, row in df.iterrows()]: the rows in order; an exception
    ends the run. *)
Fixpoint process_rows (net : Profile.network) (rows : list row)
  (log : list event) : outcome (list row) * list event :=
  match rows with
  | [] => (Returned [], log)
  | r :: rest =>
      match process_row net r log with
      | (Returned r', log1) =>
          match process_rows net rest log1 with
          | (Returned rs, log2) => (Returned (r' :: rs), log2)
          | (Raised e, log2) => (Raised e, log2)
          end
      | (Raised e, log1) => (Raised e, log1)
      end
  end.

(** ** The summary (lines 252-304) *)

Module Summary.

(** [a / b] on two lengths: Python's true division. *)
Definition divide (a b : nat) : outcome Q :=
  if (b =? 0)%nat then Raised "division by zero"
  else Returned (Z.of_nat a # Pos.of_nat b)%Q.

(** [(a / b) * 100] *)
Definition percent (a b : nat) : outcome Q :=
  q <- divide a b ;; Returned (q * 100)%Q.

(** The statuses of the column that are not [None]. *)
Fixpoint statuses (df : list row) : list status :=
  match df with
  | [] => []
  | r :: df' =>
      match qualification_status r with
      | Some s => s :: statuses df'
      | None => statuses df'
      end
  end.

(** [x], which comes before the entries of [l] in the column, goes before
    the first entry whose count is not greater than its own. *)
Fixpoint insert_count (x : status * nat) (l : list (status * nat))
  : list (status * nat) :=
  match l with
  | [] => [x]
  | y :: l' =>
      if (snd y <=? snd x)%nat then x :: l else y :: insert_count x l'
  end.

Fixpoint by_count (l : list (status * nat)) : list (status * nat) :=
  match l with
  | [] => []
  | x :: l' => insert_count x (by_count l')
  end.

(** The statuses of a column, each once, in the order in which they
    first occur. *)
Definition distinct (col : list status) : list status :=
  rev (nodup status_eq_dec (rev col)).

(** [df['qualification_status'].value_counts()]: each status that
    occurs with its number of rows, the most frequent first, and of two
    statuses with the same number the one that occurs first. *)
Definition value_counts (df : list row) : list (status * nat) :=
  let col := statuses df in
  by_count (map (fun s => (s, count_occ status_eq_dec col s))
              (distinct col)).

Definition invalid_statuses : list status :=
  [INCOMPLETE_REGISTRATION; TERMS_DECLINED; NO_PROFILE_URL; DUPLICATE_ENTRY].

Definition qualified_statuses : list status :=
  [HARD_QUALIFIED; QUALIFIED_TIER2].

Definition action_required_statuses : list status :=
  [FLAGGED_DIFF_ACCOUNT; REVIEW_NEEDED; CAUTION_PRE2025; REVIEW_PRE2025].

(** [df['qualification_status'].isin(l)]; [None] is in no list. *)
Definition status_isin (l : list status) (r : row) : bool :=
  match qualification_status r with
  | Some s => isin s l
  | None => false
  end.

(** The loops of lines 266-268 and 282-284: a status, its count and its
    percentage of [denominator]. *)
Fixpoint breakdown (counts : list (status * nat)) (denominator : nat)
  : outcome (list (status * nat * Q)) :=
  match counts with
  | [] => Returned []
  | (s, c) :: rest =>
      p <- percent c denominator ;;
      l <- breakdown rest denominator ;;
      Returned ((s, c, p) :: l)
  end.

Record report : Type := {
  total_entries : nat;
  unique_phones : nat;
  duplicate_entries : nat;
  status_breakdown : list (status * nat * Q);
  valid_count : nat;
  valid_percentage : Q;
  valid_breakdown : list (status * nat * Q);
  qualified_count : nat;
  qualified_percentage : Q;
  action_required_count : nat;
  action_percentage : Q
}.

(** The numbers the summary prints, in the order it computes them. *)
Definition summary (df : list row) : outcome report :=
  let total := List.length df in
  let phones :=
    List.length
      (nodup Z.eq_dec (Grouper.present (map (fun r => Phone_Number (reg r)) df))) in
  let dups :=
    List.length
      (filter (fun r => is_duplicate r && cell_gt1 (duplicate_position r)) df) in
  all <- breakdown (value_counts df) total ;;
  let valid_entries := filter (fun r => negb (status_isin invalid_statuses r)) df in
  let valid := List.length valid_entries in
  vp <- percent valid total ;;
  vb <- (if (0 <? valid)%nat
         then breakdown (value_counts valid_entries) valid
         else Returned []) ;;
  let qualified := List.length (filter (status_isin qualified_statuses) df) in
  qp <- (if (0 <? valid)%nat then percent qualified valid else Returned 0%Q) ;;
  let action :=
    List.length (filter (status_isin action_required_statuses) df) in
  ap <- (if (0 <? valid)%nat then percent action valid else Returned 0%Q) ;;
  Returned
    {| total_entries := total;
       unique_phones := phones;
       duplicate_entries := dups;
       status_breakdown := all;
       valid_count := valid;
       valid_percentage := vp;
       valid_breakdown := vb;
       qualified_count := qualified;
       qualified_percentage := qp;
       action_required_count := action;
       action_percentage := ap |}.

End Summary.

(** ** [main] *)

(** [col.str] of lines 188 and 189: a column read from the file has the
    accessor when it has no line or holds some text; a column of NaN only
    is a float column, and the accessor is an [AttributeError]. *)
Definition str_accessor (col : list (option string)) : outcome unit :=
  match col with
  | [] => Returned tt
  | _ :: _ =>
      if existsb Py.notna col then Returned tt
      else Raised "Can only use .str accessor with string values!"
  end.

(** The whole run on the lines of [data.csv]: the report, or the exception
    that ended the run, and the events. *)
Definition main (net : Profile.network) (data : list registration)
  : outcome Summary.report * list event :=
  match str_accessor (map Email_Address data) with
  | Raised e => (Raised e, [])
  | Returned _ =>
      match str_accessor (map Skills_Boost_Email data) with
      | Raised e => (Raised e, [])
      | Returned _ =>
          match process_rows net (frame data) [] with
          | (Returned df, log) => (Summary.summary df, log)
          | (Raised e, log) => (Raised e, log)
          end
      end
  end.

(** ** The page read by [check_profile] (lines 41-80)

    What the [try] block computes from the parsed page.  The page is given
    by what the three [find] calls and [find_all] return: the text of the
    elements, with [None] for an element that is not found.  Of the
    characters below U+0100 the digits of [\d] and of [int] are 0 to 9. *)

Module Page.

Definition is_digit (c : ascii) : bool :=
  let n := nat_of_ascii c in (48 <=? n)%nat && (n <=? 57)%nat.

Arguments is_digit : simpl never.

Fixpoint all_digits (s : string) : bool :=
  match s with
  | EmptyString => true
  | String c s' => is_digit c && all_digits s'
  end.

Fixpoint no_digit (s : string) : bool :=
  match s with
  | EmptyString => true
  | String c s' => negb (is_digit c) && no_digit s'
  end.

(** [s] does not start with a digit. *)
Definition ends_number (s : string) : bool :=
  match s with
  | EmptyString => true
  | String c _ => negb (is_digit c)
  end.

(** The longest run of digits at the start of [s]: a greedy [\d+] there. *)
Fixpoint digits (s : string) : string :=
  match s with
  | EmptyString => EmptyString
  | String c s' => if is_digit c then String c (digits s') else EmptyString
  end.

(** [\d{n}] at the start of [s]. *)
Fixpoint digits_exactly (n : nat) (s : string) : option string :=
  match n with
  | O => Some EmptyString
  | S n' =>
      match s with
      | EmptyString => None
      | String c s' =>
          if is_digit c then option_map (String c) (digits_exactly n' s')
          else None
      end
  end.

(** What is left of [s] after the literal [p] at its start. *)
Fixpoint after_prefix (p s : string) : option string :=
  match p with
  | EmptyString => Some s
  | String a p' =>
      match s with
      | EmptyString => None
      | String c s' => if Ascii.eqb a c then after_prefix p' s' else None
      end
  end.

(** The pattern [Member since (\d{4})] at the start of [s]: its group. *)
Definition member_since_here (s : string) : option string :=
  match after_prefix "Member since " s with
  | Some rest => digits_exactly 4 rest
  | None => None
  end.

(** [re.search(r'Member since (\d{4})', s)]: the group of the leftmost
    match. *)
Fixpoint member_since (s : string) : option string :=
  match member_since_here s with
  | Some ds => Some ds
  | None =>
      match s with
      | EmptyString => None
      | String _ s' => member_since s'
      end
  end.

(** [re.search(r'(\d+)', s)]: the group of the leftmost match, as long as
    it can be. *)
Fixpoint first_number (s : string) : option string :=
  match s with
  | EmptyString => None
  | String c s' => if is_digit c then Some (digits s) else first_number s'
  end.

(** The most digits [int] converts. *)
Definition max_str_digits : nat := 4300.

(** The message of the [ValueError] for a string of [n] digits, more than
    the limit. *)
Definition too_long (n : nat) : string :=
  "Exceeds the limit (4300 digits) for integer string conversion: value has "
  ++ Py.str_nat n
  ++ " digits; use sys.set_int_max_str_digits() to increase the limit".

(** [int(s)] on the group of one of the two patterns; a string of more
    than 4300 digits, or one that is not made of digits, is a
    [ValueError]. *)
Definition int (s : string) : outcome Z :=
  if (max_str_digits <? String.length s)%nat
  then Raised (too_long (String.length s))
  else
    match NilZero.uint_of_string s with
    | Some d => Returned (Z.of_uint d)
    | None => Raised "invalid literal for int() with base 10"
    end.

(** The league block: the text of its heading and of its [strong]. *)
Record league_block : Type := {
  heading : option string;
  strong : option string
}.

Record soup : Type := {
  member_text : option string;
  badge_divs : nat;
  league : option league_block
}.

(** The text has the marker after [pre]: Member since and the four digits
    [ds], then [post]. *)
Definition marker_at (t pre ds post : string) : Prop :=
  t = pre ++ "Member since " ++ ds ++ post
  /\ String.length ds = 4%nat /\ all_digits ds = true.

(** The digits the points are read from, when the page has some. *)
Definition points_digits (s : soup) : option string :=
  match league s with
  | Some b =>
      match strong b with
      | Some t => first_number (Py.strip t)
      | None => None
      end
  | None => None
  end.

(** The points are written with more digits than [int] converts. *)
Definition long_points (s : soup) : bool :=
  match points_digits s with
  | Some ds => (max_str_digits <? String.length ds)%nat
  | None => false
  end.

(** Lines 41-71: the five variables of line 73. *)
Definition parse (s : soup) : outcome Profile.page :=
  let creation_text := option_map Py.strip (member_text s) in
  year <- match creation_text with
          | Some t =>
              match member_since t with
              | Some ds => y <- int ds ;; Returned (Some y)
              | None => Returned None
              end
          | None => Returned None
          end ;;
  let league_name :=
    match league s with
    | Some b => option_map Py.strip (heading b)
    | None => None
    end in
  points <- match league s with
            | Some b =>
                match strong b with
                | Some t =>
                    match first_number (Py.strip t) with
                    | Some ds => p <- int ds ;; Returned (Some p)
                    | None => Returned None
                    end
                | None => Returned None
                end
            | None => Returned None
            end ;;
  Returned
    {| Profile.creation_text := creation_text;
       Profile.page_creation_year := year;
       Profile.badge_elements := badge_divs s;
       Profile.league_name := league_name;
       Profile.page_points := points |}.

(** The [try] block over a source of parsed pages: [fetch] is the request
    and the HTML parser, which return a page or raise. *)
Definition network_of (fetch : list event -> string -> outcome soup)
  : Profile.network :=
  fun log url => s <- fetch log url ;; parse s.

End Page.

(** All the characters of [s] are white space. *)
Fixpoint all_space (s : string) : bool :=
  match s with
  | EmptyString => true
  | String c s' => Py.isspace c && all_space s'
  end.

(** ** Vocabulary of the properties *)

(** No rule before the default cases of line 160 matched. *)
Definition reaches_default (r : row) : bool :=
  negb (incomplete r) && negb (terms_declined r) && negb (no_profile_url r)
  && negb (duplicate r) && negb (hard_qualified r) && negb (tier2 r)
  && negb (flagged r) && negb (has_badges r) && negb (caution r).

(** The empty profile of lines 131-133: no badges, no points, no league. *)
Definition empty_profile (r : row) : bool :=
  no_badges r && no_points r && no_league r.

Module Text.

(** [s.endswith(suffix)] *)
Definition endswith (s suffix : string) : bool :=
  let n := String.length s in
  let m := String.length suffix in
  (m <=? n)%nat && String.eqb (substring (n - m) m s) suffix.

(** [sub in s] *)
Fixpoint occurs (sub s : string) : bool :=
  prefix sub s
  || match s with
     | EmptyString => false
     | String _ s' => occurs sub s'
     end.

End Text.

(** The rows of [df] whose phone number is [p]. *)
Definition has_phone (p : Z) (r : row) : bool :=
  match Phone_Number (reg r) with
  | Some q => q =? p
  | None => false
  end.

(** The order of the frame after [sort_values]. *)
Definition row_le (a b : row) : Prop := Grouper.row_leb a b = true.

(** The rows of [marked] computed one after the other: [keys] is the
    whole phone column, [seen] the phone numbers of the rows above. *)
Fixpoint marked_from (keys : list Grouper.key) (seen : list Z)
  (data : list registration) : list row :=
  match data with
  | [] => []
  | g :: rest =>
      let floats := Grouper.has_dropped_na keys in
      match Phone_Number g with
      | None =>
          new_row (g, (1 <? count_occ Grouper.key_eq_dec keys None)%nat,
                   CNaN, CNaN)
            :: marked_from keys seen rest
      | Some p =>
          new_row (g, (1 <? count_occ Grouper.key_eq_dec keys (Some p))%nat,
                   Grouper.number floats (Grouper.group_number keys p),
                   Grouper.number floats (count_occ Z.eq_dec seen p + 1))
            :: marked_from keys (p :: seen) rest
      end
  end.

(** The duplicate cells of a row of [marked_from keys seen], by its phone
    number. *)
Definition cells_of (keys : list Grouper.key) (seen : list Z) (r : row)
  : Prop :=
  match Phone_Number (reg r) with
  | None =>
      duplicate_group r = CNaN /\ duplicate_position r = CNaN
      /\ is_duplicate r = (1 <? count_occ Grouper.key_eq_dec keys None)%nat
  | Some p =>
      cell_value (duplicate_group r) = Some (Grouper.group_number keys p)
      /\ (exists n, cell_value (duplicate_position r) = Some n
                    /\ (count_occ Z.eq_dec seen p < n)%nat)
      /\ is_duplicate r
         = (1 <? count_occ Grouper.key_eq_dec keys (Some p))%nat
  end.

(** The value of [duplicate_position] is [n]. *)
Definition at_position (n : nat) (r : row) : bool :=
  match cell_value (duplicate_position r) with
  | Some m => (m =? n)%nat
  | None => false
  end.

(** Where the group number of a row lies with respect to [g]; NaN is
    after every number. *)
Definition group_before (g : nat) (r : row) : bool :=
  match cell_value (duplicate_group r) with
  | Some n => (n <? g)%nat
  | None => false
  end.

Definition group_is (g : nat) (r : row) : bool :=
  match cell_value (duplicate_group r) with
  | Some n => (n =? g)%nat
  | None => false
  end.

Definition group_after (g : nat) (r : row) : bool :=
  match cell_value (duplicate_group r) with
  | Some n => (g <? n)%nat
  | None => true
  end.

(** The number of rows of the file that have phone number [p]. *)
Definition group_size (data : list registration) (p : Z) : nat :=
  count_occ Z.eq_dec (Grouper.present (map Phone_Number data)) p.

(** The valid entries of line 272. *)
Definition valid_entries (df : list row) : list row :=
  filter (fun r => negb (Summary.status_isin Summary.invalid_statuses r)) df.

(** The sum of the percentages of a breakdown. *)
Fixpoint sum_of_percentages (l : list (status * nat * Q)) : Q :=
  match l with
  | [] => 0%Q
  | (_, _, p) :: l' => (p + sum_of_percentages l')%Q
  end.

Fixpoint sum_of_counts (l : list (status * nat)) : nat :=
  match l with
  | [] => 0%nat
  | (_, c) :: l' => (c + sum_of_counts l')%nat
  end.

(** [c] out of [d], in percent. *)
Definition share (c d : nat) : Q := ((Z.of_nat c # Pos.of_nat d) * 100)%Q.

(** The events of [j] attempts that failed and were followed by another:
    each a request and the sleep of line 85. *)
Fixpoint retries (url : string) (j : nat) : list event :=
  match j with
  | O => []
  | S j' => Get url :: Sleep 2 :: retries url j'
  end.

(** The four statuses that the valid subset leaves out. *)
Definition excluded_status (s : status) : bool :=
  match s with
  | INCOMPLETE_REGISTRATION | TERMS_DECLINED | NO_PROFILE_URL
  | DUPLICATE_ENTRY => true
  | _ => false
  end.

(** The valid subset of a frame: its rows with a verdict that is not one
    of the four. *)
Definition valid_subset (df : list row) : list row :=
  filter (fun r => match qualification_status r with
                   | Some s => negb (excluded_status s)
                   | None => false
                   end) df.

(** The number of requests among some events. *)
Definition requests (log : list event) : nat :=
  List.length (filter is_get log).

Definition is_pause (e : event) : bool :=
  match e with Sleep 1 => true | _ => false end.

(** The number of one-second pauses of line 238 among some events. *)
Definition pauses (log : list event) : nat :=
  List.length (filter is_pause log).

(** The rows the loop did not skip. *)
Definition fetched (df : list row) : list row :=
  filter (fun r => negb (Summary.status_isin skipped_statuses r)) df.

(** The rows without a phone number. *)
Definition no_phone (r : row) : bool := Py.isna (Phone_Number (reg r)).

(** The rows whose group cell is a number. *)
Definition has_group (r : row) : bool :=
  match cell_value (duplicate_group r) with
  | Some _ => true
  | None => false
  end.

(** The number of distinct phone numbers of the file. *)
Definition distinct_phones (data : list registration) : nat :=
  List.length (nodup Z.eq_dec (Grouper.present (map Phone_Number data))).

(** The later entries of a phone number, as line 255 selects them. *)
Definition later_entry (r : row) : bool :=
  is_duplicate r && cell_gt1 (duplicate_position r).

(** The phone numbers that are not among [seen]. *)
Definition unseen (seen : list Z) (p : Z) : bool :=
  (count_occ Z.eq_dec seen p =? 0)%nat.

(** The rows with a given verdict. *)
Definition has_status (s : status) (r : row) : bool :=
  match qualification_status r with
  | Some t => status_eqb t s
  | None => false
  end.

(** The number of rows of [l] with verdict [s]. *)
Definition rows_with (s : status) (l : list row) : nat :=
  List.length (filter (has_status s) l).

(** ** Sample data *)

Module Sample.

Definition accepted : option (option string) :=
  Some (Some "Yes, I accept the terms").

Definition profile_url : option string :=
  Some "https://www.cloudskillsboost.google/public_profiles/a1".

(** Two private addresses that differ. *)
Definition outsider : registration :=
  {| Name := Some "A";
     Email_Address := Some "a@x.com";
     Skills_Boost_Email := Some "b@y.com";
     Phone_Number := Some 111;
     Terms := accepted;
     Skills_Boost_Public_Profile_URL := profile_url |}.

(** A program address, used for both emails. *)
Definition member : registration :=
  {| Name := Some "B";
     Email_Address := Some "b.gdgocbcet@gmail.com";
     Skills_Boost_Email := Some "b.gdgocbcet@gmail.com";
     Phone_Number := Some 222;
     Terms := accepted;
     Skills_Boost_Public_Profile_URL := profile_url |}.

(** The same person a second time. *)
Definition member_again : registration :=
  {| Name := Some "B again";
     Email_Address := Some "b.gdgocbcet@gmail.com";
     Skills_Boost_Email := Some "b.gdgocbcet@gmail.com";
     Phone_Number := Some 222;
     Terms := accepted;
     Skills_Boost_Public_Profile_URL := profile_url |}.

(** Lines with an empty phone cell. *)
Definition no_phone_1 : registration :=
  {| Name := None;
     Email_Address := Some "c@x.com";
     Skills_Boost_Email := Some "c@x.com";
     Phone_Number := None;
     Terms := accepted;
     Skills_Boost_Public_Profile_URL := profile_url |}.

Definition no_phone_2 : registration :=
  {| Name := Some "D";
     Email_Address := Some "d@x.com";
     Skills_Boost_Email := Some "d@x.com";
     Phone_Number := None;
     Terms := accepted;
     Skills_Boost_Public_Profile_URL := profile_url |}.

(** All fields but the consent, which is NaN. *)
Definition no_consent : registration :=
  {| Name := Some "E";
     Email_Address := Some "e@x.com";
     Skills_Boost_Email := Some "e@x.com";
     Phone_Number := Some 333;
     Terms := Some None;
     Skills_Boost_Public_Profile_URL := profile_url |}.

(** A profile opened in 2025 with nothing on it. *)
Definition fresh_page : Profile.page :=
  {| Profile.creation_text := Some "Member since 2025";
     Profile.page_creation_year := Some 2025;
     Profile.badge_elements := 0;
     Profile.league_name := None;
     Profile.page_points := None |}.

(** A 2025 profile with three badges, and an older one with points. *)
Definition busy_page : Profile.page :=
  {| Profile.creation_text := Some "Member since 2025";
     Profile.page_creation_year := Some 2025;
     Profile.badge_elements := 3;
     Profile.league_name := None;
     Profile.page_points := None |}.

Definition old_page : Profile.page :=
  {| Profile.creation_text := Some "Member since 2019";
     Profile.page_creation_year := Some 2019;
     Profile.badge_elements := 0;
     Profile.league_name := Some "Silver League";
     Profile.page_points := Some 40 |}.

Definition online : Profile.network := fun _ _ => Returned fresh_page.

Definition offline : Profile.network :=
  fun _ _ => Raised "Connection refused".

(** The row of [outsider] at the end of the run with [online]. *)
Definition outsider_row : row :=
  {| reg := outsider;
     is_duplicate := false;
     duplicate_group := CInt 0;
     duplicate_position := CInt 1;
     email_matches := false;
     email_has_gdg_domain := false;
     skillsboost_has_gdg_domain := false;
     profile_creation_year := Some 2025;
     profile_badge_count := Some 0;
     profile_league := None;
     profile_points := None;
     profile_status := Some "success";
     qualification_status := Some REVIEW_NEEDED;
     qualification_reason := Some "2025 account with 0 badges, 0 points" |}.

(** A parsed page of a new profile, and one without the creation
    element and with two badges. *)
Definition fresh_soup : Page.soup :=
  {| Page.member_text := Some "  Member since 2025 ";
     Page.badge_divs := 0;
     Page.league := None |}.

Definition bare_soup : Page.soup :=
  {| Page.member_text := None;
     Page.badge_divs := 2;
     Page.league := None |}.

(** A page whose points are written with 4301 digits. *)
Fixpoint nines (n : nat) : string :=
  match n with
  | O => ""
  | S n' => String "9"%char (nines n')
  end.

Definition long_soup : Page.soup :=
  {| Page.member_text := Some "Member since 2025";
     Page.badge_divs := 0;
     Page.league :=
       Some {| Page.heading := Some "Gold League";
               Page.strong := Some (nines 4301 ++ " points") |} |}.

(** The reserved domain inside a longer address, and an address that has
    other characters where the pattern has its dots. *)
Definition interior_email : string := "a.gdgocbcet@gmail.com.example.org".
Definition wildcard_email : string := "agdgocbcet@gmailxcom".

(** A registration under each of the two addresses. *)
Definition lookalike (email : string) : registration :=
  {| Name := Some "F";
     Email_Address := Some email;
     Skills_Boost_Email := Some "f@y.com";
     Phone_Number := Some 444;
     Terms := accepted;
     Skills_Boost_Public_Profile_URL := profile_url |}.

(** The verdicts at the end of the loop, one per row. *)
Definition verdicts (net : Profile.network) (data : list registration)
  : outcome (list (option status)) :=
  df <- fst (process_rows net (frame data) []) ;;
  Returned (map qualification_status df).

(** A file of three lines, one of them a second entry of a phone number,
    and the frame and the events at the end of its loop. *)
Definition trio : list registration := [member; member_again; outsider].

Definition trio_rows : list row :=
  Eval vm_compute in
    match fst (process_rows online (frame trio) []) with
    | Returned df => df
    | Raised _ => []
    end.

Definition trio_log : list event :=
  Eval vm_compute in snd (process_rows online (frame trio) []).

End Sample.

(** * Properties *)

(** ** The rules *)

(** C10: a record whose name, two emails and phone number are present and
    whose consent cell is NaN (the [Terms] column exists) is classified
    TERMS_DECLINED. *)
Theorem missing_consent_is_declined :
  forall (r : row) (n e sb : string) (p : Z),
    Name (reg r) = Some n ->
    Email_Address (reg r) = Some e ->
    Skills_Boost_Email (reg r) = Some sb ->
    Phone_Number (reg r) = Some p ->
    Terms (reg r) = Some None ->
    determine_qualification r
    = (TERMS_DECLINED, "Terms and conditions not accepted").
Proof.
  intros r n e sb p Hn He Hsb Hp Ht.
  unfold determine_qualification, incomplete, terms_declined.
  rewrite Hn, He, Hsb, Hp, Ht. reflexivity.
Qed.

Lemma missing_consent_is_declined_witness :
  determine_qualification
    (new_row (Sample.no_consent, false, CInt 0, CInt 1))
  = (TERMS_DECLINED, "Terms and conditions not accepted").
Proof.
  apply (missing_consent_is_declined _ "E" "e@x.com" "e@x.com" 333);
    reflexivity.
Defined.

(** C1, as stated, fails: the row of [Sample.outsider], a 2025 profile with
    no badge, no points and no league, comes to the default cases and is
    REVIEW_NEEDED. *)
Lemma review_needed_on_empty_profile :
  fst (process_rows Sample.online (frame [Sample.outsider]) [])
    = Returned [Sample.outsider_row]
  /\ reaches_default Sample.outsider_row = true
  /\ determine_qualification Sample.outsider_row
     = (REVIEW_NEEDED, "2025 account with 0 badges, 0 points")
  /\ profile_creation_year Sample.outsider_row = Some 2025
  /\ empty_profile Sample.outsider_row = true.
Proof. repeat split; vm_compute; reflexivity. Qed.

Lemma default_cases (r : row) :
  reaches_default r = true ->
  determine_qualification r
  = if is2025 r then (REVIEW_NEEDED, review_reason r)
    else if pre2025 r
         then (REVIEW_PRE2025,
               "Pre-2025 account (" ++ year_str r ++ ") needs review")
         else (UNKNOWN, "Could not determine profile details").
Proof.
  unfold reaches_default, determine_qualification. intros H.
  repeat (apply andb_prop in H; destruct H as [H ?]).
  repeat match goal with
         | Hn : negb ?b = true |- _ =>
             apply negb_true_iff in Hn; rewrite Hn
         end.
  reflexivity.
Qed.

(** C1, amended: among the records that reach the default cases, the
    verdict is REVIEW_NEEDED exactly when the creation year is 2025; the
    profile is then not empty or the declared email neither has the
    reserved domain nor equals the program email; the reason gives the
    badge count and the points, an absent one as 0. *)
Theorem review_needed_default :
  forall r : row,
    reaches_default r = true ->
    (fst (determine_qualification r) = REVIEW_NEEDED
     <-> profile_creation_year r = Some 2025)
    /\ (fst (determine_qualification r) = REVIEW_NEEDED ->
        (empty_profile r = false
         \/ (email_has_gdg_domain r = false /\ email_matches r = false))
        /\ snd (determine_qualification r)
           = "2025 account with "
               ++ Py.str_int (Py.or_zero (profile_badge_count r))
               ++ " badges, "
               ++ Py.str_int (Py.or_zero (profile_points r)) ++ " points").
Proof.
  intros r H. rewrite (default_cases r H).
  assert (Hy : is2025 r = true <-> profile_creation_year r = Some 2025).
  { unfold is2025, Py.eq_int. destruct (profile_creation_year r) as [y|].
    - rewrite Z.eqb_eq. split; congruence.
    - split; discriminate. }
  assert (Hsplit :
    fst (if is2025 r then (REVIEW_NEEDED, review_reason r)
         else if pre2025 r
              then (REVIEW_PRE2025,
                    "Pre-2025 account (" ++ year_str r ++ ") needs review")
              else (UNKNOWN, "Could not determine profile details"))
    = REVIEW_NEEDED <-> is2025 r = true).
  { destruct (is2025 r); [tauto|].
    destruct (pre2025 r); simpl; split; discriminate. }
  split; [rewrite Hsplit; exact Hy|].
  intros Hr. apply Hsplit in Hr. rewrite Hr. simpl. split; [|reflexivity].
  unfold reaches_default in H.
  repeat (apply andb_prop in H; destruct H as [H ?]).
  repeat match goal with
         | Hn : negb ?b = true |- _ => apply negb_true_iff in Hn
         end.
  unfold hard_qualified, tier2, is2025 in *. unfold empty_profile.
  rewrite Hr in *.
  destruct (email_has_gdg_domain r), (email_matches r),
    (no_badges r), (no_points r), (no_league r);
    simpl in *; try discriminate; auto.
Qed.

Lemma review_needed_default_witness :
  (fst (determine_qualification Sample.outsider_row) = REVIEW_NEEDED
   <-> profile_creation_year Sample.outsider_row = Some 2025)
  /\ (fst (determine_qualification Sample.outsider_row) = REVIEW_NEEDED ->
      (empty_profile Sample.outsider_row = false
       \/ (email_has_gdg_domain Sample.outsider_row = false
           /\ email_matches Sample.outsider_row = false))
      /\ snd (determine_qualification Sample.outsider_row)
         = "2025 account with "
             ++ Py.str_int (Py.or_zero (profile_badge_count Sample.outsider_row))
             ++ " badges, "
             ++ Py.str_int (Py.or_zero (profile_points Sample.outsider_row))
             ++ " points").
Proof.
  apply (review_needed_default Sample.outsider_row). reflexivity.
Defined.

(** ** The reserved domain *)

Lemma search_iff (p : list Re.atom) (s : string) :
  Re.search p s = true
  <-> exists pre rest, s = pre ++ rest /\ Re.match_here p rest = true.
Proof.
  induction s as [|c s IH].
  - simpl. rewrite orb_false_r. split.
    + intros H. exists "", "". split; [reflexivity|exact H].
    + intros (pre & rest & E & H).
      destruct pre; [simpl in E; subst rest; exact H|discriminate].
  - change (Re.search p (String c s))
      with (Re.match_here p (String c s) || Re.search p s).
    rewrite orb_true_iff, IH. split.
    + intros [H | (pre & rest & E & H)].
      * exists "", (String c s). split; [reflexivity|exact H].
      * exists (String c pre), rest. split; [simpl; now rewrite E|exact H].
    + intros (pre & rest & E & H). destruct pre as [|d pre].
      * left. simpl in E. now subst rest.
      * right. simpl in E. injection E as _ E. now exists pre, rest.
Qed.

Lemma dot_matches (c : ascii) :
  Re.atom_matches Re.Dot c = true <-> c <> Re.newline.
Proof.
  unfold Re.atom_matches. rewrite negb_true_iff. apply Ascii.eqb_neq.
Qed.

(** What the compiled pattern matches at the start of a string. *)
Lemma gdg_pattern_here (s : string) :
  Re.match_here (Re.compile gdg_domain) s = true
  <-> exists c1 c2 post,
        s = String c1 ("gdgocbcet@gmail" ++ String c2 ("com" ++ post))
        /\ c1 <> Re.newline /\ c2 <> Re.newline.
Proof.
  split.
  - intros H.
    change (Re.compile gdg_domain)
      with (Re.Dot :: Re.compile "gdgocbcet@gmail"
              ++ Re.Dot :: Re.compile "com")%list in H.
    destruct s as [|c1 s]; [discriminate|].
    simpl in H. apply andb_prop in H. destruct H as [H1 H].
    apply negb_true_iff, Ascii.eqb_neq in H1.
    do 15 (destruct s as [|? s]; [discriminate|];
           apply andb_prop in H; destruct H as [Hc H];
           apply Ascii.eqb_eq in Hc; subst).
    destruct s as [|c2 s]; [discriminate|].
    apply andb_prop in H. destruct H as [H2 H].
    apply negb_true_iff, Ascii.eqb_neq in H2.
    do 3 (destruct s as [|? s]; [discriminate|];
          apply andb_prop in H; destruct H as [Hc H];
          apply Ascii.eqb_eq in Hc; subst).
    exists c1, c2, s. repeat split; assumption.
  - intros (c1 & c2 & post & E & H1 & H2). subst s.
    apply dot_matches in H1. apply dot_matches in H2.
    simpl. simpl in H1, H2. rewrite H1, H2. reflexivity.
Qed.

(** C5, as stated, fails: an address that only has the reserved domain in
    its middle, and one that has other characters in the place of its two
    dots, both pass the test, and the first is HARD_QUALIFIED on an empty
    2025 profile. *)
Lemma gdg_domain_not_suffix :
  has_gdg_domain (Some Sample.interior_email) = true
  /\ Text.endswith Sample.interior_email gdg_domain = false
  /\ has_gdg_domain (Some Sample.wildcard_email) = true
  /\ Text.endswith Sample.wildcard_email gdg_domain = false
  /\ Text.occurs gdg_domain Sample.wildcard_email = false
  /\ Sample.verdicts Sample.online [Sample.lookalike Sample.interior_email]
     = Returned [Some HARD_QUALIFIED]
  /\ Sample.verdicts Sample.online [Sample.lookalike Sample.wildcard_email]
     = Returned [Some HARD_QUALIFIED].
Proof. repeat split; vm_compute; reflexivity. Qed.

(** ** The profile check and the loop *)

Lemma rules_ignore_profile (r : row) (d : Profile.t) :
  incomplete (set_profile r d) = incomplete r
  /\ terms_declined (set_profile r d) = terms_declined r
  /\ no_profile_url (set_profile r d) = no_profile_url r
  /\ duplicate (set_profile r d) = duplicate r
  /\ flagged (set_profile r d) = flagged r.
Proof. repeat split. Qed.

(** The first four rules decide the first verdict when one of them holds. *)
Lemma first_pass (r : row) :
  (isin (fst (determine_qualification r)) skipped_statuses = true
   /\ (incomplete r || terms_declined r || no_profile_url r) = true)
  \/ (fst (determine_qualification r) = DUPLICATE_ENTRY
      /\ incomplete r = false /\ terms_declined r = false
      /\ no_profile_url r = false /\ duplicate r = true)
  \/ (isin (fst (determine_qualification r)) skipped_statuses = false
      /\ status_eqb (fst (determine_qualification r)) DUPLICATE_ENTRY = false
      /\ incomplete r = false /\ terms_declined r = false
      /\ no_profile_url r = false /\ duplicate r = false).
Proof.
  unfold determine_qualification.
  destruct (incomplete r); [left; split; reflexivity|].
  destruct (terms_declined r); [left; split; reflexivity|].
  destruct (no_profile_url r); [left; split; reflexivity|].
  destruct (duplicate r); [right; left; repeat split|].
  right; right.
  destruct (hard_qualified r), (tier2 r), (flagged r), (has_badges r),
    (caution r), (is2025 r), (pre2025 r); repeat split.
Qed.

Lemma url_of_row (r : row) :
  no_profile_url r = false -> exists url, url_available r = Some url.
Proof.
  unfold no_profile_url, url_available.
  destruct (Skills_Boost_Public_Profile_URL (reg r)) as [u|]; [|discriminate].
  intros H. rewrite H. now exists u.
Qed.

(** With three attempts [check_profile] always returns a dictionary, after
    at least one request. *)
Lemma check_profile_returns (net : Profile.network) (url : string)
  (log : list event) :
  exists d more,
    Profile.check_profile net url 3 log
    = (Some d, (log ++ Get url :: more)%list).
Proof.
  unfold Profile.check_profile. simpl.
  destruct (net log url) as [p|e1].
  { exists (Profile.success p), []. reflexivity. }
  destruct (net ((log ++ [Get url]) ++ [Sleep 2])%list url) as [p|e2].
  { exists (Profile.success p), [Sleep 2; Get url].
    now rewrite <- !app_assoc. }
  destruct (net ((((log ++ [Get url]) ++ [Sleep 2]) ++ [Get url])
                   ++ [Sleep 2])%list url) as [p|e3].
  { exists (Profile.success p), [Sleep 2; Get url; Sleep 2; Get url].
    now rewrite <- !app_assoc. }
  exists (Profile.failure e3), [Sleep 2; Get url; Sleep 2; Get url].
  now rewrite <- !app_assoc.
Qed.

Lemma process_row_returns (net : Profile.network) (r : row)
  (log : list event) :
  exists r' log',
    process_row net r log = (Returned r', log')
    /\ reg r' = reg r
    /\ qualification_status r' <> None.
Proof.
  unfold process_row.
  destruct (first_pass r) as [[H _] | [(H & _ & _ & Hu & _) | (H & Hd & _ & _ & Hu & _)]].
  - rewrite H. eexists _, _. repeat split. discriminate.
  - rewrite H. simpl. destruct (url_of_row r Hu) as [url ->].
    destruct (check_profile_returns net url log) as (d & more & ->).
    eexists _, _. repeat split. discriminate.
  - rewrite H, Hd. destruct (url_of_row r Hu) as [url ->].
    destruct (check_profile_returns net url log) as (d & more & ->).
    eexists _, _. repeat split. discriminate.
Qed.

Lemma process_rows_returns (net : Profile.network) (rows : list row) :
  forall log : list event,
  exists df log',
    process_rows net rows log = (Returned df, log')
    /\ map reg df = map reg rows
    /\ Forall (fun r' => qualification_status r' <> None) df.
Proof.
  induction rows as [|r rows IH]; intros log.
  - exists [], log. repeat split. constructor.
  - simpl. destruct (process_row_returns net r log) as (r' & log1 & -> & Hr & Hq).
    destruct (IH log1) as (df & log2 & -> & Hm & Hall).
    exists (r' :: df), log2. repeat split.
    + simpl. now rewrite Hr, Hm.
    + now constructor.
Qed.

(** C7: a record first classified INCOMPLETE_REGISTRATION, TERMS_DECLINED or
    NO_PROFILE_URL gets that verdict with no request and no second
    classification; for a record first classified DUPLICATE_ENTRY the
    profile is requested and its fields are stored, and the stored status
    and reason stay those of the first classification. *)
Theorem skipped_and_duplicate_verdicts_stay :
  forall (net : Profile.network) (r : row) (log : list event),
    (isin (fst (determine_qualification r)) skipped_statuses = true ->
     process_row net r log
     = (Returned
          (set_profile_status (set_verdict r (determine_qualification r))
             "skipped"),
        log))
    /\ (fst (determine_qualification r) = DUPLICATE_ENTRY ->
        exists url d more r',
          url_available r = Some url
          /\ Profile.check_profile net url 3 log
             = (Some d, (log ++ Get url :: more)%list)
          /\ process_row net r log
             = (Returned r', ((log ++ Get url :: more) ++ [Sleep 1])%list)
          /\ r' = set_profile (set_verdict r (determine_qualification r)) d
          /\ profile_creation_year r' = Profile.creation_year d
          /\ profile_badge_count r' = Profile.badge_count d
          /\ profile_league r' = Profile.league d
          /\ profile_points r' = Profile.points d
          /\ profile_status r' = Some (Profile.status d)
          /\ qualification_status r' = Some DUPLICATE_ENTRY
          /\ qualification_reason r'
             = Some (snd (determine_qualification r))).
Proof.
  intros net r log. split.
  - intros H. unfold process_row. rewrite H. reflexivity.
  - intros H. unfold process_row.
    destruct (first_pass r)
      as [[Hs _] | [(_ & _ & _ & Hu & _) | (_ & Hd & _)]].
    + rewrite H in Hs. discriminate.
    + rewrite H. simpl. destruct (url_of_row r Hu) as [url Hurl].
      destruct (check_profile_returns net url log) as (d & more & Hc).
      exists url, d, more,
        (set_profile (set_verdict r (determine_qualification r)) d).
      rewrite Hurl, Hc. simpl.
      repeat split; simpl; now rewrite H.
    + rewrite H in Hd. discriminate.
Qed.

Lemma skipped_and_duplicate_verdicts_stay_witness :
  let declined := new_row (Sample.no_consent, false, CInt 0, CInt 1) in
  let second := new_row (Sample.member_again, true, CInt 0, CInt 2) in
  process_row Sample.online declined []
  = (Returned
       (set_profile_status
          (set_verdict declined (determine_qualification declined))
          "skipped"),
     [])
  /\ exists url d more r',
       url_available second = Some url
       /\ Profile.check_profile Sample.online url 3 []
          = (Some d, ([] ++ Get url :: more)%list)
       /\ process_row Sample.online second []
          = (Returned r', (([] ++ Get url :: more) ++ [Sleep 1])%list)
       /\ r' = set_profile
                 (set_verdict second (determine_qualification second)) d
       /\ profile_creation_year r' = Profile.creation_year d
       /\ profile_badge_count r' = Profile.badge_count d
       /\ profile_league r' = Profile.league d
       /\ profile_points r' = Profile.points d
       /\ profile_status r' = Some (Profile.status d)
       /\ qualification_status r' = Some DUPLICATE_ENTRY
       /\ qualification_reason r'
          = Some (snd (determine_qualification second)).
Proof.
  intros declined second. split.
  - apply (proj1 (skipped_and_duplicate_verdicts_stay
                    Sample.online declined [])).
    reflexivity.
  - apply (proj2 (skipped_and_duplicate_verdicts_stay
                    Sample.online second [])).
    reflexivity.
Defined.

(** Without evidence the rules after the fourth give FLAGGED_DIFF_ACCOUNT
    or UNKNOWN. *)
Lemma verdict_without_evidence (r : row) (e : string) :
  incomplete r = false -> terms_declined r = false ->
  no_profile_url r = false -> duplicate r = false ->
  In (fst (determine_qualification (set_profile r (Profile.failure e))))
    [FLAGGED_DIFF_ACCOUNT; UNKNOWN].
Proof.
  intros H1 H2 H3 H4. unfold determine_qualification.
  destruct (rules_ignore_profile r (Profile.failure e))
    as (-> & -> & -> & -> & Hf).
  rewrite H1, H2, H3, H4.
  change (hard_qualified (set_profile r (Profile.failure e)))
    with (email_has_gdg_domain r && false && true && true && true).
  change (tier2 (set_profile r (Profile.failure e)))
    with (email_matches r && false && true && true && true).
  rewrite !andb_false_r. simpl. rewrite Hf.
  destruct (flagged r); simpl; auto.
Qed.

(** C6: when the three attempts on a URL raise, [check_profile] returns the
    dictionary whose five content fields are [None] and whose status is
    the text error: followed by the last message; a row with that URL that
    was not skipped leaves the loop with a verdict, DUPLICATE_ENTRY,
    FLAGGED_DIFF_ACCOUNT or UNKNOWN, and whatever the network does the
    loop ends without an exception and gives every row a verdict. *)
Theorem failed_fetch_still_gets_verdict :
  forall (net : Profile.network) (url : string) (log : list event)
         (e1 e2 e3 : string),
    net log url = Raised e1 ->
    net (log ++ [Get url; Sleep 2])%list url = Raised e2 ->
    net (log ++ [Get url; Sleep 2; Get url; Sleep 2])%list url = Raised e3 ->
    let log3 := (log ++ [Get url; Sleep 2; Get url; Sleep 2; Get url])%list in
    let d := Profile.failure e3 in
    Profile.check_profile net url 3 log = (Some d, log3)
    /\ (Profile.creation_date d = None /\ Profile.creation_year d = None
        /\ Profile.badge_count d = None /\ Profile.league d = None
        /\ Profile.points d = None
        /\ Profile.status d = "error: " ++ e3
        /\ prefix "error:" (Profile.status d) = true
        /\ Profile.status d <> "success")
    /\ (forall r : row,
          url_available r = Some url ->
          isin (fst (determine_qualification r)) skipped_statuses = false ->
          exists r' s,
            process_row net r log = (Returned r', (log3 ++ [Sleep 1])%list)
            /\ qualification_status r' = Some s
            /\ In s [DUPLICATE_ENTRY; FLAGGED_DIFF_ACCOUNT; UNKNOWN]
            /\ profile_creation_year r' = None
            /\ profile_badge_count r' = None
            /\ profile_league r' = None
            /\ profile_points r' = None
            /\ profile_status r' = Some ("error: " ++ e3))
    /\ (forall data : list registration,
          exists df log',
            process_rows net (frame data) [] = (Returned df, log')
            /\ map reg df = map reg (frame data)
            /\ Forall (fun r' => qualification_status r' <> None) df).
Proof.
  intros net url log e1 e2 e3 H1 H2 H3 log3 d.
  assert (Hc : Profile.check_profile net url 3 log = (Some d, log3)).
  { unfold Profile.check_profile. simpl. rewrite H1.
    replace ((log ++ [Get url]) ++ [Sleep 2])%list
      with (log ++ [Get url; Sleep 2])%list by now rewrite <- app_assoc.
    rewrite H2.
    replace (((log ++ [Get url; Sleep 2]) ++ [Get url]) ++ [Sleep 2])%list
      with (log ++ [Get url; Sleep 2; Get url; Sleep 2])%list
      by now rewrite <- !app_assoc.
    rewrite H3. unfold log3, d. now rewrite <- !app_assoc. }
  split; [exact Hc|]. split.
  { repeat split. discriminate. }
  split.
  - intros r Hurl Hskip. unfold process_row. rewrite Hskip, Hurl, Hc.
    destruct (first_pass r)
      as [[Hs _] | [(Hdup & _) | (_ & Hd & Hi & Ht & Hu & Hn)]].
    + rewrite Hskip in Hs. discriminate.
    + rewrite Hdup. simpl. eexists _, DUPLICATE_ENTRY.
      split; [reflexivity|]. simpl. rewrite Hdup. repeat split. now left.
    + rewrite Hd. simpl.
      eexists _, (fst (determine_qualification (set_profile r d))).
      split; [reflexivity|]. simpl. repeat split.
      right. apply verdict_without_evidence; assumption.
  - intros data. apply process_rows_returns.
Qed.

Lemma failed_fetch_still_gets_verdict_witness :
  Profile.check_profile Sample.offline "u" 3 []
  = (Some (Profile.failure "Connection refused"),
     [Get "u"; Sleep 2; Get "u"; Sleep 2; Get "u"]).
Proof.
  exact (proj1 (failed_fetch_still_gets_verdict Sample.offline "u" []
                  "Connection refused" "Connection refused"
                  "Connection refused" eq_refl eq_refl eq_refl)).
Defined.

(** ** The grouping *)

Section Marked.

Variable keys : list Grouper.key.

Let floats := Grouper.has_dropped_na keys.

Lemma marked_rowwise (seen : list Z) (data : list registration) :
  map new_row
    (combine
       (combine
          (combine data
             (map (fun k => (1 <? count_occ Grouper.key_eq_dec keys k)%nat)
                (map Phone_Number data)))
          (map (fun k =>
                  match k with
                  | None => CNaN
                  | Some p =>
                      Grouper.number floats (Grouper.group_number keys p)
                  end) (map Phone_Number data)))
       (Grouper.cumcount_plus_1 floats seen (map Phone_Number data)))
  = marked_from keys seen data.
Proof.
  revert seen. induction data as [|g rest IH]; intros seen; [reflexivity|].
  simpl. destruct (Phone_Number g) as [p|]; simpl; now rewrite IH.
Qed.

Lemma marked_from_reg (seen : list Z) (data : list registration) :
  map reg (marked_from keys seen data) = data.
Proof.
  revert seen. induction data as [|g rest IH]; intros seen; [reflexivity|].
  simpl. destruct (Phone_Number g); simpl; now rewrite IH.
Qed.

Lemma value_of_number (b : bool) (n : nat) :
  cell_value (Grouper.number b n) = Some n.
Proof. now destruct b. Qed.

Lemma cells_of_mono (seen : list Z) (q : Z) (r : row) :
  cells_of keys (q :: seen) r -> cells_of keys seen r.
Proof.
  unfold cells_of. destruct (Phone_Number (reg r)) as [p|]; [|tauto].
  intros (Hg & (n & Hn & Hlt) & Hd). repeat split; try assumption.
  exists n. split; [assumption|].
  simpl in Hlt. destruct (Z.eq_dec q p); lia.
Qed.

Lemma marked_from_cells (seen : list Z) (data : list registration) :
  Forall (cells_of keys seen) (marked_from keys seen data).
Proof.
  revert seen. induction data as [|g rest IH]; intros seen; [constructor|].
  simpl. destruct (Phone_Number g) as [p|] eqn:E; constructor.
  - unfold cells_of. simpl. rewrite E, !value_of_number.
    repeat split. exists (count_occ Z.eq_dec seen p + 1)%nat.
    split; [reflexivity|lia].
  - eapply Forall_impl; [|apply IH]. intros r. apply cells_of_mono.
  - unfold cells_of. simpl. rewrite E. repeat split.
  - apply IH.
Qed.

(** The positions of the rows with phone number [p], top to bottom. *)
Lemma marked_from_positions (p : Z) (seen : list Z)
  (data : list registration) :
  map (fun r => cell_value (duplicate_position r))
    (filter (has_phone p) (marked_from keys seen data))
  = map Some (seq (count_occ Z.eq_dec seen p + 1) (group_size data p)).
Proof.
  unfold group_size.
  revert seen. induction data as [|g rest IH]; intros seen; [reflexivity|].
  simpl. destruct (Phone_Number g) as [q|] eqn:E; simpl;
    unfold has_phone at 1; simpl; rewrite E.
  - destruct (Z.eqb_spec q p) as [->|Hne].
    + simpl. rewrite value_of_number, IH. simpl.
      destruct (Z.eq_dec p p) as [_|]; [|contradiction]. simpl.
      reflexivity.
    + rewrite IH. simpl.
      destruct (Z.eq_dec q p) as [|_]; [contradiction|]. reflexivity.
  - apply IH.
Qed.

End Marked.

(** ** The order of [sort_values] *)

Ltac cell_order :=
  unfold row_le, Grouper.row_leb, Grouper.cell_leb, Grouper.cell_ltb,
    group_before, group_is, group_after in *;
  repeat match goal with
    | |- context [cell_value ?c] => destruct (cell_value c)
    | H : context [cell_value ?c] |- _ => destruct (cell_value c)
    end;
  repeat match goal with
    | |- context [(?a <? ?b)%nat] => destruct (Nat.ltb_spec a b)
    | H : context [(?a <? ?b)%nat] |- _ => destruct (Nat.ltb_spec a b)
    | |- context [(?a =? ?b)%nat] => destruct (Nat.eqb_spec a b)
    | H : context [(?a =? ?b)%nat] |- _ => destruct (Nat.eqb_spec a b)
    end;
  simpl in *; try discriminate; try reflexivity; try lia.

Lemma row_leb_total (a b : row) :
  Grouper.row_leb a b = false -> row_le b a.
Proof. intros H. cell_order. Qed.

Lemma row_le_trans (a b c : row) : row_le a b -> row_le b c -> row_le a c.
Proof. intros H1 H2. cell_order. Qed.

Lemma row_le_same_group (a b : row) (g n m : nat) :
  cell_value (duplicate_group a) = Some g ->
  cell_value (duplicate_group b) = Some g ->
  cell_value (duplicate_position a) = Some n ->
  cell_value (duplicate_position b) = Some m ->
  (n <= m)%nat -> row_le a b.
Proof.
  intros Ha Hb Hn Hm Hle. unfold row_le, Grouper.row_leb, Grouper.cell_leb,
    Grouper.cell_ltb. rewrite Ha, Hb, Hn, Hm.
  rewrite Nat.ltb_irrefl.
  destruct (Nat.ltb_spec m n); [lia|reflexivity].
Qed.

Lemma insert_perm (r : row) (l : list row) :
  Permutation (r :: l) (Grouper.insert r l).
Proof.
  induction l as [|x l IH]; simpl; [reflexivity|].
  destruct (Grouper.row_leb r x); [reflexivity|].
  rewrite perm_swap. now apply perm_skip.
Qed.

Lemma sort_values_perm (l : list row) : Permutation l (Grouper.sort_values l).
Proof.
  induction l as [|r l IH]; simpl; [reflexivity|].
  rewrite <- insert_perm. now apply perm_skip.
Qed.

Lemma insert_sorted (r : row) (l : list row) :
  StronglySorted row_le l -> StronglySorted row_le (Grouper.insert r l).
Proof.
  induction 1 as [|x l Hs IH Hall]; simpl.
  - repeat constructor.
  - destruct (Grouper.row_leb r x) eqn:E.
    + constructor; [now constructor|].
      constructor; [exact E|].
      eapply Forall_impl; [|exact Hall].
      intros y Hy. now apply row_le_trans with x.
    + constructor; [exact IH|].
      apply (Permutation_Forall (insert_perm r l)).
      constructor; [now apply row_leb_total|exact Hall].
Qed.

Lemma sort_values_sorted (l : list row) :
  StronglySorted row_le (Grouper.sort_values l).
Proof.
  induction l as [|r l IH]; simpl; [constructor|now apply insert_sorted].
Qed.

Lemma insert_at_front (r : row) (l : list row) :
  Forall (row_le r) l -> Grouper.insert r l = r :: l.
Proof.
  destruct 1 as [|x l Hx _]; simpl; [reflexivity|].
  unfold row_le in Hx. now rewrite Hx.
Qed.

(** Inserting a row into a sorted frame commutes with the selection of
    rows. *)
Lemma filter_insert (P : row -> bool) (r : row) (l : list row) :
  StronglySorted row_le l ->
  filter P (Grouper.insert r l)
  = if P r then Grouper.insert r (filter P l) else filter P l.
Proof.
  induction 1 as [|x l Hs IH Hall]; simpl.
  - now destruct (P r).
  - destruct (Grouper.row_leb r x) eqn:E; simpl.
    + destruct (P r) eqn:Er; [|reflexivity].
      symmetry. apply insert_at_front.
      assert (Forall (row_le r) (x :: l)) as Hr.
      { constructor; [exact E|]. eapply Forall_impl; [|exact Hall].
        intros y Hy. now apply row_le_trans with x. }
      apply Forall_forall. intros y Hy.
      rewrite Forall_forall in Hr. apply Hr.
      change (In y (filter P (x :: l))) in Hy.
      now apply filter_In in Hy.
    + rewrite IH. destruct (P x), (P r); simpl; try rewrite E; reflexivity.
Qed.

(** A selection whose rows are in order already is left as it is. *)
Lemma filter_sort_values (P : row -> bool) (l : list row) :
  StronglySorted row_le (filter P l) ->
  filter P (Grouper.sort_values l) = filter P l.
Proof.
  induction l as [|r l IH]; simpl; [reflexivity|].
  intros H. rewrite filter_insert by apply sort_values_sorted.
  destruct (P r).
  - inversion H as [|? ? Hs Hall]; subst.
    rewrite (IH Hs). now apply insert_at_front.
  - now apply IH.
Qed.

Lemma filter_none {A : Type} (P : A -> bool) (l : list A) :
  Forall (fun y => P y = false) l -> filter P l = [].
Proof.
  induction 1 as [|y l Hy _ IH]; simpl; [reflexivity|now rewrite Hy].
Qed.

(** A sorted frame is its rows of smaller group number, then the rows of
    group number [g], then the others. *)
Lemma sorted_in_three (g : nat) (l : list row) :
  StronglySorted row_le l ->
  l = (filter (group_before g) l ++ filter (group_is g) l
         ++ filter (group_after g) l)%list.
Proof.
  induction 1 as [|x l Hs IH Hall]; [reflexivity|].
  simpl.
  destruct (group_before g x) eqn:Eb.
  { assert (group_is g x = false /\ group_after g x = false) as [-> ->]
      by (clear -Eb; split; cell_order).
    simpl. now rewrite <- IH. }
  destruct (group_is g x) eqn:Ei.
  { assert (group_after g x = false) as -> by (clear -Ei; cell_order).
    assert (filter (group_before g) l = []) as Hnil.
    { apply filter_none. eapply Forall_impl; [|exact Hall].
      intros y Hy. clear -Ei Hy. cell_order. }
    rewrite Hnil in *. simpl in *. now rewrite <- IH. }
  assert (group_after g x = true) as -> by (clear -Eb Ei; cell_order).
  assert (filter (group_before g) l = []) as Hnil.
  { apply filter_none. eapply Forall_impl; [|exact Hall].
    intros y Hy. clear -Eb Ei Hy. cell_order. }
  assert (filter (group_is g) l = []) as Hnil2.
  { apply filter_none. eapply Forall_impl; [|exact Hall].
    intros y Hy. clear -Eb Ei Hy. cell_order. }
  rewrite Hnil, Hnil2 in *. simpl in *. now rewrite <- IH.
Qed.

(** ** Group numbers *)

Lemma present_In (keys : list Grouper.key) (p : Z) :
  In p (Grouper.present keys) <-> In (Some p) keys.
Proof.
  induction keys as [|[q|] keys IH]; simpl; [tauto| |].
  - rewrite IH. split; intros [H|H]; auto; left; congruence.
  - rewrite IH. split; [auto|]. intros [H|H]; [discriminate|exact H].
Qed.

Lemma count_present (keys : list Grouper.key) (p : Z) :
  count_occ Z.eq_dec (Grouper.present keys) p
  = count_occ Grouper.key_eq_dec keys (Some p).
Proof.
  induction keys as [|[q|] keys IH]; [reflexivity| |].
  - cbn [Grouper.present]. destruct (Z.eq_dec q p) as [->|Hne].
    + now rewrite !count_occ_cons_eq, IH.
    + rewrite !count_occ_cons_neq, IH; congruence.
  - cbn [Grouper.present]. rewrite count_occ_cons_neq, IH; congruence.
Qed.

(** A smaller phone number of the file has a smaller group number. *)
Lemma group_number_lt (keys : list Grouper.key) (p q : Z) :
  In p (Grouper.present keys) -> p < q ->
  (Grouper.group_number keys p < Grouper.group_number keys q)%nat.
Proof.
  intros Hp Hlt. unfold Grouper.group_number.
  set (ps := Grouper.present keys) in *.
  set (A := nodup Z.eq_dec (filter (fun x => x <? p) ps)).
  set (B := nodup Z.eq_dec (filter (fun x => x <? q) ps)).
  assert (HA : forall x, In x A <-> In x ps /\ x < p).
  { intros x. unfold A. rewrite nodup_In, filter_In, Z.ltb_lt. tauto. }
  assert (HB : forall x, In x B <-> In x ps /\ x < q).
  { intros x. unfold B. rewrite nodup_In, filter_In, Z.ltb_lt. tauto. }
  change (S (List.length A) <= List.length B)%nat.
  apply (NoDup_incl_length (l := p :: A)).
  - constructor; [|apply NoDup_nodup]. rewrite HA. lia.
  - intros x [<-|Hx]; apply HB; [auto|]. apply HA in Hx. split; [tauto|lia].
Qed.

Lemma group_number_inj (keys : list Grouper.key) (p q : Z) :
  In p (Grouper.present keys) -> In q (Grouper.present keys) ->
  Grouper.group_number keys p = Grouper.group_number keys q -> p = q.
Proof.
  intros Hp Hq E. destruct (Z.lt_trichotomy p q) as [H|[H|H]]; [|exact H|].
  - pose proof (group_number_lt keys p q Hp H). lia.
  - pose proof (group_number_lt keys q p Hq H). lia.
Qed.

Lemma has_phone_true (p : Z) (r : row) :
  has_phone p r = true <-> Phone_Number (reg r) = Some p.
Proof.
  unfold has_phone. destruct (Phone_Number (reg r)) as [q|].
  - rewrite Z.eqb_eq. split; congruence.
  - split; discriminate.
Qed.

Lemma marked_phone_in (keys : list Grouper.key) (seen : list Z)
  (data : list registration) (r : row) :
  In r (marked_from keys seen data) ->
  In (Phone_Number (reg r)) (map Phone_Number data).
Proof.
  intros H. apply in_map.
  rewrite <- (marked_from_reg keys seen data). now apply in_map.
Qed.

(** The rows of one phone number are in the order of [sort_values] as they
    stand in the file. *)
Lemma marked_group_sorted (keys : list Grouper.key) (p : Z) (seen : list Z)
  (data : list registration) :
  StronglySorted row_le (filter (has_phone p) (marked_from keys seen data)).
Proof.
  revert seen. induction data as [|g rest IH]; intros seen; [constructor|].
  simpl. destruct (Phone_Number g) as [q|] eqn:E; simpl;
    unfold has_phone at 1; simpl; rewrite E; [|apply IH].
  destruct (Z.eqb_spec q p) as [->|_]; [|apply IH].
  constructor; [apply IH|].
  apply Forall_forall. intros y Hy. apply filter_In in Hy.
  destruct Hy as [Hin Hph]. apply has_phone_true in Hph.
  pose proof (marked_from_cells keys (p :: seen) rest) as Hc.
  rewrite Forall_forall in Hc. specialize (Hc y Hin).
  unfold cells_of in Hc. rewrite Hph in Hc.
  destruct Hc as (Hg & (n & Hn & Hlt) & _).
  apply row_le_same_group
    with (g := Grouper.group_number keys p)
         (n := (count_occ Z.eq_dec seen p + 1)%nat) (m := n);
    simpl; rewrite ?value_of_number; try reflexivity; try assumption.
  simpl in Hlt. destruct (Z.eq_dec p p); [lia|contradiction].
Qed.

(** In the frame the rows of phone number [p] are the rows of its group
    number. *)
Lemma has_phone_group (data : list registration) (p : Z) (r : row) :
  let keys := map Phone_Number data in
  In p (Grouper.present keys) ->
  In r (marked_from keys [] data) ->
  has_phone p r = group_is (Grouper.group_number keys p) r.
Proof.
  intros keys Hp Hr.
  pose proof (marked_from_cells keys [] data) as Hc.
  rewrite Forall_forall in Hc. specialize (Hc r Hr).
  pose proof (marked_phone_in keys [] data r Hr) as Hk.
  unfold cells_of in Hc. unfold has_phone, group_is.
  destruct (Phone_Number (reg r)) as [q|].
  - destruct Hc as (-> & _). apply present_In in Hk.
    destruct (Z.eqb_spec q p) as [->|Hne].
    + now rewrite Nat.eqb_refl.
    + symmetry. apply Nat.eqb_neq. intros E. apply Hne.
      now apply (group_number_inj keys).
  - destruct Hc as (-> & _). reflexivity.
Qed.

Lemma filter_perm {A : Type} (f : A -> bool) (l l' : list A) :
  Permutation l l' -> Permutation (filter f l) (filter f l').
Proof.
  induction 1 as [|x l l' _ IH|x y l|l l' l'' _ IH1 _ IH2]; simpl.
  - constructor.
  - destruct (f x); [now constructor|exact IH].
  - destruct (f x), (f y); try reflexivity. apply perm_swap.
  - now transitivity (filter f l').
Qed.

Lemma count_at_position (n : nat) (l : list row) :
  forall s k : nat,
    map (fun r => cell_value (duplicate_position r)) l = map Some (seq s k) ->
    List.length (filter (at_position n) l)
    = if ((s <=? n) && (n <? s + k))%nat then 1%nat else 0%nat.
Proof.
  induction l as [|r l IH]; intros s k H.
  - destruct k; [|discriminate]. simpl.
    destruct (Nat.leb_spec s n), (Nat.ltb_spec n (s + 0)); simpl;
      reflexivity || lia.
  - destruct k as [|k]; [discriminate|]. simpl in H.
    injection H as Hr Hl. simpl. unfold at_position at 1. rewrite Hr.
    destruct (Nat.eqb_spec s n); simpl; rewrite (IH (S s) k Hl);
      destruct (Nat.leb_spec (S s) n), (Nat.ltb_spec n (S s + k)),
        (Nat.leb_spec s n), (Nat.ltb_spec n (s + S k));
      simpl; reflexivity || lia.
Qed.

Lemma filter_both {A : Type} (f g : A -> bool) (l : list A) :
  filter (fun x => f x && g x) l = filter g (filter f l).
Proof.
  induction l as [|x l IH]; simpl; [reflexivity|].
  destruct (f x); simpl; [destruct (g x)|]; now rewrite IH.
Qed.

Lemma marked_is_marked_from (data : list registration) :
  marked data = marked_from (map Phone_Number data) [] data.
Proof.
  unfold marked, Grouper.duplicated, Grouper.ngroup. apply marked_rowwise.
Qed.

(** C9: no record is lost by the grouping or by the sort; the positions of
    the records of one phone number are 1, 2, 3, ... in file order; in the
    sorted frame one record of each phone number has position 1; and the
    sorted frame has the records of a phone number side by side, in their
    file order. *)
Theorem positions_run_in_file_order :
  forall data : list registration,
    map reg (marked data) = data
    /\ Permutation (marked data) (frame data)
    /\ (forall p : Z,
          map (fun r => cell_value (duplicate_position r))
            (filter (has_phone p) (marked data))
          = map Some (seq 1 (group_size data p)))
    /\ (forall p : Z,
          List.length
            (filter (fun r => has_phone p r && at_position 1 r) (frame data))
          = if (0 <? group_size data p)%nat then 1%nat else 0%nat)
    /\ (forall p : Z,
          exists before after : list row,
            frame data
            = (before ++ filter (has_phone p) (marked data) ++ after)%list
            /\ Forall (fun r => has_phone p r = false) before
            /\ Forall (fun r => has_phone p r = false) after).
Proof.
  intros data. rewrite marked_is_marked_from. unfold frame.
  rewrite marked_is_marked_from.
  set (keys := map Phone_Number data).
  set (m := marked_from keys [] data).
  assert (Hperm : Permutation m (Grouper.sort_values m))
    by apply sort_values_perm.
  assert (Hpos : forall p : Z,
             map (fun r => cell_value (duplicate_position r))
               (filter (has_phone p) m)
             = map Some (seq 1 (group_size data p))).
  { intros p. unfold m. now rewrite marked_from_positions. }
  split; [apply marked_from_reg|]. split; [exact Hperm|].
  split; [exact Hpos|]. split.
  - intros p.
    rewrite <- (Permutation_length
                  (filter_perm (fun r => has_phone p r && at_position 1 r)
                     _ _ Hperm)).
    rewrite filter_both, (count_at_position 1 _ 1 _ (Hpos p)).
    destruct (group_size data p); reflexivity.
  - intros p.
    destruct (in_dec Z.eq_dec p (Grouper.present keys)) as [Hp|Hp].
    + set (g := Grouper.group_number keys p).
      exists (filter (group_before g) (Grouper.sort_values m)),
        (filter (group_after g) (Grouper.sort_values m)).
      assert (Hsame : forall r, In r (Grouper.sort_values m) ->
                has_phone p r = group_is g r).
      { intros r Hr. apply has_phone_group; [exact Hp|].
        apply (Permutation_in _ (Permutation_sym Hperm) Hr). }
      split; [|split].
      * rewrite <- (filter_sort_values (has_phone p) m)
          by apply marked_group_sorted.
        rewrite (filter_ext_in _ _ _ Hsame).
        apply sorted_in_three, sort_values_sorted.
      * apply Forall_forall. intros r Hr. apply filter_In in Hr.
        destruct Hr as [Hr Hb]. rewrite (Hsame r Hr).
        clear -Hb. cell_order.
      * apply Forall_forall. intros r Hr. apply filter_In in Hr.
        destruct Hr as [Hr Hb]. rewrite (Hsame r Hr).
        clear -Hb. cell_order.
    + assert (Hno : forall r, In r m -> has_phone p r = false).
      { intros r Hr. destruct (has_phone p r) eqn:E; [|reflexivity].
        exfalso. apply Hp, present_In. apply has_phone_true in E.
        rewrite <- E. apply (marked_phone_in keys [] data r Hr). }
      exists (Grouper.sort_values m), [].
      rewrite (filter_none (has_phone p) m)
        by (apply Forall_forall; exact Hno).
      rewrite app_nil_r. split; [reflexivity|]. split; [|constructor].
      apply Forall_forall. intros r Hr. apply Hno.
      apply (Permutation_in _ (Permutation_sym Hperm) Hr).
Qed.

(** The duplicate cells of a row of the frame. *)
Lemma frame_row_cells (data : list registration) (r : row) :
  In r (frame data) ->
  match Phone_Number (reg r) with
  | None =>
      duplicate_group r = CNaN /\ duplicate_position r = CNaN
      /\ is_duplicate r
         = (1 <? count_occ Grouper.key_eq_dec (map Phone_Number data) None)%nat
  | Some p =>
      exists n,
        cell_value (duplicate_position r) = Some n
        /\ (1 <= n <= group_size data p)%nat
        /\ is_duplicate r = (1 <? group_size data p)%nat
  end.
Proof.
  intros Hf.
  assert (Hm : In r (marked_from (map Phone_Number data) [] data)).
  { rewrite <- marked_is_marked_from.
    apply (Permutation_in _ (Permutation_sym (sort_values_perm _)) Hf). }
  pose proof (marked_from_cells (map Phone_Number data) [] data) as Hc.
  rewrite Forall_forall in Hc. specialize (Hc r Hm). unfold cells_of in Hc.
  destruct (Phone_Number (reg r)) as [p|] eqn:E; [|exact Hc].
  destruct Hc as (_ & (n & Hn & _) & Hd). exists n.
  split; [exact Hn|]. split.
  - assert (Hin : In (Some n)
                    (map (fun r => cell_value (duplicate_position r))
                       (filter (has_phone p)
                          (marked_from (map Phone_Number data) [] data)))).
    { apply in_map_iff. exists r. split; [exact Hn|].
      apply filter_In. split; [exact Hm|]. now apply has_phone_true. }
    rewrite marked_from_positions in Hin. apply in_map_iff in Hin.
    destruct Hin as (j & Hj & Hseq). injection Hj as ->.
    apply in_seq in Hseq. simpl in Hseq. lia.
  - rewrite Hd. unfold group_size. now rewrite count_present.
Qed.

(** C4: a row of the frame at a position after 1, for which none of the
    first three rules holds, is DUPLICATE_ENTRY whatever the profile says;
    a row at position 1 is never DUPLICATE_ENTRY, and when none of the
    first three rules holds its verdict is one of the eight that depend on
    the profile. *)
Theorem duplicate_rule_precedence :
  forall (data : list registration) (r : row) (d : Profile.t),
    In r (frame data) ->
    let r' := set_profile r d in
    (forall n : nat,
        cell_value (duplicate_position r') = Some n -> (1 < n)%nat ->
        incomplete r' = false -> terms_declined r' = false ->
        no_profile_url r' = false ->
        fst (determine_qualification r') = DUPLICATE_ENTRY)
    /\ (cell_value (duplicate_position r') = Some 1%nat ->
        fst (determine_qualification r') <> DUPLICATE_ENTRY
        /\ (incomplete r' = false -> terms_declined r' = false ->
            no_profile_url r' = false ->
            In (fst (determine_qualification r'))
              [HARD_QUALIFIED; QUALIFIED_TIER2; FLAGGED_DIFF_ACCOUNT;
               DISQUALIFIED; CAUTION_PRE2025; REVIEW_NEEDED;
               REVIEW_PRE2025; UNKNOWN])).
Proof.
  intros data r d Hin r'. split.
  - intros n Hn Hlt H1 H2 H3.
    assert (Hdup : duplicate r' = true).
    { change (duplicate r')
        with (is_duplicate r && cell_gt1 (duplicate_position r)).
      change (cell_value (duplicate_position r) = Some n) in Hn.
      pose proof (frame_row_cells data r Hin) as Hc.
      destruct (Phone_Number (reg r)) as [p|].
      - destruct Hc as (m & Hm & Hb & ->). rewrite Hn in Hm.
        injection Hm as <-.
        destruct (duplicate_position r); simpl in *; try discriminate;
          injection Hn as ->;
          apply andb_true_intro; split; apply Nat.ltb_lt; lia.
      - destruct Hc as (_ & Hp & _). rewrite Hp in Hn. discriminate. }
    unfold determine_qualification. now rewrite H1, H2, H3, Hdup.
  - intros Hone.
    assert (Hdup : duplicate r' = false).
    { unfold duplicate.
      destruct (duplicate_position r'); simpl in *; try discriminate;
        try (injection Hone as ->); apply andb_false_r. }
    unfold determine_qualification. rewrite Hdup. split.
    + destruct (incomplete r'), (terms_declined r'), (no_profile_url r'),
        (hard_qualified r'), (tier2 r'), (flagged r'), (has_badges r'),
        (caution r'), (is2025 r'), (pre2025 r'); discriminate.
    + intros -> -> ->.
      destruct (hard_qualified r'), (tier2 r'), (flagged r'),
        (has_badges r'), (caution r'), (is2025 r'), (pre2025 r');
        simpl; tauto.
Qed.

Lemma duplicate_rule_precedence_witness :
  let data := [Sample.member; Sample.member_again] in
  let r' := set_profile (new_row (Sample.member_again, true, CInt 0, CInt 2))
              (Profile.success Sample.fresh_page) in
  hard_qualified r' = true
  /\ fst (determine_qualification r') = DUPLICATE_ENTRY.
Proof.
  intros data r'. split; [reflexivity|].
  assert (Hin : In (new_row (Sample.member_again, true, CInt 0, CInt 2))
                  (frame data)) by (right; left; reflexivity).
  apply (proj1 (duplicate_rule_precedence data _
                  (Profile.success Sample.fresh_page) Hin) 2%nat);
    try reflexivity; lia.
Defined.

(** ** Records without a phone number *)

(** C2, as stated, fails: of two lines without a phone number each is
    marked as a duplicate, and both carry the same group cell. *)
Lemma blank_phones_flagged_together :
  map Phone_Number [Sample.no_phone_1; Sample.no_phone_2] = [None; None]
  /\ map is_duplicate (frame [Sample.no_phone_1; Sample.no_phone_2])
     = [true; true]
  /\ map duplicate_group (frame [Sample.no_phone_1; Sample.no_phone_2])
     = [CNaN; CNaN]
  /\ Sample.verdicts Sample.online [Sample.no_phone_1; Sample.no_phone_2]
     = Returned [Some INCOMPLETE_REGISTRATION; Some INCOMPLETE_REGISTRATION].
Proof. repeat split. Qed.

(** C2, amended: a record without a phone number is marked as a duplicate
    exactly when the file has two or more such records, and all of them
    carry the same group cell; it is classified INCOMPLETE_REGISTRATION,
    with or without a name, whatever its profile cells, and the loop
    stores that verdict without a request. *)
Theorem blank_phone_is_incomplete :
  forall (data : list registration) (r : row),
    In r (frame data) ->
    Phone_Number (reg r) = None ->
    (is_duplicate r = true
     <-> (2 <= count_occ Grouper.key_eq_dec (map Phone_Number data) None)%nat)
    /\ (forall r2 : row,
          In r2 (frame data) -> Phone_Number (reg r2) = None ->
          duplicate_group r2 = duplicate_group r)
    /\ fst (determine_qualification r) = INCOMPLETE_REGISTRATION
    /\ (forall d : Profile.t,
          fst (determine_qualification (set_profile r d))
          = INCOMPLETE_REGISTRATION)
    /\ (forall (net : Profile.network) (log : list event),
          exists r',
            process_row net r log = (Returned r', log)
            /\ qualification_status r' = Some INCOMPLETE_REGISTRATION).
Proof.
  intros data r Hin Hp.
  pose proof (frame_row_cells data r Hin) as Hc. rewrite Hp in Hc.
  destruct Hc as (Hg & _ & Hd).
  assert (Hinc : forall x : row,
             Phone_Number (reg x) = None ->
             determine_qualification x
             = (INCOMPLETE_REGISTRATION,
                "Missing required fields (Name, Email, or Phone)")).
  { intros x Hx. unfold determine_qualification, incomplete. rewrite Hx.
    now rewrite !orb_true_r. }
  split; [|split; [|split; [|split]]].
  - rewrite Hd. apply Nat.ltb_lt.
  - intros r2 Hin2 Hp2.
    pose proof (frame_row_cells data r2 Hin2) as Hc2. rewrite Hp2 in Hc2.
    destruct Hc2 as (-> & _). now rewrite Hg.
  - now rewrite (Hinc r Hp).
  - intros d. now rewrite (Hinc (set_profile r d) Hp).
  - intros net log. unfold process_row. rewrite (Hinc r Hp). simpl.
    eexists. split; reflexivity.
Qed.

Lemma blank_phone_is_incomplete_witness :
  fst (determine_qualification (new_row (Sample.no_phone_2, true, CNaN, CNaN)))
  = INCOMPLETE_REGISTRATION.
Proof.
  assert (Hin : In (new_row (Sample.no_phone_2, true, CNaN, CNaN))
                  (frame [Sample.no_phone_1; Sample.no_phone_2]))
    by (right; left; reflexivity).
  exact (proj1 (proj2 (proj2
           (blank_phone_is_incomplete _ _ Hin eq_refl)))).
Defined.

(** ** The summary *)

Lemma percent_returns (c d : nat) :
  (0 < d)%nat -> Summary.percent c d = Returned (share c d).
Proof.
  intros H. unfold Summary.percent, Summary.divide.
  destruct (Nat.eqb_spec d 0); [lia|reflexivity].
Qed.

Lemma breakdown_returns (counts : list (status * nat)) (d : nat) :
  (0 < d)%nat ->
  Summary.breakdown counts d
  = Returned (map (fun x => (fst x, snd x, share (snd x) d)) counts).
Proof.
  intros H. induction counts as [|[s c] counts IH]; [reflexivity|].
  simpl. now rewrite (percent_returns c d H), IH.
Qed.

Lemma insert_count_perm (x : status * nat) (l : list (status * nat)) :
  Permutation (x :: l) (Summary.insert_count x l).
Proof.
  induction l as [|y l IH]; simpl; [reflexivity|].
  destruct (snd y <=? snd x)%nat; [reflexivity|].
  rewrite perm_swap. now apply perm_skip.
Qed.

Lemma by_count_perm (l : list (status * nat)) :
  Permutation l (Summary.by_count l).
Proof.
  induction l as [|x l IH]; simpl; [reflexivity|].
  rewrite <- insert_count_perm. now apply perm_skip.
Qed.

Lemma sum_of_counts_perm (l l' : list (status * nat)) :
  Permutation l l' -> sum_of_counts l = sum_of_counts l'.
Proof.
  induction 1 as [|[s c] l l' _ IH|[s c] [t e] l|l l' l'' _ IH1 _ IH2];
    simpl; lia.
Qed.

(** The counts of the statuses of a column add up to its length. *)
Lemma counts_add_up (col m : list status) :
  NoDup m -> incl col m ->
  sum_of_counts (map (fun s => (s, count_occ status_eq_dec col s)) m)
  = List.length col.
Proof.
  intros Hm. induction col as [|x col IH]; intros Hincl.
  - clear. induction m as [|s m IH]; simpl; [reflexivity|exact IH].
  - assert (Hstep : forall m',
      sum_of_counts
        (map (fun s => (s, count_occ status_eq_dec (x :: col) s)) m')
      = (count_occ status_eq_dec m' x
         + sum_of_counts
             (map (fun s => (s, count_occ status_eq_dec col s)) m'))%nat).
    { induction m' as [|s m' IHm]; [reflexivity|].
      cbn [map sum_of_counts]. rewrite IHm.
      destruct (status_eq_dec s x) as [->|Hne].
      - rewrite !count_occ_cons_eq by reflexivity. lia.
      - rewrite !count_occ_cons_neq by congruence. lia. }
    rewrite Hstep, IH by (intros y Hy; apply Hincl; now right).
    rewrite (proj1 (NoDup_count_occ' status_eq_dec m) Hm x)
      by (apply Hincl; now left).
    reflexivity.
Qed.

Lemma value_counts_total (df : list row) :
  sum_of_counts (Summary.value_counts df)
  = List.length (Summary.statuses df).
Proof.
  unfold Summary.value_counts.
  rewrite <- (sum_of_counts_perm _ _ (by_count_perm _)).
  apply counts_add_up.
  - unfold Summary.distinct. apply NoDup_rev, NoDup_nodup.
  - intros s Hs. unfold Summary.distinct.
    apply in_rev. rewrite rev_involutive. apply nodup_In. now apply in_rev in Hs.
Qed.

Lemma statuses_length (df : list row) :
  Forall (fun r => qualification_status r <> None) df ->
  List.length (Summary.statuses df) = List.length df.
Proof.
  induction 1 as [|r df Hr _ IH]; [reflexivity|].
  simpl. destruct (qualification_status r); [|contradiction].
  simpl. now rewrite IH.
Qed.

Lemma shares_add_up (counts : list (status * nat)) (d : nat) :
  (sum_of_percentages
     (map (fun x => (fst x, snd x, share (snd x) d)) counts)
   == share (sum_of_counts counts) d)%Q.
Proof.
  induction counts as [|[s c] counts IH].
  - unfold share. simpl. reflexivity.
  - cbn [map sum_of_percentages sum_of_counts fst snd]. rewrite IH.
    unfold share. rewrite <- Qmult_plus_distr_l, Qinv_plus_distr.
    now rewrite Nat2Z.inj_add.
Qed.

Lemma whole_share (d : nat) : (0 < d)%nat -> (share d d == 100)%Q.
Proof.
  intros H. unfold share, Qeq. cbn [Qmult Qnum Qden].
  assert (E : Z.pos (Pos.of_nat d) = Z.of_nat d).
  { destruct d as [|d]; [lia|].
    now rewrite <- Pos.of_nat_succ, Zpos_P_of_succ_nat, Nat2Z.inj_succ. }
  rewrite Pos2Z.inj_mul, E. lia.
Qed.

Lemma value_counts_entries (df : list row) (s : status) (c : nat) :
  In (s, c) (Summary.value_counts df) ->
  c = count_occ status_eq_dec (Summary.statuses df) s.
Proof.
  unfold Summary.value_counts. intros H.
  apply (Permutation_in _ (Permutation_sym (by_count_perm _))) in H.
  apply in_map_iff in H. destruct H as (t & E & _). now injection E as <- <-.
Qed.

(** The guarded percentages of lines 292 and 302 are 0 when no entry is
    valid. *)
Lemma guarded_percentages (df : list row) (rep : Summary.report) :
  Summary.summary df = Returned rep ->
  Summary.valid_count rep = 0%nat ->
  Summary.qualified_percentage rep = 0%Q
  /\ Summary.action_percentage rep = 0%Q
  /\ Summary.valid_breakdown rep = [].
Proof.
  unfold Summary.summary. fold (valid_entries df).
  destruct (Summary.breakdown (Summary.value_counts df) (List.length df));
    [|discriminate].
  cbn [bind].
  destruct (Summary.percent (List.length (valid_entries df)) (List.length df));
    [|discriminate].
  cbn [bind].
  destruct (Nat.ltb_spec 0 (List.length (valid_entries df))) as [Hpos|Hz].
  - destruct (Summary.breakdown _ _); [|discriminate]. cbn [bind].
    rewrite !(percent_returns _ _ Hpos). cbn [bind].
    intros E. injection E as <-. simpl. lia.
  - cbn [bind]. intros E. injection E as <-. simpl. auto.
Qed.

(** C3: on a file without records the loop of the summary has nothing to
    divide, and line 277 divides the number of valid entries, 0, by the
    number of entries, 0: the run ends with ZeroDivisionError. *)
Theorem empty_file_divides_by_zero :
  forall net : Profile.network,
    main net [] = (Raised "division by zero", [])
    /\ Summary.percent (List.length (valid_entries []))
         (List.length (@nil row))
       = Raised "division by zero".
Proof. intros net. split; reflexivity. Qed.

(** * Further properties *)

(** ** The order of the rules *)

(** The twelve branches of [determine_qualification], each with the facts
    that lead to it. *)
Ltac by_rules r :=
  unfold determine_qualification;
  destruct (incomplete r) eqn:?; [|
  destruct (terms_declined r) eqn:?; [|
  destruct (no_profile_url r) eqn:?; [|
  destruct (duplicate r) eqn:?; [|
  destruct (hard_qualified r) eqn:?; [|
  destruct (tier2 r) eqn:?; [|
  destruct (flagged r) eqn:?; [|
  destruct (has_badges r) eqn:?; [|
  destruct (caution r) eqn:?; [|
  destruct (is2025 r) eqn:?; [|
  destruct (pre2025 r) eqn:? ]]]]]]]]]]; cbn [fst snd].

(** X1: each of the first four verdicts is given by its own rule and by no
    other branch: INCOMPLETE_REGISTRATION exactly when a required field is
    missing, TERMS_DECLINED exactly when the fields are there and the
    consent is not the accepted text, NO_PROFILE_URL exactly when these two
    pass and the URL is missing or blank, DUPLICATE_ENTRY exactly when the
    three pass and the row is a later entry of its phone number. *)
Theorem short_circuit_verdicts :
  forall r : row,
    (fst (determine_qualification r) = INCOMPLETE_REGISTRATION
     <-> incomplete r = true)
    /\ (fst (determine_qualification r) = TERMS_DECLINED
        <-> incomplete r = false /\ terms_declined r = true)
    /\ (fst (determine_qualification r) = NO_PROFILE_URL
        <-> incomplete r = false /\ terms_declined r = false
            /\ no_profile_url r = true)
    /\ (fst (determine_qualification r) = DUPLICATE_ENTRY
        <-> incomplete r = false /\ terms_declined r = false
            /\ no_profile_url r = false /\ duplicate r = true).
Proof.
  intros r. by_rules r;
    repeat split; intros; try discriminate; try tauto;
    repeat match goal with H : _ /\ _ |- _ => destruct H end;
    try discriminate; try congruence.
Qed.

Lemma eq_int_true (c : option Z) (k : Z) :
  Py.eq_int c k = true <-> c = Some k.
Proof.
  destruct c as [z|]; simpl; [|split; discriminate].
  rewrite Z.eqb_eq. split; congruence.
Qed.

Lemma has_badges_true (r : row) :
  has_badges r = true
  <-> exists n, profile_badge_count r = Some n /\ 0 < n.
Proof.
  unfold has_badges, Py.truthy, Py.gt_int.
  destruct (profile_badge_count r) as [z|].
  - rewrite andb_true_iff, negb_true_iff, Z.eqb_neq, Z.ltb_lt. split.
    + intros [_ H]. now exists z.
    + intros (n & E & H). injection E as ->. lia.
  - split; [discriminate|]. intros (n & E & _). discriminate.
Qed.

Lemma pre2025_true (r : row) :
  pre2025 r = true
  <-> exists y, profile_creation_year r = Some y /\ y <> 0 /\ y < 2025.
Proof.
  unfold pre2025, Py.truthy, Py.lt_int.
  destruct (profile_creation_year r) as [z|].
  - rewrite andb_true_iff, negb_true_iff, Z.eqb_neq, Z.ltb_lt. split.
    + intros [H1 H2]. now exists z.
    + intros (y & E & H1 & H2). injection E as ->. auto.
  - split; [discriminate|]. intros (y & E & _). discriminate.
Qed.

(** X2: a record is HARD_QUALIFIED or QUALIFIED_TIER2 only with a profile
    created in 2025 that has no badge, no points and no league, and only
    when it is complete, consenting, with a URL and not a later duplicate;
    HARD_QUALIFIED needs the reserved domain in the declared email, and
    QUALIFIED_TIER2 is given to equal emails only when the declared email
    lacks the reserved domain. *)
Theorem qualified_needs_empty_2025_profile :
  forall r : row,
    In (fst (determine_qualification r)) Summary.qualified_statuses ->
    profile_creation_year r = Some 2025
    /\ empty_profile r = true
    /\ incomplete r = false /\ terms_declined r = false
    /\ no_profile_url r = false /\ duplicate r = false
    /\ (fst (determine_qualification r) = HARD_QUALIFIED
        <-> email_has_gdg_domain r = true)
    /\ (fst (determine_qualification r) = QUALIFIED_TIER2
        <-> email_has_gdg_domain r = false /\ email_matches r = true).
Proof.
  intros r. by_rules r; intros Hin; simpl in Hin;
    try (exfalso; intuition discriminate).
  - unfold hard_qualified in *. unfold empty_profile.
    repeat match goal with
           | H : _ && _ = true |- _ => apply andb_prop in H; destruct H
           end.
    match goal with H : Py.eq_int _ _ = true |- _ => apply eq_int_true in H end.
    repeat split; auto; try discriminate.
    + now apply andb_true_intro; split; [apply andb_true_intro; split|].
    + intros [? _]; congruence.
  - unfold hard_qualified, tier2 in *. unfold empty_profile.
    repeat match goal with
           | H : _ && _ = true |- _ => apply andb_prop in H; destruct H
           end.
    match goal with H : Py.eq_int _ _ = true |- _ => apply eq_int_true in H end.
    assert (Hy : Py.eq_int (profile_creation_year r) 2025 = true)
      by now apply eq_int_true.
    assert (Hg : email_has_gdg_domain r = false).
    { destruct (email_has_gdg_domain r); [|reflexivity].
      match goal with
      | H : true && _ && _ && _ && _ = false |- _ => rename H into Hh
      end.
      rewrite Hy in Hh. simpl in Hh.
      repeat match goal with H : _ = true |- _ => rewrite H in Hh end.
      discriminate. }
    repeat split; auto; try discriminate; try congruence.
    now apply andb_true_intro; split; [apply andb_true_intro; split|].
Qed.

Lemma qualified_needs_empty_2025_profile_witness :
  let r := set_profile (new_row (Sample.member, false, CInt 0, CInt 1))
             (Profile.success Sample.fresh_page) in
  profile_creation_year r = Some 2025 /\ empty_profile r = true.
Proof.
  intros r.
  assert (H : In (fst (determine_qualification r)) Summary.qualified_statuses)
    by (left; reflexivity).
  pose proof (qualified_needs_empty_2025_profile r H) as (H1 & H2 & _).
  split; assumption.
Defined.

(** X3: DISQUALIFIED is the verdict exactly when the first four rules pass,
    the record is not flagged for a different account and the badge count
    is positive; the reason then gives that count.  So a record with a
    positive badge count is never qualified, a caution or a review case. *)
Theorem disqualified_by_badges :
  forall r : row,
    (fst (determine_qualification r) = DISQUALIFIED
     <-> incomplete r = false /\ terms_declined r = false
         /\ no_profile_url r = false /\ duplicate r = false
         /\ flagged r = false
         /\ exists n, profile_badge_count r = Some n /\ 0 < n)
    /\ (forall n : Z,
          profile_badge_count r = Some n -> 0 < n ->
          In (fst (determine_qualification r))
            [INCOMPLETE_REGISTRATION; TERMS_DECLINED; NO_PROFILE_URL;
             DUPLICATE_ENTRY; FLAGGED_DIFF_ACCOUNT; DISQUALIFIED]
          /\ (fst (determine_qualification r) = DISQUALIFIED ->
              snd (determine_qualification r)
              = "Has " ++ Py.str_int n ++ " badges")).
Proof.
  intros r.
  assert (Hq : has_badges r = true -> hard_qualified r = false /\ tier2 r = false).
  { intros H. apply has_badges_true in H. destruct H as (n & E & Hn).
    unfold hard_qualified, tier2, no_badges, Py.eq_int, Py.isna. rewrite E.
    destruct (Z.eqb_spec n 0); [lia|]. simpl.
    now rewrite !andb_false_r. }
  split.
  - by_rules r; split; intros H;
      try discriminate;
      try (destruct H as (? & ? & ? & ? & ? & ?); congruence);
      try (destruct H as (_ & _ & _ & _ & _ & H);
           apply has_badges_true in H; try congruence;
           destruct (Hq H); congruence).
    repeat split; auto. now apply has_badges_true.
  - intros n E Hn.
    assert (Hb : has_badges r = true) by (apply has_badges_true; eauto).
    destruct (Hq Hb) as [Hh Ht].
    unfold determine_qualification. rewrite Hh, Ht, Hb.
    destruct (incomplete r), (terms_declined r), (no_profile_url r),
      (duplicate r), (flagged r); cbn [fst snd];
      (split; [simpl; tauto|]); try discriminate.
    intros _. unfold badges_str. now rewrite E.
Qed.

(** X4: UNKNOWN is the verdict exactly when the first four rules pass, the
    record is not flagged, the badge count is not positive and the creation
    year is missing, 0 or after 2025: a profile opened after 2025 is not
    a review case. *)
Theorem unknown_without_usable_year :
  forall r : row,
    fst (determine_qualification r) = UNKNOWN
    <-> incomplete r = false /\ terms_declined r = false
        /\ no_profile_url r = false /\ duplicate r = false
        /\ flagged r = false /\ has_badges r = false
        /\ (profile_creation_year r = None
            \/ profile_creation_year r = Some 0
            \/ exists y, profile_creation_year r = Some y /\ 2025 < y).
Proof.
  intros r.
  assert (Hyear :
    (is2025 r = false /\ pre2025 r = false)
    <-> (profile_creation_year r = None
         \/ profile_creation_year r = Some 0
         \/ exists y, profile_creation_year r = Some y /\ 2025 < y)).
  { unfold is2025, pre2025, Py.eq_int, Py.truthy, Py.lt_int.
    destruct (profile_creation_year r) as [y|].
    - split.
      + intros [H1 H2]. apply Z.eqb_neq in H1.
        apply andb_false_iff in H2. destruct H2 as [H2|H2].
        * apply negb_false_iff, Z.eqb_eq in H2. subst y. now right; left.
        * apply Z.ltb_ge in H2. right; right. exists y. split; [reflexivity|lia].
      + intros [H|[H|(z & H & Hz)]]; [discriminate| |].
        * injection H as ->. split; reflexivity.
        * injection H as ->. split; [apply Z.eqb_neq; lia|].
          apply andb_false_iff. right. apply Z.ltb_ge. lia.
    - split; [auto|]. intros _. split; reflexivity. }
  assert (Hoff : is2025 r = false ->
                 hard_qualified r = false /\ tier2 r = false).
  { unfold hard_qualified, tier2, is2025. intros ->.
    now rewrite !andb_false_r. }
  assert (Hcau : pre2025 r = false -> caution r = false).
  { unfold caution. now intros ->. }
  by_rules r; split; intros H; try discriminate;
    try (destruct H as (? & ? & ? & ? & ? & ? & ?); congruence);
    try (destruct H as (_ & _ & _ & _ & _ & _ & H); apply Hyear in H;
         destruct H as [H1 H2];
         try (destruct (Hoff H1)); try (pose proof (Hcau H2)); congruence).
  repeat split; auto. apply Hyear. split; reflexivity || assumption.
Qed.

(** X5: the two pre-2025 verdicts need a creation year other than 0 and
    before 2025, and the reason gives that year; CAUTION_PRE2025 is the
    one for an empty profile, REVIEW_PRE2025 the one for a profile that has
    points or a league (its badge count is not positive). *)
Theorem pre2025_verdicts :
  forall r : row,
    (fst (determine_qualification r) = CAUTION_PRE2025 ->
     exists y, profile_creation_year r = Some y /\ y <> 0 /\ y < 2025
               /\ empty_profile r = true
               /\ snd (determine_qualification r)
                  = "Created in " ++ Py.str_int y ++ " but empty profile")
    /\ (fst (determine_qualification r) = REVIEW_PRE2025 ->
        exists y, profile_creation_year r = Some y /\ y <> 0 /\ y < 2025
                  /\ empty_profile r = false /\ has_badges r = false
                  /\ snd (determine_qualification r)
                     = "Pre-2025 account (" ++ Py.str_int y
                         ++ ") needs review").
Proof.
  intros r. by_rules r; split; intros H; try discriminate.
  - match goal with Hc : caution r = true |- _ =>
      unfold caution in Hc;
      do 3 (apply andb_prop in Hc; destruct Hc as [Hc ?]);
      apply pre2025_true in Hc; destruct Hc as (y & E & Hnz & Hlt) end.
    exists y. unfold year_str, empty_profile. rewrite E.
    repeat split; auto.
    now apply andb_true_intro; split; [apply andb_true_intro; split|].
  - match goal with Hp : pre2025 r = true |- _ =>
      pose proof Hp as Hp';
      apply pre2025_true in Hp'; destruct Hp' as (y & E & Hnz & Hlt) end.
    exists y. unfold year_str. rewrite E. repeat split; auto.
    match goal with Hc : caution r = false |- _ => unfold caution in Hc end.
    unfold empty_profile.
    destruct (pre2025 r), (no_badges r), (no_league r), (no_points r);
      simpl in *; congruence.
Qed.

(** X6: the profile cells have no part in the first four rules: a record
    whose verdict is one of the first four keeps that verdict and its
    reason whatever profile is stored on it, and a record whose verdict is
    not one of them gets none of them from a profile. *)
Theorem first_four_rules_ignore_profile :
  forall (r : row) (d : Profile.t),
    (In (fst (determine_qualification (set_profile r d)))
       Summary.invalid_statuses
     <-> In (fst (determine_qualification r)) Summary.invalid_statuses)
    /\ (In (fst (determine_qualification r)) Summary.invalid_statuses ->
        determine_qualification (set_profile r d)
        = determine_qualification r).
Proof.
  intros r d.
  destruct (rules_ignore_profile r d) as (E1 & E2 & E3 & E4 & _).
  assert (Hin : forall x : row,
    In (fst (determine_qualification x)) Summary.invalid_statuses
    <-> (incomplete x || terms_declined x || no_profile_url x
         || duplicate x) = true).
  { intros x. by_rules x; simpl; split; intros H;
      try reflexivity; try discriminate; try tauto;
      repeat (destruct H as [H|H]; try discriminate); try contradiction. }
  split.
  - rewrite !Hin, E1, E2, E3, E4. reflexivity.
  - intros H. apply Hin in H.
    unfold determine_qualification. rewrite E1, E2, E3, E4.
    destruct (incomplete r); [reflexivity|].
    destruct (terms_declined r); [reflexivity|].
    destruct (no_profile_url r); [reflexivity|].
    destruct (duplicate r); [reflexivity|discriminate].
Qed.

Lemma disqualified_by_badges_witness :
  let r := set_profile (new_row (Sample.outsider, false, CInt 0, CInt 1))
             (Profile.success Sample.busy_page) in
  determine_qualification r = (DISQUALIFIED, "Has 3 badges").
Proof.
  intros r.
  pose proof (proj2 (disqualified_by_badges r) 3 eq_refl eq_refl) as [_ H].
  specialize (H eq_refl).
  apply injective_projections; [reflexivity|exact H].
Defined.

Lemma pre2025_verdicts_witness :
  let r := set_profile (new_row (Sample.outsider, false, CInt 0, CInt 1))
             (Profile.success Sample.old_page) in
  exists y, profile_creation_year r = Some y /\ y <> 0 /\ y < 2025
            /\ empty_profile r = false /\ has_badges r = false
            /\ snd (determine_qualification r)
               = "Pre-2025 account (" ++ Py.str_int y ++ ") needs review".
Proof.
  intros r. apply (proj2 (pre2025_verdicts r)). reflexivity.
Defined.

(** ** The rows of the frame before the loop *)

Lemma marked_from_fresh (keys : list Grouper.key) (seen : list Z)
  (data : list registration) :
  Forall (fun r => exists dup grp pos, r = new_row (reg r, dup, grp, pos))
    (marked_from keys seen data).
Proof.
  revert seen. induction data as [|g rest IH]; intros seen; [constructor|].
  simpl. destruct (Phone_Number g); constructor; try apply IH;
    eexists _, _, _; reflexivity.
Qed.

Lemma frame_row_fresh (data : list registration) (r : row) :
  In r (frame data) ->
  exists dup grp pos, r = new_row (reg r, dup, grp, pos).
Proof.
  intros Hf.
  assert (Hm : In r (marked_from (map Phone_Number data) [] data)).
  { rewrite <- marked_is_marked_from.
    apply (Permutation_in _ (Permutation_sym (sort_values_perm _)) Hf). }
  pose proof (marked_from_fresh (map Phone_Number data) [] data) as H.
  rewrite Forall_forall in H. now apply H.
Qed.

(** X7: before any profile is fetched, the verdict of a row of the frame is
    one of the first four, FLAGGED_DIFF_ACCOUNT or UNKNOWN. *)
Theorem first_pass_verdicts :
  forall (data : list registration) (r : row),
    In r (frame data) ->
    In (fst (determine_qualification r))
      [INCOMPLETE_REGISTRATION; TERMS_DECLINED; NO_PROFILE_URL;
       DUPLICATE_ENTRY; FLAGGED_DIFF_ACCOUNT; UNKNOWN].
Proof.
  intros data r Hin.
  destruct (frame_row_fresh data r Hin) as (dup & grp & pos & E).
  assert (Hh : hard_qualified r = false)
    by (rewrite E; unfold hard_qualified; cbn; now rewrite !andb_false_r).
  assert (Ht : tier2 r = false)
    by (rewrite E; unfold tier2; cbn; now rewrite !andb_false_r).
  assert (Hb : has_badges r = false) by (rewrite E; reflexivity).
  assert (Hc : caution r = false) by (rewrite E; reflexivity).
  assert (Hy : is2025 r = false) by (rewrite E; reflexivity).
  assert (Hp : pre2025 r = false) by (rewrite E; reflexivity).
  unfold determine_qualification. rewrite Hh, Ht, Hb, Hc, Hy, Hp.
  destruct (incomplete r), (terms_declined r), (no_profile_url r),
    (duplicate r), (flagged r); simpl; tauto.
Qed.

Lemma first_pass_verdicts_witness :
  In (fst (determine_qualification
             (new_row (Sample.outsider, false, CInt 0, CInt 1))))
    [INCOMPLETE_REGISTRATION; TERMS_DECLINED; NO_PROFILE_URL;
     DUPLICATE_ENTRY; FLAGGED_DIFF_ACCOUNT; UNKNOWN].
Proof.
  apply (first_pass_verdicts [Sample.outsider]). left. reflexivity.
Defined.

(** ** The verdict the loop stores *)

Lemma skipped_verdict (x : row) :
  incomplete x = false -> terms_declined x = false ->
  no_profile_url x = false ->
  isin (fst (determine_qualification x)) skipped_statuses = false.
Proof. intros H1 H2 H3. by_rules x; try discriminate; reflexivity. Qed.

Lemma process_row_stores_verdict (net : Profile.network) (r r' : row)
  (log log' : list event) :
  process_row net r log = (Returned r', log') ->
  qualification_status r' = Some (fst (determine_qualification r'))
  /\ qualification_reason r' = Some (snd (determine_qualification r')).
Proof.
  unfold process_row.
  destruct (first_pass r)
    as [[Hs _] | [(Hd & Hi & Ht & Hu & Hdup) | (Hs & Hd & _ & _ & Hu & _)]].
  - rewrite Hs. intros E. injection E as <- _. split; reflexivity.
  - assert (Hs : isin (fst (determine_qualification r)) skipped_statuses
                 = false) by now rewrite Hd.
    rewrite Hs, Hd. simpl. destruct (url_of_row r Hu) as [url ->].
    destruct (Profile.check_profile net url 3 log) as [[d|] log1];
      [|discriminate].
    intros E. injection E as <- _.
    assert (Hsame :
      determine_qualification
        (set_profile (set_verdict r (determine_qualification r)) d)
      = determine_qualification r).
    { set (r0 := set_verdict r (determine_qualification r)).
      unfold determine_qualification.
      change (incomplete (set_profile r0 d)) with (incomplete r).
      change (terms_declined (set_profile r0 d)) with (terms_declined r).
      change (no_profile_url (set_profile r0 d)) with (no_profile_url r).
      change (duplicate (set_profile r0 d)) with (duplicate r).
      change (duplicate_position (set_profile r0 d))
        with (duplicate_position r).
      now rewrite Hi, Ht, Hu, Hdup. }
    rewrite Hsame. split; reflexivity.
  - rewrite Hs, Hd. destruct (url_of_row r Hu) as [url ->].
    destruct (Profile.check_profile net url 3 log) as [[d|] log1];
      [|discriminate].
    intros E. injection E as <- _. split; reflexivity.
Qed.

(** X8: at the end of the loop the status and the reason stored on every
    row are what [determine_qualification] gives on that row as it stands,
    with its profile cells: for a skipped row, for a duplicate whose
    profile was stored afterwards, and for a row classified again. *)
Theorem stored_verdict_is_current :
  forall (net : Profile.network) (rows df : list row)
         (log log' : list event),
    process_rows net rows log = (Returned df, log') ->
    Forall
      (fun r' =>
         qualification_status r' = Some (fst (determine_qualification r'))
         /\ qualification_reason r'
            = Some (snd (determine_qualification r')))
      df.
Proof.
  intros net rows. induction rows as [|r rows IH]; intros df log log' H.
  - injection H as <- _. constructor.
  - simpl in H.
    destruct (process_row net r log) as [[r'|e] log1] eqn:E1; [|discriminate].
    destruct (process_rows net rows log1) as [[rs|e] log2] eqn:E2;
      [|discriminate].
    injection H as <- _. constructor.
    + exact (process_row_stores_verdict net r r' log log1 E1).
    + exact (IH rs log1 log2 E2).
Qed.

Lemma stored_verdict_is_current_witness :
  Forall
    (fun r' =>
       qualification_status r' = Some (fst (determine_qualification r'))
       /\ qualification_reason r' = Some (snd (determine_qualification r')))
    [Sample.outsider_row].
Proof.
  apply (stored_verdict_is_current Sample.online (frame [Sample.outsider])
           [Sample.outsider_row] []
           [Get "https://www.cloudskillsboost.google/public_profiles/a1";
            Sleep 1]).
  reflexivity.
Defined.

(** ** Requests and pauses *)

Lemma requests_app (a b : list event) :
  requests (a ++ b) = (requests a + requests b)%nat.
Proof. unfold requests. now rewrite filter_app, length_app. Qed.

Lemma pauses_app (a b : list event) :
  pauses (a ++ b) = (pauses a + pauses b)%nat.
Proof. unfold pauses. now rewrite filter_app, length_app. Qed.

Lemma attempts_requests (net : Profile.network) (url : string) (n : nat) :
  forall (m k : nat) (log : list event),
    (0 < m)%nat -> (k + m = n)%nat ->
    exists d ext,
      Profile.attempts net url n (seq k m) log = (Some d, (log ++ ext)%list)
      /\ (1 <= requests ext <= m)%nat
      /\ Forall (fun e => e = Get url \/ e = Sleep 2) ext
      /\ (List.length ext + 1 = 2 * requests ext)%nat
      /\ ((exists p, d = Profile.success p)
          \/ (requests ext = m /\ exists e, d = Profile.failure e)).
Proof.
  induction m as [|m IH]; intros k log Hm Hk; [lia|].
  cbn [seq Profile.attempts].
  destruct (net log url) as [p|e].
  - exists (Profile.success p), [Get url]. repeat split; simpl; auto.
    left. now exists p.
  - destruct (Nat.ltb_spec k (n - 1)) as [Hlt|Hge].
    + destruct (IH (S k) ((log ++ [Get url]) ++ [Sleep 2])%list)
        as (d & ext & E & Hr & Hall & Hlen & Hd); [lia|lia|].
      exists d, (Get url :: Sleep 2 :: ext)%list. rewrite E.
      replace (((log ++ [Get url]) ++ [Sleep 2]) ++ ext)%list
        with (log ++ Get url :: Sleep 2 :: ext)%list
        by (rewrite <- !app_assoc; reflexivity).
      change (requests (Get url :: Sleep 2 :: ext)) with (S (requests ext)).
      repeat split; try lia; auto.
      * simpl. lia.
      * destruct Hd as [Hd|[Hd He]]; [now left|right]. split; [lia|exact He].
    + exists (Profile.failure e), [Get url].
      repeat split; simpl; auto; try lia.
      right. split; [unfold requests; simpl; lia|now exists e].
Qed.

Lemma retries_next (url : string) (log : list event) (i : nat) :
  (((log ++ [Get url]) ++ [Sleep 2]) ++ retries url i)%list
  = (log ++ retries url (S i))%list.
Proof. cbn [retries]. now rewrite <- !app_assoc. Qed.

(** The attempts from the one numbered [k] on: [j] of them fail and are
    followed by another, and the next one ends the loop. *)
Lemma attempts_trace (net : Profile.network) (url : string) (n : nat) :
  forall (m k : nat) (log : list event),
    (0 < m)%nat -> (k + m = n)%nat ->
    exists (j : nat) (d : Profile.t),
      (j < m)%nat
      /\ Profile.attempts net url n (seq k m) log
         = (Some d, (log ++ retries url j ++ [Get url])%list)
      /\ (forall i, (i < j)%nat ->
                    exists e, net (log ++ retries url i)%list url = Raised e)
      /\ ((exists p, net (log ++ retries url j)%list url = Returned p
                     /\ d = Profile.success p)
          \/ (S j = m
              /\ exists e, net (log ++ retries url j)%list url = Raised e
                           /\ d = Profile.failure e)).
Proof.
  induction m as [|m IH]; intros k log Hm Hk; [lia|].
  cbn [seq Profile.attempts].
  destruct (net log url) as [p|e] eqn:E.
  - exists 0%nat, (Profile.success p). cbn [retries]. rewrite app_nil_r.
    repeat split; [lia| |].
    + intros i Hi. lia.
    + left. exists p. now split.
  - destruct (Nat.ltb_spec k (n - 1)) as [Hlt|Hge].
    + destruct (IH (S k) ((log ++ [Get url]) ++ [Sleep 2])%list)
        as (j & d & Hj & Ha & Hfail & Hd); [lia|lia|].
      exists (S j), d. split; [lia|]. split; [|split].
      * rewrite Ha. rewrite app_assoc, retries_next. now rewrite <- app_assoc.
      * intros [|i] Hi.
        -- exists e. cbn [retries]. now rewrite app_nil_r.
        -- rewrite <- retries_next. apply Hfail. lia.
      * rewrite <- retries_next.
        destruct Hd as [Hd|[Hd He]]; [now left|right].
        split; [lia|exact He].
    + exists 0%nat, (Profile.failure e). cbn [retries]. rewrite app_nil_r.
      repeat split; [lia| |].
      * intros i Hi. lia.
      * right. split; [lia|]. exists e. now split.
Qed.

(** X9: with no attempt allowed [check_profile] returns [None] and asks
    nothing.  With [n] attempts allowed its events are a request for the
    URL, a sleep of two seconds, a request, and so on, ending with a
    request: a sleep stands between two requests and none follows the
    last.  Every attempt before the last one raised; the last one is the
    first that returns, and its page gives the dictionary, or it is the
    [n]-th and raises, and the dictionary is that of a failure with its
    message. *)
Theorem check_profile_requests :
  forall (net : Profile.network) (url : string) (log : list event),
    Profile.check_profile net url 0 log = (None, log)
    /\ (forall n : nat,
          (0 < n)%nat ->
          exists (j : nat) (d : Profile.t),
            (j < n)%nat
            /\ Profile.check_profile net url n log
               = (Some d, (log ++ retries url j ++ [Get url])%list)
            /\ (forall i, (i < j)%nat ->
                   exists e, net (log ++ retries url i)%list url = Raised e)
            /\ ((exists p, net (log ++ retries url j)%list url = Returned p
                           /\ d = Profile.success p)
                \/ (S j = n
                    /\ exists e,
                         net (log ++ retries url j)%list url = Raised e
                         /\ d = Profile.failure e))).
Proof.
  intros net url log. split; [reflexivity|].
  intros n Hn. unfold Profile.check_profile.
  destruct (attempts_trace net url n n 0 log Hn eq_refl)
    as (j & d & Hj & Ha & Hfail & Hd).
  exists j, d. repeat split; assumption.
Qed.

Lemma check_profile_requests_witness :
  exists (j : nat) (d : Profile.t),
    (j < 2)%nat
    /\ Profile.check_profile Sample.offline "u" 2 []
       = (Some d, ([] ++ retries "u" j ++ [Get "u"])%list)
    /\ (forall i, (i < j)%nat ->
           exists e, Sample.offline ([] ++ retries "u" i)%list "u" = Raised e)
    /\ ((exists p, Sample.offline ([] ++ retries "u" j)%list "u" = Returned p
                   /\ d = Profile.success p)
        \/ (S j = 2%nat
            /\ exists e,
                 Sample.offline ([] ++ retries "u" j)%list "u" = Raised e
                 /\ d = Profile.failure e)).
Proof.
  apply (proj2 (check_profile_requests Sample.offline "u" []) 2%nat). lia.
Defined.

Lemma only_gets_and_sleeps (url : string) (ext : list event) :
  Forall (fun e => e = Get url \/ e = Sleep 2) ext -> pauses ext = 0%nat.
Proof.
  induction 1 as [|e ext [->| ->] _ IH]; [reflexivity| |]; exact IH.
Qed.

Lemma process_row_events (net : Profile.network) (r r' : row)
  (log log' : list event) :
  process_row net r log = (Returned r', log') ->
  exists ext,
    log' = (log ++ ext)%list
    /\ ((Summary.status_isin skipped_statuses r' = true /\ ext = [])
        \/ (Summary.status_isin skipped_statuses r' = false
            /\ (1 <= requests ext <= 3)%nat /\ pauses ext = 1%nat)).
Proof.
  unfold process_row.
  destruct (first_pass r)
    as [[Hs _] | [(Hd & Hi & Ht & Hu & Hdup) | (Hs & Hd & Hi & Ht & Hu & _)]].
  - rewrite Hs. intros E. injection E as <- <-. exists [].
    split; [now rewrite app_nil_r|]. left. split; [|reflexivity].
    unfold Summary.status_isin. simpl. exact Hs.
  - assert (Hs : isin (fst (determine_qualification r)) skipped_statuses
                 = false) by now rewrite Hd.
    rewrite Hs, Hd. simpl. destruct (url_of_row r Hu) as [url ->].
    destruct (attempts_requests net url 3 3 0 log)
      as (d & ext & E & Hr & Hall & _); [lia|lia|].
    unfold Profile.check_profile. rewrite E.
    intros E'. injection E' as <- <-. exists (ext ++ [Sleep 1])%list.
    split; [now rewrite app_assoc|]. right.
    rewrite requests_app, pauses_app, (only_gets_and_sleeps url ext Hall).
    change (requests [Sleep 1]) with 0%nat.
    change (pauses [Sleep 1]) with 1%nat.
    unfold Summary.status_isin. simpl. rewrite Hd.
    repeat split; simpl; lia.
  - rewrite Hs, Hd. destruct (url_of_row r Hu) as [url ->].
    destruct (attempts_requests net url 3 3 0 log)
      as (d & ext & E & Hr & Hall & _); [lia|lia|].
    unfold Profile.check_profile. rewrite E.
    intros E'. injection E' as <- <-. exists (ext ++ [Sleep 1])%list.
    split; [now rewrite app_assoc|]. right.
    rewrite requests_app, pauses_app, (only_gets_and_sleeps url ext Hall).
    change (requests [Sleep 1]) with 0%nat.
    change (pauses [Sleep 1]) with 1%nat.
    unfold Summary.status_isin. cbn [qualification_status set_verdict negb].
    split; [|split; lia].
    apply skipped_verdict; assumption.
Qed.

(** X10: the loop only adds to the events; a skipped row adds nothing, and
    every other row adds between one and three requests and one pause of
    one second.  So a run makes at least as many requests as it has rows
    that are not skipped, at most three times as many, and pauses once
    for each of them. *)
Theorem requests_per_run :
  forall (net : Profile.network) (rows df : list row)
         (log log' : list event),
    process_rows net rows log = (Returned df, log') ->
    exists ext,
      log' = (log ++ ext)%list
      /\ (List.length (fetched df) <= requests ext
          <= 3 * List.length (fetched df))%nat
      /\ pauses ext = List.length (fetched df).
Proof.
  intros net rows. induction rows as [|r rows IH]; intros df log log' H.
  - injection H as <- <-. exists []. rewrite app_nil_r. simpl.
    repeat split; reflexivity || lia.
  - simpl in H.
    destruct (process_row net r log) as [[r'|e] log1] eqn:E1; [|discriminate].
    destruct (process_rows net rows log1) as [[rs|e] log2] eqn:E2;
      [|discriminate].
    injection H as <- <-.
    destruct (process_row_events net r r' log log1 E1) as (ext1 & -> & Hrow).
    destruct (IH rs _ log2 E2) as (ext2 & -> & Hreq & Hp).
    exists (ext1 ++ ext2)%list. split; [now rewrite app_assoc|].
    rewrite requests_app, pauses_app. unfold fetched in *. simpl.
    destruct Hrow as [[Hs ->] | (Hs & Hr1 & Hp1)]; rewrite Hs; simpl.
    + split; [exact Hreq|exact Hp].
    + rewrite Hp1, Hp. split; lia.
Qed.

Lemma requests_per_run_witness :
  exists ext,
    [Get "https://www.cloudskillsboost.google/public_profiles/a1"; Sleep 1]
    = ([] ++ ext)%list
    /\ (List.length (fetched [Sample.outsider_row]) <= requests ext
        <= 3 * List.length (fetched [Sample.outsider_row]))%nat
    /\ pauses ext = List.length (fetched [Sample.outsider_row]).
Proof.
  apply (requests_per_run Sample.online (frame [Sample.outsider])
           [Sample.outsider_row] []).
  reflexivity.
Defined.

(** ** The duplicate columns *)

Lemma frame_in_marked (data : list registration) (r : row) :
  In r (frame data) -> In r (marked_from (map Phone_Number data) [] data).
Proof.
  intros Hf. rewrite <- marked_is_marked_from.
  apply (Permutation_in _ (Permutation_sym (sort_values_perm _)) Hf).
Qed.

Lemma frame_row_group (data : list registration) (r : row) (p : Z) :
  In r (frame data) -> Phone_Number (reg r) = Some p ->
  cell_value (duplicate_group r)
  = Some (Grouper.group_number (map Phone_Number data) p)
  /\ In p (Grouper.present (map Phone_Number data)).
Proof.
  intros Hf Hp. apply frame_in_marked in Hf.
  pose proof (marked_from_cells (map Phone_Number data) [] data) as Hc.
  rewrite Forall_forall in Hc. specialize (Hc r Hf).
  unfold cells_of in Hc. rewrite Hp in Hc. split; [apply Hc|].
  apply present_In. rewrite <- Hp.
  now apply (marked_phone_in (map Phone_Number data) [] data).
Qed.

(** X11: a record with a phone number is marked [is_duplicate] exactly
    when two or more records of the file have that phone number, the first
    of them included. *)
Theorem duplicate_flag_counts_the_group :
  forall (data : list registration) (r : row) (p : Z),
    In r (frame data) -> Phone_Number (reg r) = Some p ->
    (1 <= group_size data p)%nat
    /\ (is_duplicate r = true <-> (2 <= group_size data p)%nat)
    /\ (at_position 1 r = true -> (2 <= group_size data p)%nat ->
        is_duplicate r = true).
Proof.
  intros data r p Hin Hp.
  pose proof (frame_row_cells data r Hin) as Hc. rewrite Hp in Hc.
  destruct Hc as (n & Hn & Hb & Hd).
  assert (Hiff : is_duplicate r = true <-> (2 <= group_size data p)%nat)
    by (rewrite Hd; apply Nat.ltb_lt).
  split; [lia|]. split; [exact Hiff|]. intros _ H. now apply Hiff.
Qed.

Lemma duplicate_flag_counts_the_group_witness :
  is_duplicate (new_row (Sample.member, true, CInt 0, CInt 1)) = true.
Proof.
  assert (Hin : In (new_row (Sample.member, true, CInt 0, CInt 1))
                  (frame [Sample.member; Sample.member_again]))
    by (left; reflexivity).
  apply (proj2 (proj2 (duplicate_flag_counts_the_group
                         _ _ 222 Hin eq_refl)));
    [reflexivity|vm_compute; lia].
Defined.

Lemma group_number_bound (keys : list Grouper.key) (p : Z) :
  In p (Grouper.present keys) ->
  (Grouper.group_number keys p
   < List.length (nodup Z.eq_dec (Grouper.present keys)))%nat.
Proof.
  intros Hp. unfold Grouper.group_number.
  set (ps := Grouper.present keys) in *.
  set (A := nodup Z.eq_dec (filter (fun x => x <? p) ps)).
  change (S (List.length A) <= List.length (nodup Z.eq_dec ps))%nat.
  apply (NoDup_incl_length (l := p :: A)).
  - constructor; [|apply NoDup_nodup].
    unfold A. rewrite nodup_In, filter_In, Z.ltb_lt. lia.
  - intros x [<-|Hx]; apply nodup_In; [exact Hp|].
    unfold A in Hx. rewrite nodup_In, filter_In in Hx. tauto.
Qed.

(** X12: the group numbers follow the phone numbers: two records with a
    phone number have the same group number exactly when they have the same
    phone number, the smaller phone number has the smaller group number,
    and every group number is below the number of distinct phone numbers
    of the file. *)
Theorem group_numbers_follow_phones :
  forall (data : list registration) (r1 r2 : row) (p1 p2 : Z),
    In r1 (frame data) -> In r2 (frame data) ->
    Phone_Number (reg r1) = Some p1 -> Phone_Number (reg r2) = Some p2 ->
    exists g1 g2 : nat,
      cell_value (duplicate_group r1) = Some g1
      /\ cell_value (duplicate_group r2) = Some g2
      /\ (g1 = g2 <-> p1 = p2)
      /\ ((g1 < g2)%nat <-> p1 < p2)
      /\ (g1 < distinct_phones data)%nat.
Proof.
  intros data r1 r2 p1 p2 H1 H2 E1 E2.
  destruct (frame_row_group data r1 p1 H1 E1) as [G1 P1].
  destruct (frame_row_group data r2 p2 H2 E2) as [G2 P2].
  set (keys := map Phone_Number data) in *.
  exists (Grouper.group_number keys p1), (Grouper.group_number keys p2).
  split; [exact G1|]. split; [exact G2|].
  assert (Hlt : forall a b, In a (Grouper.present keys) -> a < b ->
              (Grouper.group_number keys a < Grouper.group_number keys b)%nat)
    by (intros a b; apply group_number_lt).
  split; [|split].
  - split; [now apply group_number_inj|now intros ->].
  - split; [|now apply Hlt].
    intros Hg. destruct (Z.lt_trichotomy p1 p2) as [H|[H|H]]; [exact H| |].
    + subst p2. lia.
    + pose proof (Hlt p2 p1 P2 H). lia.
  - now apply group_number_bound.
Qed.

Lemma group_numbers_follow_phones_witness :
  exists g1 g2 : nat,
    cell_value (duplicate_group
                  (new_row (Sample.outsider, false, CInt 0, CInt 1)))
    = Some g1
    /\ cell_value (duplicate_group
                     (new_row (Sample.member, false, CInt 1, CInt 1)))
       = Some g2
    /\ (g1 = g2 <-> 111 = 222)
    /\ ((g1 < g2)%nat <-> 111 < 222)
    /\ (g1 < distinct_phones [Sample.member; Sample.outsider])%nat.
Proof.
  apply (group_numbers_follow_phones [Sample.member; Sample.outsider]);
    try reflexivity.
  - left. reflexivity.
  - right. left. reflexivity.
Defined.

Lemma nan_rows_sorted (l : list row) :
  Forall (fun r => cell_value (duplicate_group r) = None
                   /\ cell_value (duplicate_position r) = None) l ->
  StronglySorted row_le l.
Proof.
  induction 1 as [|x l [Hg Hp] Hall IH]; constructor; [exact IH|].
  eapply Forall_impl; [|exact Hall]. intros y [Hyg Hyp].
  unfold row_le, Grouper.row_leb, Grouper.cell_leb, Grouper.cell_ltb.
  now rewrite Hg, Hp, Hyg, Hyp.
Qed.

Lemma sorted_nan_last (l : list row) :
  StronglySorted row_le l ->
  l = (filter has_group l ++ filter (fun r => negb (has_group r)) l)%list.
Proof.
  induction 1 as [|x l Hs IH Hall]; [reflexivity|].
  simpl. destruct (has_group x) eqn:E; simpl.
  - now rewrite <- IH.
  - assert (Hnil : filter has_group l = []).
    { apply filter_none. eapply Forall_impl; [|exact Hall].
      intros y Hy. clear -E Hy. unfold has_group in *. cell_order. }
    rewrite Hnil in *. simpl in *. now rewrite <- IH.
Qed.

Lemma frame_no_phone (data : list registration) (r : row) :
  In r (frame data) -> no_phone r = negb (has_group r).
Proof.
  intros Hf. apply frame_in_marked in Hf.
  pose proof (marked_from_cells (map Phone_Number data) [] data) as Hc.
  rewrite Forall_forall in Hc. specialize (Hc r Hf).
  unfold cells_of in Hc. unfold no_phone, has_group.
  destruct (Phone_Number (reg r)).
  - destruct Hc as (-> & _). reflexivity.
  - destruct Hc as (-> & _). reflexivity.
Qed.

(** X13: the frame the loop runs over is in the order of the group number
    and then the position; the records without a phone number are its last
    rows, in the order of the file. *)
Theorem frame_is_sorted :
  forall data : list registration,
    StronglySorted row_le (frame data)
    /\ frame data
       = (filter (fun r => negb (no_phone r)) (frame data)
            ++ filter no_phone (frame data))%list
    /\ filter no_phone (frame data) = filter no_phone (marked data).
Proof.
  intros data.
  assert (Hs : StronglySorted row_le (frame data))
    by apply sort_values_sorted.
  split; [exact Hs|]. split.
  - rewrite (filter_ext_in (fun r => negb (no_phone r)) has_group).
    + rewrite (filter_ext_in no_phone (fun r => negb (has_group r))).
      * now apply sorted_nan_last.
      * intros r Hr. now apply (frame_no_phone data).
    + intros r Hr. rewrite (frame_no_phone data r Hr). apply negb_involutive.
  - unfold frame. apply filter_sort_values. apply nan_rows_sorted.
    apply Forall_forall. intros r Hr. apply filter_In in Hr.
    destruct Hr as [Hr Hn]. rewrite marked_is_marked_from in Hr.
    pose proof (marked_from_cells (map Phone_Number data) [] data) as Hc.
    rewrite Forall_forall in Hc. specialize (Hc r Hr).
    unfold cells_of in Hc. unfold no_phone in Hn.
    destruct (Phone_Number (reg r)); [discriminate|].
    destruct Hc as (-> & -> & _). split; reflexivity.
Qed.

(** ** The numbers of the summary *)

(** What the fields of a report are. *)
Lemma summary_fields (df : list row) (rep : Summary.report) :
  Summary.summary df = Returned rep ->
  (0 < List.length df)%nat
  /\ Summary.total_entries rep = List.length df
  /\ Summary.unique_phones rep
     = List.length
         (nodup Z.eq_dec
            (Grouper.present (map (fun r => Phone_Number (reg r)) df)))
  /\ Summary.duplicate_entries rep
     = List.length
         (filter (fun r => is_duplicate r && cell_gt1 (duplicate_position r))
            df)
  /\ Summary.status_breakdown rep
     = map (fun x => (fst x, snd x, share (snd x) (List.length df)))
         (Summary.value_counts df)
  /\ Summary.valid_count rep = List.length (valid_entries df)
  /\ Summary.qualified_count rep
     = List.length
         (filter (Summary.status_isin Summary.qualified_statuses) df)
  /\ Summary.action_required_count rep
     = List.length
         (filter (Summary.status_isin Summary.action_required_statuses) df).
Proof.
  destruct df as [|r0 df0]; [discriminate|].
  set (df := r0 :: df0).
  assert (Hpos : (0 < List.length df)%nat) by (simpl; lia).
  unfold Summary.summary. fold (valid_entries df).
  rewrite (breakdown_returns _ _ Hpos). cbn [bind].
  rewrite (percent_returns _ _ Hpos). cbn [bind].
  destruct (Nat.ltb_spec 0 (List.length (valid_entries df))) as [Hv|Hv].
  - rewrite (breakdown_returns _ _ Hv). cbn [bind].
    rewrite !(percent_returns _ _ Hv). cbn [bind].
    intros E. injection E as <-. repeat split. exact Hpos.
  - cbn [bind]. intros E. injection E as <-. repeat split. exact Hpos.
Qed.

(** X14: the summary ends with ZeroDivisionError on the empty frame and on
    no other: for every frame with at least one row it returns its
    report, also when no row is valid, and then the two guarded
    percentages are 0. *)
Theorem summary_fails_only_when_empty :
  forall df : list row,
    ((exists e, Summary.summary df = Raised e) <-> df = [])
    /\ (df <> [] ->
        exists rep,
          Summary.summary df = Returned rep
          /\ Summary.total_entries rep = List.length df
          /\ (Summary.valid_count rep = 0%nat ->
              Summary.qualified_percentage rep = 0%Q
              /\ Summary.action_percentage rep = 0%Q
              /\ (Summary.valid_percentage rep == 0)%Q)).
Proof.
  intros df.
  assert (Hret : df <> [] ->
    exists rep,
      Summary.summary df = Returned rep
      /\ Summary.total_entries rep = List.length df
      /\ (Summary.valid_count rep = 0%nat ->
          Summary.qualified_percentage rep = 0%Q
          /\ Summary.action_percentage rep = 0%Q
          /\ (Summary.valid_percentage rep == 0)%Q)).
  { intros Hne.
    assert (Hpos : (0 < List.length df)%nat)
      by (destruct df; [contradiction|simpl; lia]).
    unfold Summary.summary. fold (valid_entries df).
    rewrite (breakdown_returns _ _ Hpos). cbn [bind].
    rewrite (percent_returns _ _ Hpos). cbn [bind].
    destruct (Nat.ltb_spec 0 (List.length (valid_entries df))) as [Hv|Hv].
    - rewrite (breakdown_returns _ _ Hv). cbn [bind].
      rewrite !(percent_returns _ _ Hv). cbn [bind].
      eexists. split; [reflexivity|]. split; [reflexivity|].
      cbn [Summary.valid_count]. lia.
    - cbn [bind]. eexists. split; [reflexivity|]. split; [reflexivity|].
      cbn [Summary.valid_count Summary.qualified_percentage
             Summary.action_percentage Summary.valid_percentage].
      intros Hz. rewrite Hz. repeat split. }
  split; [|exact Hret]. split.
  - intros [e He]. destruct df as [|r df]; [reflexivity|].
    destruct Hret as (rep & Hrep & _); [discriminate|].
    rewrite Hrep in He. discriminate.
  - intros ->. now exists "division by zero".
Qed.

Lemma summary_fails_only_when_empty_witness :
  exists rep,
    Summary.summary [Sample.outsider_row] = Returned rep
    /\ Summary.total_entries rep = 1%nat
    /\ (Summary.valid_count rep = 0%nat ->
        Summary.qualified_percentage rep = 0%Q
        /\ Summary.action_percentage rep = 0%Q
        /\ (Summary.valid_percentage rep == 0)%Q).
Proof.
  apply (proj2 (summary_fails_only_when_empty [Sample.outsider_row])).
  discriminate.
Defined.

Lemma process_rows_length (net : Profile.network) (rows df : list row)
  (log log' : list event) :
  process_rows net rows log = (Returned df, log') ->
  map reg df = map reg rows
  /\ Forall (fun r' => qualification_status r' <> None) df.
Proof.
  intros H.
  destruct (process_rows_returns net rows log) as (df' & l & E & Hm & Hall).
  rewrite H in E. injection E as -> _. now split.
Qed.

Lemma length_filter_cons {A : Type} (f : A -> bool) (x : A) (l : list A) :
  List.length (filter f (x :: l))
  = ((if f x then 1 else 0) + List.length (filter f l))%nat.
Proof. simpl. now destruct (f x). Qed.

Lemma verdict_classes (df : list row) :
  Forall (fun r => qualification_status r <> None) df ->
  (List.length (valid_entries df)
   + List.length (filter (Summary.status_isin Summary.invalid_statuses) df)
   = List.length df)%nat
  /\ (List.length (filter (Summary.status_isin Summary.qualified_statuses) df)
      + List.length
          (filter (Summary.status_isin Summary.action_required_statuses) df)
      + List.length (filter (has_status DISQUALIFIED) df)
      + List.length (filter (has_status UNKNOWN) df)
      = List.length (valid_entries df))%nat.
Proof.
  unfold valid_entries.
  induction 1 as [|r df Hr _ [IH1 IH2]]; [split; reflexivity|].
  rewrite !length_filter_cons. cbn [List.length].
  destruct (qualification_status r) as [s|] eqn:E; [|contradiction].
  assert (Hisin : forall l, Summary.status_isin l r = isin s l)
    by (intros l; unfold Summary.status_isin; now rewrite E).
  assert (Hhas : forall t, has_status t r = status_eqb s t)
    by (intros t; unfold has_status; now rewrite E).
  rewrite !Hisin, !Hhas.
  destruct s; simpl; split; lia.
Qed.

(** X15: in the report of a run every row is counted once: the valid
    entries and the entries with one of the four invalid statuses make up
    the total, which is the number of rows given to the loop; and the
    valid entries are the qualified ones, those that need a review, the
    DISQUALIFIED ones and the UNKNOWN ones. *)
Theorem report_counts_every_row_once :
  forall (net : Profile.network) (rows df : list row)
         (log log' : list event) (rep : Summary.report),
    process_rows net rows log = (Returned df, log') ->
    Summary.summary df = Returned rep ->
    Summary.total_entries rep = List.length rows
    /\ (Summary.valid_count rep
        + List.length
            (filter (Summary.status_isin Summary.invalid_statuses) df)
        = Summary.total_entries rep)%nat
    /\ (Summary.qualified_count rep + Summary.action_required_count rep
        + List.length (filter (has_status DISQUALIFIED) df)
        + List.length (filter (has_status UNKNOWN) df)
        = Summary.valid_count rep)%nat.
Proof.
  intros net rows df log log' rep Hrun Hsum.
  destruct (process_rows_length net rows df log log' Hrun) as [Hm Hall].
  destruct (summary_fields df rep Hsum)
    as (_ & -> & _ & _ & _ & -> & -> & ->).
  destruct (verdict_classes df Hall) as [H1 H2].
  repeat split; try assumption.
  rewrite <- (length_map reg df), Hm. apply length_map.
Qed.

Lemma report_counts_every_row_once_witness :
  exists rep,
    Summary.summary [Sample.outsider_row] = Returned rep
    /\ Summary.total_entries rep = 1%nat
    /\ (Summary.qualified_count rep + Summary.action_required_count rep
        + List.length (filter (has_status DISQUALIFIED) [Sample.outsider_row])
        + List.length (filter (has_status UNKNOWN) [Sample.outsider_row])
        = Summary.valid_count rep)%nat.
Proof.
  eexists. split; [reflexivity|].
  pose proof (report_counts_every_row_once Sample.online
                (frame [Sample.outsider]) [Sample.outsider_row] []
                [Get "https://www.cloudskillsboost.google/public_profiles/a1";
                 Sleep 1] _ eq_refl eq_refl) as (H1 & _ & H3).
  split; [exact H1|exact H3].
Defined.

(** X16: for a run with at least one row, the percentages of the status
    breakdown over all entries (line 267) are the counts divided by the
    number of entries, times 100, and they add up to 100. *)
Theorem overall_percentages_sum_to_100 :
  forall (net : Profile.network) (rows df : list row)
         (log log' : list event) (rep : Summary.report),
    process_rows net rows log = (Returned df, log') ->
    Summary.summary df = Returned rep ->
    Forall
      (fun x : status * nat * Q =>
         snd (fst x)
         = count_occ status_eq_dec (Summary.statuses df) (fst (fst x))
         /\ (snd x
             == (Z.of_nat (snd (fst x)) # Pos.of_nat (List.length df)) * 100)%Q)
      (Summary.status_breakdown rep)
    /\ (sum_of_percentages (Summary.status_breakdown rep) == 100)%Q.
Proof.
  intros net rows df log log' rep Hrun Hsum.
  destruct (process_rows_length net rows df log log' Hrun) as [_ Hall].
  destruct (summary_fields df rep Hsum) as (Hpos & _ & _ & _ & -> & _).
  split.
  - apply Forall_forall. intros [[s c] pc] Hin.
    apply in_map_iff in Hin. destruct Hin as ([s' c'] & E & Hin).
    cbn [fst snd] in E. injection E as -> -> <-. cbn [fst snd].
    split; [now apply value_counts_entries|reflexivity].
  - rewrite shares_add_up, value_counts_total, statuses_length by exact Hall.
    now apply whole_share.
Qed.

Lemma overall_percentages_sum_to_100_witness :
  exists rep,
    Summary.summary [Sample.outsider_row] = Returned rep
    /\ (sum_of_percentages (Summary.status_breakdown rep) == 100)%Q.
Proof.
  eexists. split; [reflexivity|].
  exact (proj2 (overall_percentages_sum_to_100 Sample.online
                  (frame [Sample.outsider]) [Sample.outsider_row] []
                  [Get "https://www.cloudskillsboost.google/public_profiles/a1";
                   Sleep 1] _ eq_refl eq_refl)).
Defined.

(** ** Entries, phone numbers and duplicates *)

Lemma process_row_keeps (net : Profile.network) (r r' : row)
  (log log' : list event) :
  process_row net r log = (Returned r', log') ->
  reg r' = reg r /\ is_duplicate r' = is_duplicate r
  /\ duplicate_position r' = duplicate_position r.
Proof.
  unfold process_row.
  destruct (isin (fst (determine_qualification r)) skipped_statuses).
  { intros E. injection E as <- _. repeat split. }
  destruct (url_available r) as [url|].
  - destruct (Profile.check_profile net url 3 log) as [[d|] l];
      [|discriminate].
    intros E. injection E as <- _.
    destruct (status_eqb (fst (determine_qualification r)) DUPLICATE_ENTRY);
      repeat split.
  - intros E. injection E as <- _.
    destruct (status_eqb (fst (determine_qualification r)) DUPLICATE_ENTRY);
      repeat split.
Qed.

Lemma process_rows_keeps (net : Profile.network) (rows : list row) :
  forall (df : list row) (log log' : list event),
    process_rows net rows log = (Returned df, log') ->
    List.length (filter later_entry df)
    = List.length (filter later_entry rows)
    /\ List.length (filter no_phone df) = List.length (filter no_phone rows)
    /\ map (fun r => Phone_Number (reg r)) df
       = map (fun r => Phone_Number (reg r)) rows.
Proof.
  induction rows as [|r rows IH]; intros df log log' H.
  - injection H as <- _. repeat split.
  - simpl in H.
    destruct (process_row net r log) as [[r'|e] log1] eqn:E1; [|discriminate].
    destruct (process_rows net rows log1) as [[rs|e] log2] eqn:E2;
      [|discriminate].
    injection H as <- _.
    destruct (process_row_keeps net r r' log log1 E1) as (Hr & Hd & Hp).
    destruct (IH rs log1 log2 E2) as (H1 & H2 & H3).
    rewrite !length_filter_cons, H1, H2. cbn [map]. rewrite H3, Hr.
    unfold later_entry at 1 3, no_phone at 1 3. now rewrite Hd, Hp, Hr.
Qed.

Lemma nodup_length_perm (l l' : list Z) :
  Permutation l l' ->
  List.length (nodup Z.eq_dec l) = List.length (nodup Z.eq_dec l').
Proof.
  intros H. apply Permutation_length, NoDup_Permutation;
    try apply NoDup_nodup.
  intros x. rewrite !nodup_In. split; apply Permutation_in;
    [exact H|now apply Permutation_sym].
Qed.

Lemma present_perm (l l' : list Grouper.key) :
  Permutation l l' -> Permutation (Grouper.present l) (Grouper.present l').
Proof.
  induction 1 as [|[x|] l l' _ IH|[x|] [y|] l|l l' l'' _ IH1 _ IH2]; simpl;
    try reflexivity; try assumption.
  - now constructor.
  - apply perm_swap.
  - now transitivity (Grouper.present l').
Qed.

(** A phone number seen for the first time adds one to the distinct phone
    numbers ahead. *)
Lemma unseen_step (seen ps : list Z) (p : Z) :
  unseen seen p = true ->
  List.length (nodup Z.eq_dec (filter (unseen seen) (p :: ps)))
  = S (List.length (nodup Z.eq_dec (filter (unseen (p :: seen)) ps))).
Proof.
  intros Hp. cbn [filter]. rewrite Hp.
  change (S (List.length (nodup Z.eq_dec (filter (unseen (p :: seen)) ps))))
    with (List.length
            (p :: nodup Z.eq_dec (filter (unseen (p :: seen)) ps)))%list.
  apply Permutation_length, NoDup_Permutation.
  - apply NoDup_nodup.
  - constructor; [|apply NoDup_nodup].
    rewrite nodup_In, filter_In. unfold unseen. simpl.
    destruct (Z.eq_dec p p); [|contradiction]. intros [_ H]. discriminate.
  - intros y. rewrite nodup_In. simpl. rewrite nodup_In, !filter_In.
    unfold unseen in *. simpl.
    destruct (Z.eq_dec p y) as [->|Hne].
    + split; [now left|]. intros _. now left.
    + split.
      * intros [H|H]; [contradiction|now right].
      * intros [H|H]; [contradiction|now right].
Qed.

Lemma seen_step (seen ps : list Z) (p : Z) :
  unseen seen p = false ->
  filter (unseen seen) (p :: ps) = filter (unseen (p :: seen)) ps.
Proof.
  intros Hp. cbn [filter]. rewrite Hp. apply filter_ext_in.
  intros y _. unfold unseen in *. simpl.
  destruct (Z.eq_dec p y) as [->|_]; [|reflexivity].
  rewrite Hp. reflexivity.
Qed.

Lemma cell_gt1_number (b : bool) (n : nat) :
  cell_gt1 (Grouper.number b n) = (1 <? n)%nat.
Proof. now destruct b. Qed.

(** Among the rows from some point of the file on, the later entries and
    the phone numbers not seen before make up the rows with a phone
    number. *)
Lemma marked_later_entries (keys : list Grouper.key) :
  forall (data : list registration) (seen : list Z),
    (forall p,
        (count_occ Z.eq_dec seen p
         + count_occ Z.eq_dec (Grouper.present (map Phone_Number data)) p
         <= count_occ Z.eq_dec (Grouper.present keys) p)%nat) ->
    (List.length (filter later_entry (marked_from keys seen data))
     + List.length
         (nodup Z.eq_dec
            (filter (unseen seen) (Grouper.present (map Phone_Number data))))
     = List.length (Grouper.present (map Phone_Number data)))%nat.
Proof.
  induction data as [|g rest IH]; intros seen Inv; [reflexivity|].
  cbn [map marked_from] in *. destruct (Phone_Number g) as [p|] eqn:E.
  - cbn [Grouper.present] in *. rewrite length_filter_cons.
    unfold later_entry at 1. cbn [is_duplicate duplicate_position new_row].
    rewrite cell_gt1_number, <- count_present.
    assert (Inv' : forall q,
      (count_occ Z.eq_dec (p :: seen) q
       + count_occ Z.eq_dec (Grouper.present (map Phone_Number rest)) q
       <= count_occ Z.eq_dec (Grouper.present keys) q)%nat).
    { intros q. specialize (Inv q). simpl in *.
      destruct (Z.eq_dec p q); lia. }
    specialize (IH (p :: seen) Inv').
    pose proof (Inv p) as Hk. rewrite count_occ_cons_eq in Hk by reflexivity.
    destruct (unseen seen p) eqn:Hu.
    + rewrite (unseen_step seen _ p Hu).
      unfold unseen in Hu. apply Nat.eqb_eq in Hu. rewrite Hu.
      rewrite andb_false_r. cbn [List.length]. lia.
    + rewrite (seen_step seen _ p Hu).
      unfold unseen in Hu. apply Nat.eqb_neq in Hu.
      destruct (Nat.ltb_spec 1 (count_occ Z.eq_dec (Grouper.present keys) p));
        [|lia].
      destruct (Nat.ltb_spec 1 (count_occ Z.eq_dec seen p + 1)); [|lia].
      cbn [andb List.length]. lia.
  - cbn [Grouper.present]. rewrite length_filter_cons.
    unfold later_entry at 1. cbn [is_duplicate duplicate_position new_row].
    cbn [cell_gt1]. rewrite andb_false_r. apply IH.
    intros q. specialize (Inv q). cbn [Grouper.present] in Inv. exact Inv.
Qed.

Lemma marked_no_phone (keys : list Grouper.key) :
  forall (data : list registration) (seen : list Z),
    (List.length (Grouper.present (map Phone_Number data))
     + List.length (filter no_phone (marked_from keys seen data))
     = List.length data)%nat.
Proof.
  induction data as [|g rest IH]; intros seen; [reflexivity|].
  cbn [map marked_from]. destruct (Phone_Number g) as [p|] eqn:E;
    cbn [Grouper.present]; rewrite length_filter_cons;
    unfold no_phone at 1; cbn [reg new_row]; rewrite E; simpl.
  - specialize (IH (p :: seen)). lia.
  - specialize (IH seen). lia.
Qed.

Lemma unseen_nil (ps : list Z) : filter (unseen []) ps = ps.
Proof.
  induction ps as [|p ps IH]; [reflexivity|]. simpl. now rewrite IH.
Qed.

(** X17: in the report of a run, the unique phone numbers are the distinct
    phone numbers of the file, and every entry is a first entry of a phone
    number, a later entry of one (the duplicate entries of line 255) or
    an entry without a phone number: the three counts add up to the total
    entries. *)
Theorem entries_phones_and_duplicates :
  forall (net : Profile.network) (data : list registration)
         (df : list row) (log : list event) (rep : Summary.report),
    process_rows net (frame data) [] = (Returned df, log) ->
    Summary.summary df = Returned rep ->
    Summary.total_entries rep = List.length data
    /\ Summary.unique_phones rep = distinct_phones data
    /\ (Summary.unique_phones rep + Summary.duplicate_entries rep
        + List.length (filter no_phone df)
        = Summary.total_entries rep)%nat.
Proof.
  intros net data df log rep Hrun Hsum.
  destruct (summary_fields df rep Hsum) as (_ & Ht & Hu & Hd & _).
  destruct (process_rows_keeps net (frame data) df [] log Hrun)
    as (Hl & Hn & Hp).
  destruct (process_rows_length net (frame data) df [] log Hrun) as [Hm _].
  set (keys := map Phone_Number data).
  set (m := marked_from keys [] data).
  assert (Hperm : Permutation m (frame data)).
  { unfold frame. rewrite marked_is_marked_from. apply sort_values_perm. }
  assert (Hlen : List.length df = List.length data).
  { rewrite <- (length_map reg df), Hm, length_map.
    rewrite <- (Permutation_length Hperm).
    rewrite <- (length_map reg m). unfold m. now rewrite marked_from_reg. }
  assert (Huniq : Summary.unique_phones rep = distinct_phones data).
  { rewrite Hu, Hp. unfold distinct_phones.
    apply nodup_length_perm, present_perm.
    rewrite <- (Permutation_map (fun r => Phone_Number (reg r)) Hperm).
    unfold m. rewrite <- (map_map reg Phone_Number).
    now rewrite marked_from_reg. }
  split; [now rewrite Ht|]. split; [exact Huniq|].
  rewrite Huniq, Hd, Ht, Hlen. fold (later_entry).
  change (filter (fun r => is_duplicate r && cell_gt1 (duplicate_position r)) df)
    with (filter later_entry df).
  rewrite Hl, Hn.
  rewrite <- (Permutation_length (filter_perm later_entry _ _ Hperm)).
  rewrite <- (Permutation_length (filter_perm no_phone _ _ Hperm)).
  pose proof (marked_later_entries keys data []) as H1.
  rewrite unseen_nil in H1.
  pose proof (marked_no_phone keys data []) as H2.
  fold keys in H1, H2. fold m in H1, H2. unfold distinct_phones. fold keys.
  assert (Hinv : forall p,
    (count_occ Z.eq_dec [] p
     + count_occ Z.eq_dec (Grouper.present keys) p
     <= count_occ Z.eq_dec (Grouper.present keys) p)%nat)
    by (intros p; simpl; lia).
  specialize (H1 Hinv). lia.
Qed.

Lemma entries_phones_and_duplicates_witness :
  exists rep,
    Summary.summary [Sample.outsider_row] = Returned rep
    /\ Summary.total_entries rep = 1%nat
    /\ Summary.unique_phones rep = distinct_phones [Sample.outsider].
Proof.
  eexists. split; [reflexivity|].
  pose proof (entries_phones_and_duplicates Sample.online [Sample.outsider]
                [Sample.outsider_row]
                [Get "https://www.cloudskillsboost.google/public_profiles/a1";
                 Sleep 1] _ eq_refl eq_refl) as (H1 & H2 & _).
  split; [exact H1|exact H2].
Defined.

(** ** The page *)

Lemma after_prefix_spec (p s rest : string) :
  Page.after_prefix p s = Some rest <-> s = p ++ rest.
Proof.
  revert s. induction p as [|a p IH]; intros s; simpl.
  - split; [now intros [= ->]|now intros ->].
  - destruct s as [|c s]; [split; discriminate|].
    destruct (Ascii.eqb_spec a c) as [->|Hne].
    + rewrite IH. split; [now intros ->|now intros [= ->]].
    + split; [discriminate|]. intros [= E _]. congruence.
Qed.

Lemma digits_exactly_spec (n : nat) (s ds : string) :
  Page.digits_exactly n s = Some ds
  <-> exists post, s = ds ++ post /\ String.length ds = n
                   /\ Page.all_digits ds = true.
Proof.
  revert s ds. induction n as [|n IH]; intros s ds; simpl.
  - split.
    + intros [= <-]. now exists s.
    + intros (post & _ & Hl & _). destruct ds; [reflexivity|discriminate].
  - destruct s as [|c s].
    + split; [discriminate|]. intros (post & E & Hl & _).
      destruct ds; discriminate.
    + destruct (Page.is_digit c) eqn:Ec.
      * destruct (Page.digits_exactly n s) as [ds'|] eqn:E; simpl.
        -- apply IH in E. destruct E as (post & -> & Hl & Hd). split.
           ++ intros [= <-]. exists post. simpl. now rewrite Hl, Ec, Hd.
           ++ intros (post' & E & Hl' & Hd').
              destruct ds as [|d ds]; [discriminate|].
              simpl in E, Hl', Hd'. injection E as <- E.
              apply andb_prop in Hd'. destruct Hd' as [_ Hd'].
              assert (H : Page.digits_exactly n (ds' ++ post) = Some ds).
              { apply IH. exists post'. repeat split; auto; lia. }
              assert (H' : Page.digits_exactly n (ds' ++ post) = Some ds').
              { apply IH. exists post. repeat split; auto. }
              congruence.
        -- split; [discriminate|]. intros (post' & E' & Hl' & Hd').
           destruct ds as [|d ds]; [discriminate|].
           simpl in E', Hl', Hd'. injection E' as <- E'.
           apply andb_prop in Hd'. destruct Hd' as [_ Hd'].
           assert (H : Page.digits_exactly n s = Some ds).
           { apply IH. exists post'. repeat split; auto; lia. }
           congruence.
      * split; [discriminate|]. intros (post & E & Hl & Hd).
        destruct ds as [|d ds]; [discriminate|].
        simpl in E, Hd. injection E as <- _. rewrite Ec in Hd. discriminate.
Qed.

Lemma append_cancel_l (p a b : string) : p ++ a = p ++ b -> a = b.
Proof.
  induction p as [|c p IH]; simpl; [auto|]. intros [= H]. now apply IH.
Qed.

Lemma member_since_here_spec (s ds : string) :
  Page.member_since_here s = Some ds
  <-> exists post, s = "Member since " ++ ds ++ post
                   /\ String.length ds = 4%nat
                   /\ Page.all_digits ds = true.
Proof.
  unfold Page.member_since_here.
  destruct (Page.after_prefix "Member since " s) as [rest|] eqn:E.
  - apply after_prefix_spec in E. rewrite digits_exactly_spec. split.
    + intros (post & -> & H). exists post. now split.
    + intros (post & E' & H). exists post. split; [|exact H].
      rewrite E in E'. now apply append_cancel_l in E'.
  - split; [discriminate|]. intros (post & E' & _).
    assert (H : Page.after_prefix "Member since " s = Some (ds ++ post))
      by now apply after_prefix_spec.
    congruence.
Qed.

Lemma digit_chars (c : ascii) (d : Decimal.uint) :
  Page.is_digit c = true -> exists d', uint_of_char c (Some d) = Some d'.
Proof.
  destruct c as [[|] [|] [|] [|] [|] [|] [|] [|]]; try discriminate;
    intros _; eexists; reflexivity.
Qed.

Lemma int_too_long (ds : string) :
  (Page.max_str_digits < String.length ds)%nat ->
  Page.int ds = Raised (Page.too_long (String.length ds)).
Proof.
  intros H. unfold Page.int.
  destruct (Nat.ltb_spec Page.max_str_digits (String.length ds));
    [reflexivity|lia].
Qed.

Lemma int_of_digits (ds : string) :
  Page.all_digits ds = true -> ds <> "" ->
  (String.length ds <= Page.max_str_digits)%nat ->
  exists z, Page.int ds = Returned z /\ 0 <= z.
Proof.
  intros Hd Hne Hlen.
  assert (H : exists d, NilEmpty.uint_of_string ds = Some d).
  { clear Hne Hlen. induction ds as [|c ds IH]; [now exists Decimal.Nil|].
    simpl in Hd. apply andb_prop in Hd. destruct Hd as [Hc Hd].
    destruct (IH Hd) as [d E]. simpl. rewrite E. now apply digit_chars. }
  destruct H as [d E]. unfold Page.int.
  destruct (Nat.ltb_spec Page.max_str_digits (String.length ds)); [lia|].
  unfold NilZero.uint_of_string.
  destruct ds as [|c ds]; [contradiction|]. rewrite E.
  exists (Z.of_uint d). split; [reflexivity|].
  unfold Z.of_uint. apply N2Z.is_nonneg.
Qed.

Lemma member_since_sound (t ds : string) :
  Page.member_since t = Some ds ->
  exists pre post,
    t = pre ++ "Member since " ++ ds ++ post
    /\ String.length ds = 4%nat /\ Page.all_digits ds = true.
Proof.
  revert ds. induction t as [|c t IH]; intros ds H; [discriminate|].
  change (Page.member_since (String c t))
    with (match Page.member_since_here (String c t) with
          | Some x => Some x
          | None => Page.member_since t
          end) in H.
  destruct (Page.member_since_here (String c t)) as [x|] eqn:E.
  - injection H as ->. apply member_since_here_spec in E.
    destruct E as (post & E & Hl & Hd). exists "", post. now repeat split.
  - destruct (IH ds H) as (pre & post & -> & Hrest).
    exists (String c pre), post. split; [reflexivity|exact Hrest].
Qed.

Lemma four_digits_convert (ds : string) :
  String.length ds = 4%nat -> Page.all_digits ds = true ->
  exists y, Page.int ds = Returned y /\ 0 <= y.
Proof.
  intros Hl Hd. apply int_of_digits; [exact Hd| |].
  - destruct ds; discriminate.
  - rewrite Hl. unfold Page.max_str_digits. lia.
Qed.

Lemma member_since_step (c : ascii) (t : string) :
  Page.member_since (String c t)
  = match Page.member_since_here (String c t) with
    | Some x => Some x
    | None => Page.member_since t
    end.
Proof. reflexivity. Qed.

Lemma marker_here (t ds : string) :
  Page.member_since_here t = Some ds
  <-> exists post, Page.marker_at t "" ds post.
Proof. unfold Page.marker_at. apply member_since_here_spec. Qed.

Lemma marker_later (c : ascii) (t pre ds post : string) :
  Page.marker_at (String c t) (String c pre) ds post
  <-> Page.marker_at t pre ds post.
Proof.
  unfold Page.marker_at. cbn [append]. split.
  - intros ([= E] & H). now split.
  - intros (-> & H). now split.
Qed.

Lemma marker_first_char (c : ascii) (t pre ds post : string) :
  Page.marker_at (String c t) pre ds post ->
  pre = "" \/ exists pre', pre = String c pre'.
Proof.
  destruct pre as [|a pre]; [now left|].
  intros ([= <- _] & _). right. now exists pre.
Qed.

(** The group [member_since] gives is the one of the leftmost marker. *)
Lemma member_since_leftmost (t ds : string) :
  Page.member_since t = Some ds ->
  exists pre post,
    Page.marker_at t pre ds post
    /\ forall pre' ds' post',
         Page.marker_at t pre' ds' post' ->
         (String.length pre <= String.length pre')%nat.
Proof.
  revert ds. induction t as [|c t IH]; intros ds H.
  - cbn in H. discriminate.
  - rewrite member_since_step in H.
    destruct (Page.member_since_here (String c t)) as [x|] eqn:E.
    + injection H as ->. apply marker_here in E. destruct E as [post E].
      exists "", post. split; [exact E|]. intros. simpl. lia.
    + destruct (IH ds H) as (pre & post & Hm & Hleft).
      exists (String c pre), post.
      split; [exact (proj2 (marker_later _ _ _ _ _) Hm)|].
      intros pre' ds' post' Hm'.
      destruct (marker_first_char _ _ _ _ _ Hm') as [->|[p ->]].
      * assert (Page.member_since_here (String c t) = Some ds')
          by (apply marker_here; now exists post').
        congruence.
      * pose proof (proj1 (marker_later _ _ _ _ _) Hm') as Hm''.
        specialize (Hleft _ _ _ Hm''). simpl. lia.
Qed.

Lemma leftmost_is_found (pre : string) :
  forall t ds post : string,
    Page.marker_at t pre ds post ->
    (forall pre' ds' post',
        Page.marker_at t pre' ds' post' ->
        (String.length pre <= String.length pre')%nat) ->
    Page.member_since t = Some ds.
Proof.
  induction pre as [|c pre IH]; intros t ds post Hm Hleft.
  - assert (E : Page.member_since_here t = Some ds)
      by (apply marker_here; now exists post).
    destruct t as [|a t].
    + cbn in E. discriminate.
    + rewrite member_since_step. now rewrite E.
  - destruct t as [|a t]; [destruct Hm as [Hm _]; discriminate|].
    assert (a = c) as -> by (destruct Hm as [[= -> _] _]; reflexivity).
    rewrite member_since_step.
    destruct (Page.member_since_here (String c t)) as [x|] eqn:E.
    + apply marker_here in E. destruct E as [post' E].
      specialize (Hleft _ _ _ E). simpl in Hleft. lia.
    + apply (IH t ds post); [exact (proj1 (marker_later _ _ _ _ _) Hm)|].
      intros pre' ds' post' Hm'.
      assert (H' : Page.marker_at (String c t) (String c pre') ds' post')
        by exact (proj2 (marker_later _ _ _ _ _) Hm').
      specialize (Hleft _ _ _ H'). simpl in Hleft. lia.
Qed.

Lemma marker_is_found (pre : string) :
  forall t ds post : string,
    Page.marker_at t pre ds post -> Page.member_since t <> None.
Proof.
  induction pre as [|c pre IH]; intros t ds post Hm.
  - assert (E : Page.member_since_here t = Some ds)
      by (apply marker_here; now exists post).
    destruct t as [|a t]; [cbn in E; discriminate|].
    rewrite member_since_step, E. discriminate.
  - destruct t as [|a t]; [destruct Hm as [Hm _]; discriminate|].
    assert (a = c) as -> by (destruct Hm as [[= -> _] _]; reflexivity).
    rewrite member_since_step.
    destruct (Page.member_since_here (String c t)); [discriminate|].
    apply (IH t ds post). exact (proj1 (marker_later _ _ _ _ _) Hm).
Qed.

(** X18: the creation year is read from the leftmost marker of the text:
    [member_since] gives the group [ds] exactly when the text has Member
    since and the four digits [ds] at some place and has no marker that
    starts before that place; it gives nothing exactly when the text has
    no marker; and [int] turns the group into a year that is not
    negative.  The text is one of characters below U+0100, where the
    digits are 0 to 9. *)
Theorem member_since_finds_the_marker :
  forall t : string,
    (forall ds : string,
        Page.member_since t = Some ds
        <-> exists pre post,
              Page.marker_at t pre ds post
              /\ forall pre' ds' post',
                   Page.marker_at t pre' ds' post' ->
                   (String.length pre <= String.length pre')%nat)
    /\ (Page.member_since t = None
        <-> forall pre ds post, ~ Page.marker_at t pre ds post)
    /\ (forall ds : string,
          Page.member_since t = Some ds ->
          exists y, Page.int ds = Returned y /\ 0 <= y).
Proof.
  intros t. split; [|split].
  - intros ds. split; [apply member_since_leftmost|].
    intros (pre & post & Hm & Hleft). now apply (leftmost_is_found pre t ds post).
  - split.
    + intros H pre ds post Hm. now apply (marker_is_found pre t ds post Hm).
    + intros H. destruct (Page.member_since t) as [ds|] eqn:E; [|reflexivity].
      destruct (member_since_leftmost t ds E) as (pre & post & Hm & _).
      exfalso. exact (H pre ds post Hm).
  - intros ds H.
    destruct (member_since_sound t ds H) as (pre & post & _ & Hl & Hd).
    now apply four_digits_convert.
Qed.

Lemma digits_run (ds post : string) :
  Page.all_digits ds = true -> Page.ends_number post = true ->
  Page.digits (ds ++ post) = ds.
Proof.
  intros Hd Hp. induction ds as [|c ds IH]; simpl.
  - destruct post as [|c post]; [reflexivity|].
    simpl in Hp. apply negb_true_iff in Hp. simpl. now rewrite Hp.
  - simpl in Hd. apply andb_prop in Hd. destruct Hd as [Hc Hd].
    now rewrite Hc, IH.
Qed.

Lemma digits_split (s : string) :
  exists post,
    s = Page.digits s ++ post
    /\ Page.all_digits (Page.digits s) = true
    /\ Page.ends_number post = true.
Proof.
  induction s as [|c s (post & E & Hd & Hp)]; [now exists ""|].
  simpl. destruct (Page.is_digit c) eqn:Ec.
  - exists post. simpl. rewrite Ec, Hd. now rewrite <- E.
  - exists (String c s). simpl. now rewrite Ec.
Qed.

Lemma first_number_sound (t ds : string) :
  Page.first_number t = Some ds ->
  exists pre post,
    t = pre ++ ds ++ post /\ Page.no_digit pre = true /\ ds <> ""
    /\ Page.all_digits ds = true /\ Page.ends_number post = true.
Proof.
  induction t as [|c t IH]; [discriminate|].
  cbn [Page.first_number]. destruct (Page.is_digit c) eqn:Ec.
  - intros [= <-].
    destruct (digits_split (String c t)) as (post & E & Hd & Hp).
    exists "", post. repeat split; auto.
    simpl. rewrite Ec. discriminate.
  - intros H. destruct (IH H) as (pre & post & -> & Hn & Hrest).
    exists (String c pre), post. split; [reflexivity|].
    split; [|exact Hrest]. simpl. now rewrite Ec.
Qed.

Lemma first_number_complete (pre ds post : string) :
  Page.no_digit pre = true -> ds <> "" -> Page.all_digits ds = true ->
  Page.ends_number post = true ->
  Page.first_number (pre ++ ds ++ post) = Some ds.
Proof.
  intros Hn Hne Hd Hp. induction pre as [|c pre IH].
  - destruct ds as [|d ds]; [contradiction|].
    pose proof Hd as Hd'. simpl in Hd'. apply andb_prop in Hd'.
    destruct Hd' as [Hc _].
    change (Page.first_number ("" ++ String d ds ++ post))
      with (if Page.is_digit d
            then Some (Page.digits (String d ds ++ post))
            else Page.first_number (ds ++ post)).
    now rewrite Hc, digits_run.
  - simpl in Hn. apply andb_prop in Hn. destruct Hn as [Hc Hn].
    apply negb_true_iff in Hc. simpl. rewrite Hc. now apply IH.
Qed.

(** X19: the points are read from the first run of digits of the text,
    taken as long as it is: [first_number] gives [ds] exactly when the text
    is some characters without a digit, then the digits [ds], then nothing
    or a character that is not a digit; it gives nothing exactly when the
    text has no digit.  So of 1,234 only the 1 is read. *)
Theorem first_number_is_the_first_run :
  forall t : string,
    (forall ds : string,
        Page.first_number t = Some ds
        <-> exists pre post,
              t = pre ++ ds ++ post /\ Page.no_digit pre = true /\ ds <> ""
              /\ Page.all_digits ds = true /\ Page.ends_number post = true)
    /\ (Page.first_number t = None <-> Page.no_digit t = true).
Proof.
  intros t. split.
  - intros ds. split; [apply first_number_sound|].
    intros (pre & post & -> & Hn & Hne & Hd & Hp).
    now apply first_number_complete.
  - induction t as [|c t IH]; [split; reflexivity|].
    simpl. destruct (Page.is_digit c); simpl; [split; discriminate|exact IH].
Qed.

Lemma uint_string_digits (d : Decimal.uint) :
  Page.all_digits (NilEmpty.string_of_uint d) = true.
Proof. induction d; simpl; auto. Qed.

Lemma str_int_digits (z : Z) :
  0 <= z ->
  Page.all_digits (Py.str_int z) = true /\ Py.str_int z <> ""
  /\ ((String.length (Py.str_int z) <= Page.max_str_digits)%nat ->
      Page.int (Py.str_int z) = Returned z).
Proof.
  intros Hz. destruct z as [|p|p]; [repeat split; discriminate| |lia].
  unfold Py.str_int. cbn [Z.to_int NilZero.string_of_int].
  pose proof (DecimalPos.Unsigned.to_uint_nonnil p) as Hnil.
  pose proof (NilZero.usu (Pos.to_uint p) Hnil) as Hu.
  assert (E : NilZero.string_of_uint (Pos.to_uint p)
              = NilEmpty.string_of_uint (Pos.to_uint p))
    by (destruct (Pos.to_uint p); [contradiction|reflexivity..]).
  split; [rewrite E; apply uint_string_digits|]. split.
  - rewrite E. destruct (Pos.to_uint p); [contradiction|discriminate..].
  - intros Hlen. unfold Page.int.
    destruct (Nat.ltb_spec Page.max_str_digits
                (String.length (NilZero.string_of_uint (Pos.to_uint p))));
      [lia|].
    rewrite Hu. unfold Z.of_uint.
    now rewrite DecimalPos.Unsigned.of_to.
Qed.

(** X20: a number that is printed is read back: for [z] not negative, in a
    text of characters below U+0100 that has no digit before the decimal
    writing of [z] and no digit right after it, [first_number] gives that
    writing; [int] gives [z] when the writing has at most 4300 digits and
    is a [ValueError] when it has more. *)
Theorem printed_number_is_read_back :
  forall (z : Z) (pre post : string),
    0 <= z -> Page.no_digit pre = true -> Page.ends_number post = true ->
    Page.first_number (pre ++ Py.str_int z ++ post) = Some (Py.str_int z)
    /\ ((String.length (Py.str_int z) <= Page.max_str_digits)%nat ->
        Page.int (Py.str_int z) = Returned z)
    /\ ((Page.max_str_digits < String.length (Py.str_int z))%nat ->
        Page.int (Py.str_int z)
        = Raised (Page.too_long (String.length (Py.str_int z)))).
Proof.
  intros z pre post Hz Hn Hp.
  destruct (str_int_digits z Hz) as (Hd & Hne & Hi).
  split; [now apply first_number_complete|]. split; [exact Hi|].
  apply int_too_long.
Qed.

Lemma printed_number_is_read_back_witness :
  Page.first_number ("Points: " ++ Py.str_int 1250 ++ " pts")
    = Some (Py.str_int 1250)
  /\ Page.int (Py.str_int 1250) = Returned 1250.
Proof.
  destruct (printed_number_is_read_back 1250 "Points: " " pts")
    as (H1 & H2 & _); [lia|reflexivity|reflexivity|].
  split; [exact H1|]. apply H2. vm_compute. lia.
Defined.

Lemma year_of_page (s : Page.soup) :
  exists y : option Z,
    match option_map Py.strip (Page.member_text s) with
    | Some t =>
        match Page.member_since t with
        | Some ds => y <- Page.int ds ;; Returned (Some y)
        | None => Returned None
        end
    | None => Returned None
    end = Returned y
    /\ (forall v, y = Some v -> 0 <= v)
    /\ (Page.member_text s = None -> y = None)
    /\ ((forall t, Page.member_text s = Some t ->
                   Page.member_since (Py.strip t) = None) -> y = None).
Proof.
  destruct (Page.member_text s) as [t|]; simpl.
  - destruct (Page.member_since (Py.strip t)) as [ds|] eqn:E.
    + destruct (member_since_sound _ _ E) as (pre & post & _ & Hl & Hd).
      destruct (four_digits_convert ds Hl Hd) as (z & -> & Hz).
      exists (Some z). simpl. repeat split; try discriminate.
      * now intros v [= <-].
      * intros H. specialize (H t eq_refl). congruence.
    + exists None. repeat split; intros; discriminate || reflexivity.
  - exists None. repeat split; intros; discriminate || reflexivity.
Qed.

Lemma points_of_page (s : Page.soup) :
  Page.long_points s = false ->
  exists n : option Z,
    match Page.league s with
    | Some b =>
        match Page.strong b with
        | Some t =>
            match Page.first_number (Py.strip t) with
            | Some ds => p <- Page.int ds ;; Returned (Some p)
            | None => Returned None
            end
        | None => Returned None
        end
    | None => Returned None
    end = Returned n
    /\ (forall v, n = Some v -> 0 <= v)
    /\ (Page.league s = None -> n = None).
Proof.
  unfold Page.long_points, Page.points_digits.
  destruct (Page.league s) as [b|]; simpl.
  - destruct (Page.strong b) as [t|].
    + destruct (Page.first_number (Py.strip t)) as [ds|] eqn:E.
      * intros Hlen. apply Nat.ltb_ge in Hlen.
        destruct (first_number_sound _ _ E)
          as (pre & post & _ & _ & Hne & Hd & _).
        destruct (int_of_digits ds Hd Hne Hlen) as (z & -> & Hz).
        exists (Some z). simpl. repeat split; [|discriminate].
        now intros v [= <-].
      * exists None. repeat split; discriminate.
    + exists None. repeat split; discriminate.
  - exists None. repeat split; discriminate.
Qed.

Lemma points_too_long (s : Page.soup) :
  Page.long_points s = true ->
  exists ds,
    Page.points_digits s = Some ds
    /\ (Page.max_str_digits < String.length ds)%nat
    /\ match Page.league s with
       | Some b =>
           match Page.strong b with
           | Some t =>
               match Page.first_number (Py.strip t) with
               | Some ds => p <- Page.int ds ;; Returned (Some p)
               | None => Returned None
               end
           | None => Returned None
           end
       | None => Returned None
       end
       = Raised (Page.too_long (String.length ds)).
Proof.
  unfold Page.long_points, Page.points_digits.
  destruct (Page.league s) as [b|]; [|discriminate].
  destruct (Page.strong b) as [t|]; [|discriminate].
  destruct (Page.first_number (Py.strip t)) as [ds|]; [|discriminate].
  intros H. apply Nat.ltb_lt in H. exists ds.
  split; [reflexivity|]. split; [exact H|].
  now rewrite (int_too_long ds H).
Qed.

(** X21: on a page whose texts have only characters below U+0100, the
    parsing fails in one case only: when the points are written with more
    than 4300 digits, [int] raises its [ValueError].  On every other such
    page [parse] returns: the badge count is the number of badge elements,
    the year and the points are not negative, a page without league block
    has neither league nor points, and a page without the creation element
    has no year. *)
Theorem parse_returns :
  forall s : Page.soup,
    (Page.long_points s = true ->
     exists ds,
       Page.points_digits s = Some ds
       /\ (Page.max_str_digits < String.length ds)%nat
       /\ Page.parse s = Raised (Page.too_long (String.length ds)))
    /\ (Page.long_points s = false ->
        exists p : Profile.page,
          Page.parse s = Returned p
          /\ Profile.badge_elements p = Page.badge_divs s
          /\ Profile.creation_text p
             = option_map Py.strip (Page.member_text s)
          /\ (forall y, Profile.page_creation_year p = Some y -> 0 <= y)
          /\ (forall n, Profile.page_points p = Some n -> 0 <= n)
          /\ (Page.league s = None ->
              Profile.league_name p = None /\ Profile.page_points p = None)
          /\ (Page.member_text s = None ->
              Profile.page_creation_year p = None)).
Proof.
  intros s. unfold Page.parse.
  destruct (year_of_page s) as (y & -> & Hy1 & Hy2 & _). cbn [bind]. split.
  - intros Hlong. destruct (points_too_long s Hlong) as (ds & E & Hl & ->).
    now exists ds.
  - intros Hshort.
    destruct (points_of_page s Hshort) as (n & -> & Hn1 & Hn2).
    cbn [bind]. eexists. split; [reflexivity|].
    cbn [Profile.badge_elements Profile.creation_text
           Profile.page_creation_year Profile.page_points
           Profile.league_name].
    split; [reflexivity|]. split; [reflexivity|].
    split; [exact Hy1|]. split; [exact Hn1|]. split; [|exact Hy2].
    intros E. split; [now rewrite E|now apply Hn2].
Qed.

Lemma parse_returns_witness :
  (exists ds,
      Page.points_digits Sample.long_soup = Some ds
      /\ (Page.max_str_digits < String.length ds)%nat
      /\ Page.parse Sample.long_soup
         = Raised (Page.too_long (String.length ds)))
  /\ exists p : Profile.page,
       Page.parse Sample.fresh_soup = Returned p
       /\ Profile.badge_elements p = 0%nat.
Proof.
  split.
  - apply (proj1 (parse_returns Sample.long_soup)). vm_compute. reflexivity.
  - destruct (proj2 (parse_returns Sample.fresh_soup) eq_refl)
      as (p & Hp & Hb & _).
    exists p. split; [exact Hp|exact Hb].
Defined.

(** ** From the page to the verdict *)

Lemma url_available_some (r : row) (url : string) :
  url_available r = Some url ->
  no_profile_url r = false
  /\ Skills_Boost_Public_Profile_URL (reg r) = Some url.
Proof.
  unfold url_available, no_profile_url.
  destruct (Skills_Boost_Public_Profile_URL (reg r)) as [u|]; [|discriminate].
  destruct (String.eqb (Py.strip u) ""); [discriminate|].
  now intros [= ->].
Qed.

Lemma not_duplicate_verdict (r : row) :
  incomplete r = false -> terms_declined r = false ->
  no_profile_url r = false -> duplicate r = false ->
  status_eqb (fst (determine_qualification r)) DUPLICATE_ENTRY = false.
Proof. intros H1 H2 H3 H4. by_rules r; try discriminate; reflexivity. Qed.

(** The turn of the loop on a row that is classified twice, when the first
    attempt gives a page. *)
Lemma process_row_on_page (net : Profile.network) (r : row)
  (log : list event) (url : string) (p : Profile.page) :
  url_available r = Some url ->
  incomplete r = false -> terms_declined r = false -> duplicate r = false ->
  net log url = Returned p ->
  process_row net r log
  = (Returned
       (set_verdict (set_profile r (Profile.success p))
          (determine_qualification (set_profile r (Profile.success p)))),
     (log ++ [Get url; Sleep 1])%list).
Proof.
  intros Hurl Hi Ht Hd Hnet.
  destruct (url_available_some r url Hurl) as [Hu _].
  unfold process_row.
  rewrite (skipped_verdict r Hi Ht Hu), (not_duplicate_verdict r Hi Ht Hu Hd).
  rewrite Hurl. unfold Profile.check_profile. cbn [seq Profile.attempts].
  rewrite Hnet. cbn [negb]. now rewrite <- app_assoc.
Qed.

(** X22: a record that is complete, consenting, with a URL and not a later
    duplicate, whose page at the first attempt starts with Member since
    2025 and has no badge element and no league block, is stored with the
    year 2025 and ends HARD_QUALIFIED when its declared email has the
    reserved domain, else QUALIFIED_TIER2 when its two emails are equal,
    else FLAGGED_DIFF_ACCOUNT when the program email has the reserved
    domain, else REVIEW_NEEDED; one request is made. *)
Theorem fresh_2025_page_verdict :
  forall (fetch : list event -> string -> outcome Page.soup) (r : row)
         (log : list event) (url : string) (s : Page.soup)
         (t rest : string),
    url_available r = Some url ->
    incomplete r = false -> terms_declined r = false -> duplicate r = false ->
    fetch log url = Returned s ->
    Page.member_text s = Some t ->
    Py.strip t = "Member since 2025" ++ rest ->
    Page.badge_divs s = 0%nat -> Page.league s = None ->
    exists r' : row,
      process_row (Page.network_of fetch) r log
      = (Returned r', (log ++ [Get url; Sleep 1])%list)
      /\ profile_creation_year r' = Some 2025
      /\ profile_badge_count r' = Some 0
      /\ profile_status r' = Some "success"
      /\ qualification_status r'
         = Some (if email_has_gdg_domain r then HARD_QUALIFIED
                 else if email_matches r then QUALIFIED_TIER2
                 else if skillsboost_has_gdg_domain r
                      then FLAGGED_DIFF_ACCOUNT
                      else REVIEW_NEEDED).
Proof.
  intros fetch r log url s t rest Hurl Hi Ht Hd Hf Hm Hs Hb Hl.
  set (p := {| Profile.creation_text := Some ("Member since 2025" ++ rest);
               Profile.page_creation_year := Some 2025;
               Profile.badge_elements := 0;
               Profile.league_name := None;
               Profile.page_points := None |}).
  assert (Hp : Page.parse s = Returned p).
  { unfold Page.parse. rewrite Hm, Hl, Hb. cbn [option_map]. rewrite Hs.
    assert (E : Page.member_since ("Member since 2025" ++ rest) = Some "2025")
      by reflexivity.
    rewrite E. reflexivity. }
  assert (Hnet : Page.network_of fetch log url = Returned p).
  { unfold Page.network_of. rewrite Hf. exact Hp. }
  rewrite (process_row_on_page _ r log url p Hurl Hi Ht Hd Hnet).
  destruct (url_available_some r url Hurl) as [Hu _].
  eexists. split; [reflexivity|].
  cbn [profile_creation_year profile_badge_count profile_status
         qualification_status set_verdict set_profile Profile.success
         Profile.creation_year Profile.badge_count Profile.status
         Profile.page_creation_year Profile.badge_elements p].
  repeat split. f_equal.
  unfold determine_qualification.
  destruct (rules_ignore_profile r (Profile.success p))
    as (-> & -> & -> & -> & ->).
  rewrite Hi, Ht, Hu, Hd.
  change (hard_qualified (set_profile r (Profile.success p)))
    with (email_has_gdg_domain r && true && true && true && true).
  change (tier2 (set_profile r (Profile.success p)))
    with (email_matches r && true && true && true && true).
  change (has_badges (set_profile r (Profile.success p))) with false.
  change (caution (set_profile r (Profile.success p))) with false.
  change (is2025 (set_profile r (Profile.success p))) with true.
  unfold flagged.
  destruct (email_has_gdg_domain r), (email_matches r),
    (skillsboost_has_gdg_domain r); reflexivity.
Qed.

(** X23: a record that is complete, consenting, with a URL and not a later
    duplicate, whose page at the first attempt, a page of characters below
    U+0100, has no Member since marker and no points written with more
    than 4300 digits, is stored without a creation year and is never
    qualified: it ends FLAGGED_DIFF_ACCOUNT, DISQUALIFIED or UNKNOWN, and
    DISQUALIFIED exactly when it is not flagged and the page has a badge
    element. *)
Theorem page_without_marker_verdict :
  forall (fetch : list event -> string -> outcome Page.soup) (r : row)
         (log : list event) (url : string) (s : Page.soup),
    url_available r = Some url ->
    incomplete r = false -> terms_declined r = false -> duplicate r = false ->
    fetch log url = Returned s ->
    (forall t, Page.member_text s = Some t ->
               Page.member_since (Py.strip t) = None) ->
    Page.long_points s = false ->
    exists (r' : row) (st : status),
      process_row (Page.network_of fetch) r log
      = (Returned r', (log ++ [Get url; Sleep 1])%list)
      /\ profile_creation_year r' = None
      /\ profile_status r' = Some "success"
      /\ qualification_status r' = Some st
      /\ In st [FLAGGED_DIFF_ACCOUNT; DISQUALIFIED; UNKNOWN]
      /\ (st = DISQUALIFIED
          <-> flagged r = false /\ (0 < Page.badge_divs s)%nat).
Proof.
  intros fetch r log url s Hurl Hi Ht Hd Hf Hm Hshort.
  destruct (year_of_page s) as (y & Ey & _ & _ & Hnone).
  destruct (points_of_page s Hshort) as (n & En & _).
  rewrite (Hnone Hm) in Ey. clear Hnone.
  set (p := {| Profile.creation_text
                 := option_map Py.strip (Page.member_text s);
               Profile.page_creation_year := None;
               Profile.badge_elements := Page.badge_divs s;
               Profile.league_name
                 := match Page.league s with
                    | Some b => option_map Py.strip (Page.heading b)
                    | None => None
                    end;
               Profile.page_points := n |}).
  assert (Hp : Page.parse s = Returned p).
  { unfold Page.parse. rewrite Ey. cbn [bind]. rewrite En. reflexivity. }
  assert (Hnet : Page.network_of fetch log url = Returned p).
  { unfold Page.network_of. rewrite Hf. exact Hp. }
  rewrite (process_row_on_page _ r log url p Hurl Hi Ht Hd Hnet).
  destruct (url_available_some r url Hurl) as [Hu _].
  eexists _, (fst (determine_qualification
                     (set_profile r (Profile.success p)))).
  split; [reflexivity|]. split; [reflexivity|]. split; [reflexivity|].
  split; [reflexivity|].
  unfold determine_qualification.
  destruct (rules_ignore_profile r (Profile.success p))
    as (-> & -> & -> & -> & ->).
  rewrite Hi, Ht, Hu, Hd.
  change (hard_qualified (set_profile r (Profile.success p)))
    with (email_has_gdg_domain r && false && no_badges (set_profile r (Profile.success p))
          && no_points (set_profile r (Profile.success p))
          && no_league (set_profile r (Profile.success p))).
  change (tier2 (set_profile r (Profile.success p)))
    with (email_matches r && false && no_badges (set_profile r (Profile.success p))
          && no_league (set_profile r (Profile.success p))
          && no_points (set_profile r (Profile.success p))).
  rewrite !andb_false_r. cbn [andb].
  change (caution (set_profile r (Profile.success p))) with false.
  change (is2025 (set_profile r (Profile.success p))) with false.
  change (pre2025 (set_profile r (Profile.success p))) with false.
  assert (Hb : has_badges (set_profile r (Profile.success p))
               = (0 <? Page.badge_divs s)%nat).
  { unfold has_badges, Py.truthy, Py.gt_int. cbn.
    destruct (Page.badge_divs s) as [|k]; [reflexivity|].
    rewrite Nat2Z.inj_succ.
    destruct (Z.eqb_spec (Z.succ (Z.of_nat k)) 0); [lia|].
    destruct (Z.ltb_spec 0 (Z.succ (Z.of_nat k))); [reflexivity|lia]. }
  rewrite Hb.
  destruct (flagged r); cbn [fst].
  - split; [simpl; tauto|]. split; [discriminate|]. intros [H _]. discriminate.
  - destruct (Nat.ltb_spec 0 (Page.badge_divs s)); cbn [fst].
    + split; [simpl; tauto|]. split; auto.
    + split; [simpl; tauto|]. split; [discriminate|]. intros [_ H']. lia.
Qed.

Lemma fresh_2025_page_verdict_witness :
  exists r' : row,
    process_row (Page.network_of (fun _ _ => Returned Sample.fresh_soup))
      (new_row (Sample.member, false, CInt 0, CInt 1)) []
    = (Returned r',
       ([] ++ [Get "https://www.cloudskillsboost.google/public_profiles/a1";
               Sleep 1])%list)
    /\ profile_creation_year r' = Some 2025
    /\ profile_badge_count r' = Some 0
    /\ profile_status r' = Some "success"
    /\ qualification_status r' = Some HARD_QUALIFIED.
Proof.
  apply (fresh_2025_page_verdict (fun _ _ => Returned Sample.fresh_soup)
           (new_row (Sample.member, false, CInt 0, CInt 1)) []
           "https://www.cloudskillsboost.google/public_profiles/a1"
           Sample.fresh_soup "  Member since 2025 " "");
    reflexivity.
Defined.

Lemma page_without_marker_verdict_witness :
  exists (r' : row) (st : status),
    process_row (Page.network_of (fun _ _ => Returned Sample.bare_soup))
      (new_row (Sample.outsider, false, CInt 0, CInt 1)) []
    = (Returned r',
       ([] ++ [Get "https://www.cloudskillsboost.google/public_profiles/a1";
               Sleep 1])%list)
    /\ profile_creation_year r' = None
    /\ profile_status r' = Some "success"
    /\ qualification_status r' = Some st
    /\ In st [FLAGGED_DIFF_ACCOUNT; DISQUALIFIED; UNKNOWN]
    /\ (st = DISQUALIFIED
        <-> flagged (new_row (Sample.outsider, false, CInt 0, CInt 1)) = false
            /\ (0 < Page.badge_divs Sample.bare_soup)%nat).
Proof.
  apply (page_without_marker_verdict
           (fun _ _ => Returned Sample.bare_soup)
           (new_row (Sample.outsider, false, CInt 0, CInt 1)) []
           "https://www.cloudskillsboost.google/public_profiles/a1"
           Sample.bare_soup);
    try reflexivity.
  intros t H. discriminate H.
Defined.

(** ** A blank URL *)

Lemma lstrip_empty (s : string) :
  Py.lstrip s = "" <-> all_space s = true.
Proof.
  induction s as [|c s IH]; [split; reflexivity|].
  cbn [Py.lstrip all_space]. destruct (Py.isspace c); cbn [andb].
  - exact IH.
  - split; discriminate.
Qed.

Lemma lstrip_starts (s : string) :
  all_space (Py.lstrip s) = true -> Py.lstrip s = "".
Proof.
  induction s as [|c s IH]; [reflexivity|].
  cbn [Py.lstrip]. destruct (Py.isspace c) eqn:E; [exact IH|].
  cbn [all_space]. rewrite E. discriminate.
Qed.

Lemma rev_onto_empty (s acc : string) :
  Py.rev_onto s acc = "" <-> s = "" /\ acc = "".
Proof.
  revert acc. induction s as [|c s IH]; intros acc; cbn [Py.rev_onto].
  - split; [now intros ->|now intros [_ ->]].
  - rewrite IH. split; intros [H1 H2]; discriminate.
Qed.

Lemma all_space_rev_onto (s acc : string) :
  all_space (Py.rev_onto s acc) = all_space s && all_space acc.
Proof.
  revert acc. induction s as [|c s IH]; intros acc; cbn [Py.rev_onto all_space].
  - reflexivity.
  - rewrite IH. cbn [all_space].
    destruct (Py.isspace c), (all_space s), (all_space acc); reflexivity.
Qed.

Lemma strip_empty (s : string) : Py.strip s = "" <-> all_space s = true.
Proof.
  unfold Py.strip, Py.rstrip, Py.rev.
  rewrite rev_onto_empty, lstrip_empty, all_space_rev_onto.
  cbn [all_space]. rewrite andb_true_r. split.
  - intros [H _]. apply lstrip_empty. now apply lstrip_starts.
  - intros H. apply lstrip_empty in H. rewrite H. now split.
Qed.

(** X24: the URL rule and the test before the request agree: a record is
    NO_PROFILE_URL material exactly when its URL is missing or made of
    white space only, and exactly then the loop has no URL to request; a
    URL that is requested is the cell as it is, not stripped.  The URL is
    one of characters below U+0100, where the white space of [strip] is
    tab to carriage return, U+001C to U+0020, U+0085 and U+00A0. *)
Theorem blank_url_is_no_url :
  forall r : row,
    (no_profile_url r = true
     <-> Skills_Boost_Public_Profile_URL (reg r) = None
         \/ exists u, Skills_Boost_Public_Profile_URL (reg r) = Some u
                      /\ all_space u = true)
    /\ (url_available r = None <-> no_profile_url r = true)
    /\ (forall u, url_available r = Some u ->
                  Skills_Boost_Public_Profile_URL (reg r) = Some u
                  /\ all_space u = false).
Proof.
  intros r. unfold no_profile_url, url_available.
  destruct (Skills_Boost_Public_Profile_URL (reg r)) as [u|].
  - destruct (String.eqb_spec (Py.strip u) "") as [E|E]; cbn [negb].
    + split; [|split].
      * split; [|reflexivity]. intros _. right. exists u.
        split; [reflexivity|now apply strip_empty].
      * split; reflexivity.
      * discriminate.
    + split; [|split].
      * split; [discriminate|].
        intros [H|(v & [= <-] & H)]; [discriminate|].
        apply strip_empty in H. contradiction.
      * split; discriminate.
      * intros v [= <-]. split; [reflexivity|].
        destruct (all_space u) eqn:Hs; [|reflexivity].
        apply strip_empty in Hs. contradiction.
  - split; [|split].
    + split; [now left|reflexivity].
    + split; reflexivity.
    + discriminate.
Qed.

(** ** The reserved domain as a containment test *)

Lemma occurs_step (sub s : string) :
  Text.occurs sub s
  = prefix sub s
    || match s with
       | EmptyString => false
       | String _ s' => Text.occurs sub s'
       end.
Proof. destruct s; reflexivity. Qed.

Lemma prefix_iff (sub s : string) :
  prefix sub s = true <-> exists post, s = sub ++ post.
Proof.
  revert s. induction sub as [|a sub IH]; intros s.
  - split; [|destruct s; reflexivity]. intros _. now exists s.
  - destruct s as [|b s]; simpl.
    + split; [discriminate|]. intros [post E]. discriminate.
    + destruct (Ascii.ascii_dec a b) as [->|Hne].
      * rewrite IH. split; intros [post E]; exists post.
        -- now rewrite E.
        -- now injection E.
      * split; [discriminate|]. intros [post E]. injection E as E _.
        congruence.
Qed.

(** [sub in s] holds exactly when [s] has [sub] at some place. *)
Lemma occurs_iff (sub s : string) :
  Text.occurs sub s = true <-> exists pre post, s = pre ++ sub ++ post.
Proof.
  induction s as [|c s IH]; rewrite occurs_step, orb_true_iff, prefix_iff.
  - split.
    + intros [[post E]|H]; [|discriminate]. now exists "", post.
    + intros (pre & post & E). left. exists post.
      destruct pre; [exact E|discriminate].
  - rewrite IH. split.
    + intros [[post E]|(pre & post & E)].
      * now exists "", post.
      * exists (String c pre), post. simpl. now rewrite E.
    + intros (pre & post & E). destruct pre as [|a pre].
      * left. now exists post.
      * right. injection E as _ E. now exists pre, post.
Qed.

Lemma substring_all (s : string) : substring 0 (String.length s) s = s.
Proof. induction s as [|c s IH]; simpl; [reflexivity|now rewrite IH]. Qed.

Lemma substring_tail (s : string) :
  forall k : nat,
    (k <= String.length s)%nat ->
    exists pre, s = pre ++ substring k (String.length s - k) s.
Proof.
  induction s as [|c s IH]; intros k Hk.
  - exists "". simpl in Hk. now destruct k.
  - destruct k as [|k].
    + exists "". rewrite Nat.sub_0_r. now rewrite substring_all.
    + simpl in Hk. destruct (IH k) as [pre E]; [lia|].
      exists (String c pre). cbn [String.length Nat.sub substring append].
      now rewrite <- E.
Qed.

(** [s.endswith(suffix)] gives the text before the suffix. *)
Lemma endswith_split (s suffix : string) :
  Text.endswith s suffix = true -> exists pre, s = pre ++ suffix.
Proof.
  unfold Text.endswith. intros H. apply andb_prop in H. destruct H as [Hl He].
  apply Nat.leb_le in Hl. apply String.eqb_eq in He.
  destruct (substring_tail s (String.length s - String.length suffix))
    as [pre E]; [lia|].
  replace (String.length s - (String.length s - String.length suffix))%nat
    with (String.length suffix) in E by lia.
  rewrite He in E. now exists pre.
Qed.

Lemma append_empty_r (s : string) : s ++ "" = s.
Proof. induction s as [|c s IH]; simpl; [reflexivity|now rewrite IH]. Qed.

Lemma append_assoc (a b c : string) : (a ++ b) ++ c = a ++ b ++ c.
Proof. induction a as [|x a IH]; simpl; [reflexivity|now rewrite IH]. Qed.

Lemma contains_gdg_domain (pre post : string) :
  has_gdg_domain (Some (pre ++ gdg_domain ++ post)) = true.
Proof.
  unfold has_gdg_domain, Re.contains. apply search_iff.
  exists pre, (gdg_domain ++ post). split; [reflexivity|].
  apply gdg_pattern_here. exists "."%char, "."%char, post.
  repeat split; discriminate.
Qed.

(** C5, amended: the test of the two email columns is a containment test
    and not a suffix test.  An email that has the reserved domain
    .gdgocbcet@gmail.com at some place passes, be it at its end or in its
    middle; a missing email does not pass, and no email passes that does
    not have gdgocbcet@gmail in it.  On every row of the frame the two
    columns of rules 5 and 7 are this test on the declared email and on
    the program email of the row. *)
Theorem gdg_domain_is_contained :
  (forall s : string,
      Text.occurs gdg_domain s = true -> has_gdg_domain (Some s) = true)
  /\ (forall s : string,
        Text.endswith s gdg_domain = true -> has_gdg_domain (Some s) = true)
  /\ (forall pre post : string,
        has_gdg_domain (Some (pre ++ gdg_domain ++ post)) = true)
  /\ has_gdg_domain None = false
  /\ (forall s : string,
        has_gdg_domain (Some s) = true ->
        Text.occurs "gdgocbcet@gmail" s = true)
  /\ (forall (data : list registration) (r : row),
        In r (frame data) ->
        email_has_gdg_domain r = has_gdg_domain (Email_Address (reg r))
        /\ skillsboost_has_gdg_domain r
           = has_gdg_domain (Skills_Boost_Email (reg r))).
Proof.
  split; [|split; [|split; [|split; [|split]]]].
  - intros s H. apply occurs_iff in H. destruct H as (pre & post & ->).
    apply contains_gdg_domain.
  - intros s H. apply endswith_split in H. destruct H as (pre & ->).
    rewrite <- (append_empty_r gdg_domain). apply contains_gdg_domain.
  - exact contains_gdg_domain.
  - reflexivity.
  - intros s H. unfold has_gdg_domain, Re.contains in H.
    apply search_iff in H. destruct H as (pre & rest & -> & H).
    apply gdg_pattern_here in H.
    destruct H as (c1 & c2 & post & -> & _). apply occurs_iff.
    exists (pre ++ String c1 ""), (String c2 ("com" ++ post)).
    now rewrite append_assoc.
  - intros data r Hf.
    destruct (frame_row_fresh data r Hf) as (dup & grp & pos & E).
    rewrite E. split; reflexivity.
Qed.

(** ** The valid subset and its percentages *)

Lemma excluded_is_invalid (s : status) :
  isin s Summary.invalid_statuses = excluded_status s.
Proof. destruct s; reflexivity. Qed.

(** Once every row has a verdict, the entries line 272 keeps are the
    valid subset. *)
Lemma valid_entries_subset (df : list row) :
  Forall (fun r => qualification_status r <> None) df ->
  valid_entries df = valid_subset df.
Proof.
  intros Hall. unfold valid_entries, valid_subset. apply filter_ext_in.
  intros r Hr. unfold Summary.status_isin.
  rewrite Forall_forall in Hall. specialize (Hall r Hr).
  destruct (qualification_status r) as [s|]; [|contradiction].
  now rewrite excluded_is_invalid.
Qed.

Lemma count_rows_with (l : list row) (s : status) :
  count_occ status_eq_dec (Summary.statuses l) s = rows_with s l.
Proof.
  unfold rows_with. induction l as [|r l IH]; [reflexivity|].
  rewrite length_filter_cons. cbn [Summary.statuses]. unfold has_status at 1.
  destruct (qualification_status r) as [t|]; [|exact IH].
  cbn [count_occ]. unfold status_eqb.
  destruct (status_eq_dec t s); rewrite IH; reflexivity.
Qed.

Lemma statuses_in (l : list row) (s : status) :
  In s (Summary.statuses l)
  <-> exists r, In r l /\ qualification_status r = Some s.
Proof.
  induction l as [|r l IH]; simpl.
  - split; [contradiction|]. intros (r & [] & _).
  - destruct (qualification_status r) as [t|] eqn:E; simpl; rewrite IH; split.
    + intros [->|(x & Hx & Hs)]; [now exists r; auto|exists x; auto].
    + intros (x & [<-|Hx] & Hs); [left; congruence|right; now exists x].
    + intros (x & Hx & Hs). exists x; auto.
    + intros (x & [<-|Hx] & Hs); [congruence|now exists x].
Qed.

Lemma distinct_in (col : list status) (s : status) :
  In s (Summary.distinct col) <-> In s col.
Proof.
  unfold Summary.distinct. rewrite <- in_rev, nodup_In, <- in_rev. reflexivity.
Qed.

Lemma value_counts_statuses (df : list row) :
  Permutation (map fst (Summary.value_counts df))
    (Summary.distinct (Summary.statuses df)).
Proof.
  unfold Summary.value_counts.
  rewrite <- (Permutation_map fst (by_count_perm _)).
  rewrite map_map. cbn [fst]. now rewrite map_id.
Qed.

(** The first verdict that is not INCOMPLETE_REGISTRATION is that of a
    row with its four cells. *)
Lemma complete_verdict (r : row) :
  fst (determine_qualification r) <> INCOMPLETE_REGISTRATION ->
  incomplete r = false.
Proof.
  unfold determine_qualification. destruct (incomplete r); [|reflexivity].
  intros H. now contradiction H.
Qed.

Lemma process_rows_verdicts (net : Profile.network) (rows : list row) :
  forall (df : list row) (log log' : list event),
    process_rows net rows log = (Returned df, log') ->
    Forall
      (fun r' =>
         qualification_status r' = Some (fst (determine_qualification r')))
      df.
Proof.
  induction rows as [|r rows IH]; intros df log log' H.
  - injection H as <- _. constructor.
  - simpl in H.
    destruct (process_row net r log) as [[r'|e] log1] eqn:E1; [|discriminate].
    destruct (process_rows net rows log1) as [[rs|e] log2] eqn:E2;
      [|discriminate].
    injection H as <- _. constructor.
    + exact (proj1 (process_row_stores_verdict net r r' log log1 E1)).
    + exact (IH rs log1 log2 E2).
Qed.

Lemma frame_regs (data : list registration) :
  Permutation (map reg (frame data)) data.
Proof.
  unfold frame. rewrite <- (Permutation_map reg (sort_values_perm _)).
  now rewrite marked_is_marked_from, marked_from_reg.
Qed.

Lemma str_accessor_text (col : list (option string)) :
  existsb Py.notna col = true -> str_accessor col = Returned tt.
Proof.
  unfold str_accessor. destruct col; [reflexivity|]. now intros ->.
Qed.

(** A file with a valid entry has text in its two email columns. *)
Lemma text_columns (net : Profile.network) (data : list registration)
  (df : list row) (log : list event) :
  process_rows net (frame data) [] = (Returned df, log) ->
  (0 < List.length (valid_subset df))%nat ->
  str_accessor (map Email_Address data) = Returned tt
  /\ str_accessor (map Skills_Boost_Email data) = Returned tt.
Proof.
  intros Hrun Hvalid.
  destruct (valid_subset df) as [|r rest] eqn:Ev; [simpl in Hvalid; lia|].
  assert (Hr : In r (valid_subset df)) by (rewrite Ev; now left).
  unfold valid_subset in Hr. apply filter_In in Hr. destruct Hr as [Hin Hs].
  pose proof (process_rows_verdicts net _ _ _ _ Hrun) as Hv.
  rewrite Forall_forall in Hv. specialize (Hv r Hin). rewrite Hv in Hs.
  assert (Hc : incomplete r = false).
  { apply complete_verdict. intros E. rewrite E in Hs. discriminate. }
  assert (Hd : In (reg r) data).
  { apply (Permutation_in _ (frame_regs data)).
    rewrite <- (proj1 (process_rows_length net _ _ _ _ Hrun)).
    now apply in_map. }
  unfold incomplete in Hc. apply orb_false_elim in Hc. destruct Hc as [Hc _].
  apply orb_false_elim in Hc. destruct Hc as [Hc Hsb].
  apply orb_false_elim in Hc. destruct Hc as [_ He].
  split; apply str_accessor_text, existsb_exists.
  - exists (Email_Address (reg r)). split; [now apply in_map|].
    unfold Py.notna. now rewrite He.
  - exists (Skills_Boost_Email (reg r)). split; [now apply in_map|].
    unfold Py.notna. now rewrite Hsb.
Qed.

Lemma filter_within {A : Type} (h g : A -> bool) (l : list A) :
  (forall x, h x = true -> g x = true) ->
  filter h (filter g l) = filter h l.
Proof.
  intros H. induction l as [|a l IH]; [reflexivity|].
  simpl. destruct (g a) eqn:Eg; simpl; destruct (h a) eqn:Eh;
    rewrite ?IH; try reflexivity.
  apply H in Eh. congruence.
Qed.

(** The valid subset has all the rows of a status it does not leave out. *)
Lemma rows_with_valid (s : status) (df : list row) :
  excluded_status s = false ->
  rows_with s (valid_subset df) = rows_with s df.
Proof.
  intros Hs. unfold rows_with, valid_subset.
  rewrite filter_within; [reflexivity|].
  intros r Hr. unfold has_status in Hr.
  destruct (qualification_status r) as [t|]; [|discriminate].
  unfold status_eqb in Hr.
  destruct (status_eq_dec t s) as [->|]; [|discriminate]. now rewrite Hs.
Qed.

(** C8: the valid subset is made of the rows whose verdict is none of
    INCOMPLETE_REGISTRATION, TERMS_DECLINED, NO_PROFILE_URL and
    DUPLICATE_ENTRY.  When the loop leaves it with a row, the summary is
    computed and its count of valid entries is the size of the subset; the
    breakdown of the valid entries has one line for each status of the
    subset and no other; a line gives a status, the number of rows of the
    subset with that status and that number divided by the size of the
    subset, not by the number of entries, times 100; these percentages add
    up to 100. *)
Theorem valid_percentages_sum_to_100 :
  forall (net : Profile.network) (data : list registration)
         (df : list row) (log : list event),
    process_rows net (frame data) [] = (Returned df, log) ->
    (0 < List.length (valid_subset df))%nat ->
    exists rep : Summary.report,
      fst (main net data) = Returned rep
      /\ Summary.total_entries rep = List.length df
      /\ Summary.valid_count rep = List.length (valid_subset df)
      /\ Forall
           (fun x : status * nat * Q =>
              excluded_status (fst (fst x)) = false
              /\ (0 < snd (fst x))%nat
              /\ snd (fst x) = rows_with (fst (fst x)) (valid_subset df)
              /\ snd (fst x) = rows_with (fst (fst x)) df
              /\ (snd x
                  == (Z.of_nat (snd (fst x))
                        # Pos.of_nat (List.length (valid_subset df))) * 100)%Q)
           (Summary.valid_breakdown rep)
      /\ NoDup (map (fun x => fst (fst x)) (Summary.valid_breakdown rep))
      /\ (forall s : status,
            excluded_status s = false -> (0 < rows_with s df)%nat ->
            In s (map (fun x => fst (fst x)) (Summary.valid_breakdown rep)))
      /\ (sum_of_percentages (Summary.valid_breakdown rep) == 100)%Q.
Proof.
  intros net data df log Hrun Hvalid.
  destruct (process_rows_length net _ _ _ _ Hrun) as [_ Hall].
  assert (Hsub : Forall (fun r => qualification_status r <> None)
                   (valid_subset df)).
  { apply Forall_forall. intros r Hr. unfold valid_subset in Hr.
    apply filter_In in Hr. rewrite Forall_forall in Hall. now apply Hall. }
  assert (Htotal : (0 < List.length df)%nat).
  { pose proof (filter_length_le
                  (fun r => match qualification_status r with
                            | Some s => negb (excluded_status s)
                            | None => false
                            end) df) as Hle.
    unfold valid_subset in Hvalid. lia. }
  pose proof (fun s => rows_with_valid s df) as Hsame.
  destruct (text_columns net data df log Hrun Hvalid) as [Ha Hb].
  unfold main. rewrite Ha, Hb, Hrun. unfold Summary.summary.
  fold (valid_entries df). rewrite (valid_entries_subset df Hall).
  rewrite (breakdown_returns _ _ Htotal). cbn [bind].
  rewrite (percent_returns _ _ Htotal). cbn [bind].
  destruct (Nat.ltb_spec 0 (List.length (valid_subset df))) as [_|]; [|lia].
  rewrite (breakdown_returns _ _ Hvalid). cbn [bind].
  rewrite !(percent_returns _ _ Hvalid). cbn [bind fst].
  eexists. split; [reflexivity|].
  cbn [Summary.total_entries Summary.valid_count Summary.valid_breakdown].
  split; [reflexivity|]. split; [reflexivity|].
  assert (Hlines : forall s,
            In s (map fst (Summary.value_counts (valid_subset df)))
            <-> In s (Summary.statuses (valid_subset df))).
  { intros s. split; intros H.
    - apply distinct_in. exact (Permutation_in _ (value_counts_statuses _) H).
    - apply (Permutation_in _ (Permutation_sym (value_counts_statuses _))).
      now apply distinct_in. }
  assert (Hkept : forall s,
            In s (Summary.statuses (valid_subset df)) ->
            excluded_status s = false).
  { intros s Hs. apply statuses_in in Hs. destruct Hs as (r & Hr & Es).
    unfold valid_subset in Hr. apply filter_In in Hr.
    destruct Hr as [_ Hr]. rewrite Es in Hr.
    now apply negb_true_iff in Hr. }
  rewrite map_map. cbn [fst].
  split; [|split; [|split]].
  - apply Forall_forall. intros [[s c] pc] Hin.
    apply in_map_iff in Hin. destruct Hin as ([s' c'] & E & Hin).
    cbn [fst snd] in E. injection E as -> -> <-. cbn [fst snd].
    assert (Hs : In s (Summary.statuses (valid_subset df))).
    { apply Hlines. apply in_map_iff. now exists (s, c). }
    apply value_counts_entries in Hin. rewrite count_rows_with in Hin.
    assert (Hex : excluded_status s = false) by now apply Hkept.
    split; [exact Hex|]. split; [|split; [exact Hin|split]].
    + rewrite Hin, <- count_rows_with.
      now apply (count_occ_In status_eq_dec).
    + now rewrite Hin, Hsame.
    + reflexivity.
  - apply (Permutation_NoDup (Permutation_sym (value_counts_statuses _))).
    unfold Summary.distinct. apply NoDup_rev, NoDup_nodup.
  - intros s Hex Hpos. apply Hlines.
    rewrite <- (Hsame s Hex), <- count_rows_with in Hpos.
    now apply (count_occ_In status_eq_dec).
  - rewrite shares_add_up, value_counts_total, statuses_length by exact Hsub.
    now apply whole_share.
Qed.

Lemma valid_percentages_sum_to_100_witness :
  List.length Sample.trio_rows = 3%nat
  /\ List.length (valid_subset Sample.trio_rows) = 2%nat
  /\ exists rep : Summary.report,
       fst (main Sample.online Sample.trio) = Returned rep
       /\ Summary.total_entries rep = List.length Sample.trio_rows
       /\ Summary.valid_count rep
          = List.length (valid_subset Sample.trio_rows)
       /\ Forall
            (fun x : status * nat * Q =>
               excluded_status (fst (fst x)) = false
               /\ (0 < snd (fst x))%nat
               /\ snd (fst x)
                  = rows_with (fst (fst x)) (valid_subset Sample.trio_rows)
               /\ snd (fst x) = rows_with (fst (fst x)) Sample.trio_rows
               /\ (snd x
                   == (Z.of_nat (snd (fst x))
                         # Pos.of_nat
                             (List.length (valid_subset Sample.trio_rows)))
                      * 100)%Q)
            (Summary.valid_breakdown rep)
       /\ NoDup (map (fun x => fst (fst x)) (Summary.valid_breakdown rep))
       /\ (forall s : status,
             excluded_status s = false ->
             (0 < rows_with s Sample.trio_rows)%nat ->
             In s (map (fun x => fst (fst x)) (Summary.valid_breakdown rep)))
       /\ (sum_of_percentages (Summary.valid_breakdown rep) == 100)%Q.
Proof.
  split; [reflexivity|]. split; [reflexivity|].
  apply (valid_percentages_sum_to_100 Sample.online Sample.trio
           Sample.trio_rows Sample.trio_log).
  - vm_compute. reflexivity.
  - vm_compute. lia.
Defined.
